(** * Bulk Item Import: a shallow embedding of [bulk_item_import.py]

  The importer reads a delimited file of items, optional prices and
  optional opening stock, and drives a record store (Frappe) with item
  upserts, price upserts and one stock reconciliation per warehouse.

  Conventions of the embedding:
  - a Python [str] is a [string]; a character stands for a code point
    below 256, and [strip]/[lower] follow Python on that range;
  - [None]-able values are [option]s, Python truthiness is written out;
  - the record store is an explicit [World] threaded through a small
    state-and-exception monad; an exception keeps the world as it was
    when raised (the host's transaction handling is outside the model);
  - every mutating store call is also appended to a journal, so that
    "which operations were issued" can be stated;
  - [frappe.utils] ([flt], [cint]), the [csv] reader and the store's
    acceptance of a stock reconciliation are parameters of the
    development. *)

From Stdlib Require Import ZArith Ascii String DecimalString.
From stdpp Require Import base option list gmap sets strings.

Set Default Proof Using "Type".

(** ** Python strings *)

Module Py.

(** [str.isspace] on code points below 256. *)
Definition isspace (a : ascii) : bool :=
  let n := N_of_ascii a in
  ((9 <=? n) && (n <=? 13) || (28 <=? n) && (n <=? 32)
   || (n =? 133) || (n =? 160))%N.

Fixpoint lstrip (s : string) : string :=
  match s with
  | EmptyString => EmptyString
  | String a s' => if isspace a then lstrip s' else s
  end.

Fixpoint rstrip (s : string) : string :=
  match s with
  | EmptyString => EmptyString
  | String a s' =>
      match rstrip s' with
      | EmptyString => if isspace a then EmptyString else String a EmptyString
      | t => String a t
      end
  end.

(** [s.strip()] *)
Definition strip (s : string) : string := rstrip (lstrip s).

(** [str.lower] on code points below 256: A-Z and the Latin-1 capitals. *)
Definition lower_char (a : ascii) : ascii :=
  let n := N_of_ascii a in
  if ((65 <=? n) && (n <=? 90)
      || (192 <=? n) && (n <=? 222) && negb (n =? 215))%N
  then ascii_of_N (n + 32) else a.

Fixpoint map_chars (f : ascii -> ascii) (s : string) : string :=
  match s with
  | EmptyString => EmptyString
  | String a s' => String (f a) (map_chars f s')
  end.

Definition lower (s : string) : string := map_chars lower_char s.

(** [s.replace(old, new)] for one-character [old] and [new]. *)
Definition replace_char (old new : ascii) (s : string) : string :=
  map_chars (fun a => if Ascii.eqb a old then new else a) s.

(** [sep.join(l)] *)
Fixpoint join (sep : string) (l : list string) : string :=
  match l with
  | [] => ""
  | [x] => x
  | x :: l' => x +:+ sep +:+ join sep l'
  end.

(** [sub in s] *)
Fixpoint contains (sub s : string) : bool :=
  String.prefix sub s ||
  match s with
  | EmptyString => false
  | String _ s' => contains sub s'
  end.

(** [str(n)] for a non-negative integer. *)
Definition str_nat (n : nat) : string :=
  NilZero.string_of_uint (Nat.to_uint n).

(** Truthiness of a string. *)
Definition nonempty (s : string) : bool :=
  match s with EmptyString => false | String _ _ => true end.

(** Truthiness of a value that is a string or [None]. *)
Definition truthy (o : option string) : bool :=
  match o with Some s => nonempty s | None => false end.

(** [a or b] where [a] is a string or [None]. *)
Definition or_else (a b : option string) : option string :=
  if truthy a then a else b.

(** [str(x)] / f-string rendering of a string or [None]. *)
Definition render (o : option string) : string :=
  match o with Some s => s | None => "None" end.

Definition newline : string := String (ascii_of_N 10) EmptyString.

End Py.


(** ** [frappe.utils] *)

(** The numeric helpers of [frappe.utils].  A Python float is kept
    abstract: the importer only parses it, compares it with zero and
    stores it. *)
Class FrappeUtils := {
  float : Type;
  flt : string -> float;          (* flt(s): lenient float parse *)
  float_zero : float;             (* the literal 0 *)
  float_pos : float -> bool;      (* x > 0 *)
  cint : string -> Z;             (* cint(s): lenient int parse *)
}.

(** ** Documents *)

(** A scalar field value of a document. *)
Inductive Value :=
| VNone
| VStr (s : string)
| VInt (z : Z).

#[global] Instance Value_eq_dec : EqDecision Value.
Proof. solve_decision. Defined.

(** An Item document: its scalar fields and its [taxes] child table. *)
Record Item := {
  fields : gmap string Value;
  taxes : list (gmap string Value);
}.

(** The columns of an Account that the importer fetches. *)
Record Account := {
  account_type : option string;
  root_type : option string;
  is_group : bool;
  company : option string;
}.

(** A cell of a row as [csv.DictReader] yields it: a short row leaves
    [None], a long row collects the overflow in a list under the key
    [None]. *)
Inductive Cell :=
| CNone
| CStr (s : string)
| CList (l : list string).

(** [row.items()] of a [csv.DictReader] row. *)
Abbreviation RawRow := (list (option string * Cell)).

(** The Bulk Item Import document ([self]), but for [import_log]. *)
Record Settings := {
  csv_file : option string;
  delimiter : option string;
  default_company : option string;
  default_currency : option string;
  default_price_list : option string;
  default_warehouse : option string;
  difference_account : option string;
  dry_run : bool;
  update_existing : bool;
  skip_item_price : bool;
  skip_stock_reconciliation : bool;
}.

(** The counts [import_csv] returns. *)
Record Summary := {
  sum_created_items : nat;
  sum_updated_items : nat;
  sum_created_prices : nat;
  sum_updated_prices : nat;
  sum_stock_reconciliations : nat;
}.

Inductive Exn :=
| ValidationError (msg : string)   (* frappe.throw, frappe.ValidationError *)
| AttributeError
| TypeError
| PermissionError
| DoesNotExistError.

Inductive Outcome (A : Type) :=
| Returned (a : A)
| Raised (e : Exn).
Arguments Returned {A} a.
Arguments Raised {A} e.

(** Insertion-ordered dictionaries with string keys (a Python [dict]
    that is iterated). *)
Fixpoint dict_get {V} (k : string) (d : list (string * V)) : option V :=
  match d with
  | [] => None
  | (k', v) :: d' => if decide (k = k') then Some v else dict_get k d'
  end.

Fixpoint dict_set {V} (k : string) (v : V) (d : list (string * V))
  : list (string * V) :=
  match d with
  | [] => [(k, v)]
  | (k', v') :: d' =>
      if decide (k = k') then (k, v) :: d' else (k', v') :: dict_set k v d'
  end.

Section Documents.
Context `{FrappeUtils}.

(** An Item Price document. *)
Record ItemPrice := {
  ip_item_code : string;
  ip_price_list : option string;
  ip_currency : option string;
  ip_rate : float;
  ip_selling : bool;
}.

(** One entry of [stock_map[warehouse]]. *)
Record Payload := {
  qty : float;
  valuation_rate : float;
}.

Record StockRecoItem := {
  sri_item_code : string;
  sri_warehouse : string;
  sri_qty : float;
  sri_valuation_rate : float;
}.

(** A Stock Reconciliation document. *)
Record StockReco := {
  purpose : string;
  sr_company : option string;
  posting_date : string;
  posting_time : string;
  sr_difference_account : option string;
  sr_items : list StockRecoItem;
}.

(** Mutating calls on Item, Item Price and Stock Reconciliation. *)
Inductive Op :=
| ItemInsert (code : string) (doc : Item)
| ItemSave (code : string) (doc : Item)
| PriceInsert (doc : ItemPrice)
| PriceSave (name : nat) (rate : float)
| RecoInsert (doc : StockReco)
| RecoSubmit (doc : StockReco).

(** What the importer only reads. *)
Record Env := {
  accounts : gmap string Account;
  global_default_company : option string;
  global_default_currency : option string;
  files : gmap string string;     (* file_url, decoded content *)
  may_write : bool;               (* self.check_permission("write") *)
  nowdate : string;
  nowtime : string;
}.

(** The record store and the sinks. An Item is keyed by its name, which
    is its item code; an Item Price is named by its position. *)
Record World := {
  env : Env;
  items : gmap string Item;
  prices : list ItemPrice;
  recos : list (StockReco * bool);     (* document, submitted *)
  import_log : option string;          (* self.import_log *)
  error_log : list (string * string);  (* frappe.log_error(message, title) *)
  journal : list Op;                   (* oldest first *)
}.

Definition set_items (f : gmap string Item -> gmap string Item) (w : World) :=
  {| env := env w; items := f (items w); prices := prices w;
     recos := recos w; import_log := import_log w;
     error_log := error_log w; journal := journal w |}.
Definition set_prices (f : list ItemPrice -> list ItemPrice) (w : World) :=
  {| env := env w; items := items w; prices := f (prices w);
     recos := recos w; import_log := import_log w;
     error_log := error_log w; journal := journal w |}.
Definition set_recos (f : list (StockReco * bool) -> list (StockReco * bool))
  (w : World) :=
  {| env := env w; items := items w; prices := prices w;
     recos := f (recos w); import_log := import_log w;
     error_log := error_log w; journal := journal w |}.
Definition set_import_log (m : string) (w : World) :=
  {| env := env w; items := items w; prices := prices w;
     recos := recos w; import_log := Some m;
     error_log := error_log w; journal := journal w |}.
Definition add_error_log (m title : string) (w : World) :=
  {| env := env w; items := items w; prices := prices w;
     recos := recos w; import_log := import_log w;
     error_log := error_log w ++ [(m, title)]; journal := journal w |}.
Definition record (o : Op) (w : World) :=
  {| env := env w; items := items w; prices := prices w;
     recos := recos w; import_log := import_log w;
     error_log := error_log w; journal := journal w ++ [o] |}.

(** The locals of [import_csv] that the row loop updates. *)
Record Locals := {
  created_items : nat;
  updated_items : nat;
  created_prices : nat;
  updated_prices : nat;
  errors : list string;
  log_lines : list string;
  stock_map : list (string * list (string * Payload));
  stock_seen : gset (string * string);
}.

Definition init_locals : Locals :=
  {| created_items := 0; updated_items := 0; created_prices := 0;
     updated_prices := 0; errors := []; log_lines := [];
     stock_map := []; stock_seen := ∅ |}.

Definition add_error (e : string) (l : Locals) : Locals :=
  {| created_items := created_items l; updated_items := updated_items l;
     created_prices := created_prices l; updated_prices := updated_prices l;
     errors := errors l ++ [e]; log_lines := log_lines l;
     stock_map := stock_map l; stock_seen := stock_seen l |}.
Definition add_note (n : string) (l : Locals) : Locals :=
  {| created_items := created_items l; updated_items := updated_items l;
     created_prices := created_prices l; updated_prices := updated_prices l;
     errors := errors l; log_lines := log_lines l ++ [n];
     stock_map := stock_map l; stock_seen := stock_seen l |}.
Definition count_items (c u : nat) (l : Locals) : Locals :=
  {| created_items := created_items l + c; updated_items := updated_items l + u;
     created_prices := created_prices l; updated_prices := updated_prices l;
     errors := errors l; log_lines := log_lines l;
     stock_map := stock_map l; stock_seen := stock_seen l |}.
Definition count_prices (c u : nat) (l : Locals) : Locals :=
  {| created_items := created_items l; updated_items := updated_items l;
     created_prices := created_prices l + c;
     updated_prices := updated_prices l + u;
     errors := errors l; log_lines := log_lines l;
     stock_map := stock_map l; stock_seen := stock_seen l |}.
Definition put_stock (item_code warehouse : string) (p : Payload) (l : Locals)
  : Locals :=
  {| created_items := created_items l; updated_items := updated_items l;
     created_prices := created_prices l; updated_prices := updated_prices l;
     errors := errors l; log_lines := log_lines l;
     stock_map :=
       dict_set warehouse
         (dict_set item_code p (default [] (dict_get warehouse (stock_map l))))
         (stock_map l);
     stock_seen := stock_seen l ∪ {[ (item_code, warehouse) ]} |}.

End Documents.

(** ** The host: csv reader and document store behaviour *)

Class Host `{FrappeUtils} := {
  (* csv.DictReader(io.StringIO(content), delimiter=d), iterated; the
     csv module rejects some delimiters *)
  csv_DictReader : string -> string -> Outcome (list RawRow);
  (* frappe.new_doc("Item") *)
  new_item_doc : Item;
  (* the ValidationError, if any, of stock_reco.insert / .submit *)
  reco_insert_error : World -> StockReco -> option string;
  reco_submit_error : World -> StockReco -> option string;
}.

(** ** The store monad *)

Section Importer.
Context `{Host}.

Definition M (A : Type) : Type := World -> Outcome A * World.

Definition ret {A} (a : A) : M A := fun w => (Returned a, w).

Definition raise {A} (e : Exn) : M A := fun w => (Raised e, w).

Definition bind {A B} (m : M A) (k : A -> M B) : M B :=
  fun w =>
    match m w with
    | (Returned a, w') => k a w'
    | (Raised e, w') => (Raised e, w')
    end.

Notation "'let*' x ':=' m 'in' k" := (bind m (fun x => k))
  (at level 10, x name, m at level 100, k at level 200).
Notation "m ';;' k" := (bind m (fun _ => k))
  (at level 100, k at level 200, right associativity).

(** [frappe.throw(msg)] *)
Definition throw {A} (msg : string) : M A := raise (ValidationError msg).

Definition reads {A} (f : World -> A) : M A := fun w => (Returned (f w), w).

Definition modify (f : World -> World) : M unit := fun w => (Returned tt, f w).

(** [try: m  except frappe.ValidationError as e: handler(str(e))] *)
Definition try_validation {A} (m : M A) (handler : string -> M A) : M A :=
  fun w =>
    match m w with
    | (Raised (ValidationError msg), w') => handler msg w'
    | r => r
    end.

(** ** Store calls *)

(** [frappe.db.get_value("Account", name, [...], as_dict=True)] *)
Definition get_account (name : string) : M (option Account) :=
  reads (fun w => accounts (env w) !! name).

(** [frappe.db.exists("Item", item_code)], as a truth value *)
Definition item_exists (item_code : string) : M bool :=
  reads (fun w => bool_decide (is_Some (items w !! item_code))).

(** [frappe.get_doc("Item", item_code)] *)
Definition get_item (item_code : string) : M Item :=
  fun w =>
    match items w !! item_code with
    | Some doc => (Returned doc, w)
    | None => (Raised DoesNotExistError, w)
    end.

(** [item.save(ignore_permissions=True)] *)
Definition item_save (item_code : string) (doc : Item) : M unit :=
  modify (fun w => record (ItemSave item_code doc)
                     (set_items (insert item_code doc) w)).

(** [item.insert(ignore_permissions=True)] *)
Definition item_insert (item_code : string) (doc : Item) : M unit :=
  modify (fun w => record (ItemInsert item_code doc)
                     (set_items (insert item_code doc) w)).

(** The filters of [_upsert_item_price]: item code, price list,
    currency, and [selling = 1]. *)
Definition price_matches (item_code : string) (price_list currency : option string)
  (p : ItemPrice) : bool :=
  bool_decide (ip_item_code p = item_code) &&
  bool_decide (ip_price_list p = price_list) &&
  bool_decide (ip_currency p = currency) &&
  ip_selling p.

(** [frappe.db.get_value("Item Price", filters, "name")] *)
Definition find_price (item_code : string) (price_list currency : option string)
  : M (option nat) :=
  reads (fun w =>
    fst <$> list_find (fun p => Is_true (price_matches item_code price_list currency p))
              (prices w)).

Definition with_rate (rate : float) (p : ItemPrice) : ItemPrice :=
  {| ip_item_code := ip_item_code p; ip_price_list := ip_price_list p;
     ip_currency := ip_currency p; ip_rate := rate;
     ip_selling := ip_selling p |}.

(** [price_doc = frappe.get_doc("Item Price", existing);
     price_doc.price_list_rate = rate; price_doc.save(...)] *)
Definition price_save (name : nat) (rate : float) : M unit :=
  fun w =>
    match prices w !! name with
    | Some p =>
        (Returned tt,
         record (PriceSave name rate)
           (set_prices (fun ps => <[name := with_rate rate p]> ps) w))
    | None => (Raised DoesNotExistError, w)
    end.

(** [price_doc.insert(ignore_permissions=True)] *)
Definition price_insert (doc : ItemPrice) : M unit :=
  modify (fun w => record (PriceInsert doc) (set_prices (fun ps => ps ++ [doc]) w)).

(** [stock_reco.insert(ignore_permissions=True)]; returns where the
    document was stored. *)
Definition reco_insert (doc : StockReco) : M nat :=
  fun w =>
    match reco_insert_error w doc with
    | Some msg => (Raised (ValidationError msg), w)
    | None =>
        (Returned (length (recos w)),
         record (RecoInsert doc) (set_recos (fun rs => rs ++ [(doc, false)]) w))
    end.

(** [stock_reco.submit()] *)
Definition reco_submit (name : nat) (doc : StockReco) : M unit :=
  fun w =>
    match reco_submit_error w doc with
    | Some msg => (Raised (ValidationError msg), w)
    | None =>
        (Returned tt,
         record (RecoSubmit doc)
           (set_recos (fun rs => <[name := (doc, true)]> rs) w))
    end.

(** ** Module-level helpers of [bulk_item_import.py] *)

(** [_normalize_header] *)
Definition _normalize_header (header : option string) : string :=
  Py.replace_char "-" "_"
    (Py.replace_char " " "_"
       (Py.lower (Py.strip (default "" header)))).

(** [(v or "").strip()]; a non-empty list has no [strip]. *)
Definition cell_text (v : Cell) : Outcome string :=
  match v with
  | CNone => Returned (Py.strip "")
  | CStr s => Returned (Py.strip s)
  | CList [] => Returned (Py.strip "")
  | CList (_ :: _) => Raised AttributeError
  end.

(** [{_normalize_header(k): (v or "").strip() for k, v in row.items()}] *)
Fixpoint normalize_into (acc : gmap string string) (row : RawRow)
  : Outcome (gmap string string) :=
  match row with
  | [] => Returned acc
  | (k, v) :: row' =>
      let key := _normalize_header k in
      match cell_text v with
      | Returned t => normalize_into (<[key := t]> acc) row'
      | Raised e => Raised e
      end
  end.

Definition normalize_row (row : RawRow) : Outcome (gmap string string) :=
  normalize_into ∅ row.

(** [_get_value(row, *keys)] *)
Fixpoint _get_value (row : gmap string string) (keys : list string) : string :=
  match keys with
  | [] => ""
  | key :: keys' =>
      match row !! key with
      | Some (String a s) => String a s
      | _ => _get_value row keys'
      end
  end.

(** [_parse_bool] on the string [_get_value] returns. *)
Definition _parse_bool (value : string) : Value :=
  match value with
  | EmptyString => VNone
  | _ => VInt (cint (Py.strip value))
  end.

(** [value not in (None, "")] *)
Definition assignable (v : Value) : bool :=
  match v with
  | VNone => false
  | VStr EmptyString => false
  | _ => true
  end.

(** [item.set(field, value)] *)
Definition item_set (field : string) (value : Value) (item : Item) : Item :=
  {| fields := <[field := value]> (fields item); taxes := taxes item |}.

(** The [field_map] of [_apply_item_fields], in its order. *)
Definition field_map (normalized : gmap string string)
  (item_name item_group stock_uom : string) : list (string * Value) :=
  [ ("item_name", VStr item_name);
    ("item_group", VStr item_group);
    ("stock_uom", VStr stock_uom);
    ("description", VStr (_get_value normalized ["description"]));
    ("gst_hsn_code", VStr (_get_value normalized ["gst_hsn_code"; "hsn"; "hsn_code"]));
    ("barcode", VStr (_get_value normalized ["barcode"]));
    ("brand", VStr (_get_value normalized ["brand"]));
    ("manufacturer", VStr (_get_value normalized ["manufacturer"]));
    ("disabled", _parse_bool (_get_value normalized ["disabled"]));
    ("is_stock_item",
      _parse_bool (_get_value normalized ["is_stock_item"; "is_stock"])) ].

(** [for field, value in field_map.items(): if value not in (None, ""):
    item.set(field, value)] *)
Fixpoint set_fields (fm : list (string * Value)) (item : Item) : Item :=
  match fm with
  | [] => item
  | (field, value) :: fm' =>
      set_fields fm' (if assignable value then item_set field value item else item)
  end.

(** [item.set("taxes", []); item.append("taxes", {...})] *)
Definition set_single_tax (item_tax : string) (item : Item) : Item :=
  {| fields := fields item;
     taxes := [] ++ [ {[ "item_tax_template" := VStr item_tax ]} ] |}.

(** [_apply_item_fields] *)
Definition _apply_item_fields (item : Item) (normalized : gmap string string)
  (item_name item_group stock_uom : string) : Item :=
  let fm := field_map normalized item_name item_group stock_uom in
  let item_tax := _get_value normalized ["item_tax"; "item_tax_template"] in
  let item := set_fields fm item in
  if Py.nonempty item_tax then set_single_tax item_tax item else item.

(** [_upsert_item_price]; returns [(created, updated)]. *)
Definition _upsert_item_price (item_code : string)
  (price_list currency : option string) (rate : float) (update_existing : bool)
  : M (nat * nat) :=
  let* existing := find_price item_code price_list currency in
  match existing with
  | Some name =>
      if update_existing then
        price_save name rate ;; ret (0, 1)
      else ret (0, 0)
  | None =>
      price_insert
        {| ip_item_code := item_code; ip_price_list := price_list;
           ip_currency := currency; ip_rate := rate; ip_selling := true |} ;;
      ret (1, 0)
  end.

(** ** [BulkItemImport._write_log] *)

(** [f"- {key.replace('_', ' ').title()}: {value}"] over the summary. *)
Definition summary_lines (s : Summary) : list string :=
  [ "- Created Items: " +:+ Py.str_nat (sum_created_items s);
    "- Updated Items: " +:+ Py.str_nat (sum_updated_items s);
    "- Created Prices: " +:+ Py.str_nat (sum_created_prices s);
    "- Updated Prices: " +:+ Py.str_nat (sum_updated_prices s);
    "- Stock Reconciliations: " +:+ Py.str_nat (sum_stock_reconciliations s) ].

Definition log_output (errors log_lines : list string) (summary : option Summary)
  : list string :=
  match summary with
  | Some s => ["Summary"] ++ summary_lines s ++ [""]
  | None => []
  end ++
  match log_lines with
  | [] => []
  | _ => ["Notes"] ++ log_lines ++ [""]
  end ++
  match errors with
  | [] => []
  | _ => ["Errors"] ++ errors
  end.

Definition log_message (errors log_lines : list string) (summary : option Summary)
  : string :=
  Py.strip (Py.join Py.newline (log_output errors log_lines summary)).

Definition _write_log (errors log_lines : list string) (summary : option Summary)
  (is_error : bool) : M unit :=
  let message := log_message errors log_lines summary in
  (if Py.nonempty message then modify (set_import_log message) else ret tt) ;;
  if is_error then modify (add_error_log message "Bulk Item Import") else ret tt.

(** ** [BulkItemImport.import_csv] *)

(** What lines 60-103 establish for the rest of the run. *)
Record Resolved := {
  r_company : option string;            (* default_company *)
  r_currency : option string;           (* default_currency *)
  r_account : option Account;           (* account_details *)
}.

(** [(self.delimiter or ",").strip() or ","] *)
Definition effective_delimiter (self : Settings) : string :=
  let d := Py.strip (Py.render (Py.or_else (delimiter self) (Some ","))) in
  if Py.nonempty d then d else ",".

Definition msg_account_required : string :=
  "Difference Account is required for Stock Reconciliation. " +:+
  "Please set a valid Asset/Liability account.".
Definition msg_account_missing (acc : string) : string :=
  "Account " +:+ acc +:+ " does not exist.".
Definition msg_account_group (acc : string) : string :=
  "Account '" +:+ acc +:+ "' is a Group account. " +:+
  "Please select a Ledger account (not a group).".
Definition msg_account_type (acc : string) (root : option string) : string :=
  "Account '" +:+ acc +:+ "' is of type '" +:+ Py.render root +:+ "'. " +:+
  "Please select an Asset or Liability account.".
Definition msg_account_company (acc : string) (theirs ours : option string)
  : string :=
  "Account '" +:+ acc +:+ "' belongs to company '" +:+ Py.render theirs +:+ "'. " +:+
  "Please select an account from company '" +:+ Py.render ours +:+ "'.".

(** Lines 60-103: defaults and the difference account. *)
Definition resolve_config (self : Settings) : M Resolved :=
  let* company0 :=
    if Py.truthy (default_company self) then ret (default_company self)
    else reads (fun w => global_default_company (env w)) in
  let* currency0 :=
    if Py.truthy (default_currency self) then ret (default_currency self)
    else reads (fun w => global_default_currency (env w)) in
  (if negb (Py.truthy (difference_account self))
      && negb (skip_stock_reconciliation self)
   then throw msg_account_required else ret tt) ;;
  if Py.truthy (difference_account self) then
    let acc := Py.render (difference_account self) in
    let* account_details := get_account acc in
    match account_details with
    | None => throw (msg_account_missing acc)
    | Some details =>
        let company1 :=
          if negb (Py.truthy company0) then company details else company0 in
        if is_group details then throw (msg_account_group acc)
        else if negb (bool_decide (root_type details ∈ [Some "Asset"; Some "Liability"]))
        then throw (msg_account_type acc (root_type details))
        else if Py.truthy company1
                && negb (bool_decide (company details = company1))
        then throw (msg_account_company acc (company details) company1)
        else ret {| r_company := company1; r_currency := currency0;
                    r_account := Some details |}
    end
  else ret {| r_company := company0; r_currency := currency0;
              r_account := None |}.

Definition row_prefix (row_idx : nat) : string :=
  "Row " +:+ Py.str_nat row_idx +:+ ": ".

(** Lines 136-148: the item upsert of a validated row. *)
Definition upsert_item (self : Settings) (normalized : gmap string string)
  (item_code item_name item_group stock_uom : string) (exists_ : bool)
  (l : Locals) : M Locals :=
  if negb (dry_run self) then
    if exists_ then
      let* item := get_item item_code in
      if update_existing self then
        item_save item_code
          (_apply_item_fields item normalized item_name item_group stock_uom) ;;
        ret (count_items 0 1 l)
      else ret l
    else
      let item := item_set "item_code" (VStr item_code) new_item_doc in
      item_insert item_code
        (_apply_item_fields item normalized item_name item_group stock_uom) ;;
      ret (count_items 1 0 l)
  else ret l.

(** Lines 150-172: the price upsert of a validated row. *)
Definition price_step (self : Settings) (ctx : Resolved)
  (normalized : gmap string string) (item_code : string) (l : Locals)
  : M Locals :=
  if negb (skip_item_price self) then
    let price_list :=
      Py.or_else (Some (_get_value normalized ["price_list"]))
        (default_price_list self) in
    let price_list_rate :=
      _get_value normalized
        ["price_list_rate"; "standard_selling_rate"; "standard_rate"] in
    let currency :=
      Py.or_else (Some (_get_value normalized ["currency"])) (r_currency ctx) in
    if Py.truthy price_list && Py.nonempty price_list_rate then
      let rate := flt price_list_rate in
      if negb (dry_run self) then
        let* cu := _upsert_item_price item_code price_list currency rate
                     (update_existing self) in
        ret (count_prices (fst cu) (snd cu) l)
      else ret l
    else ret l
  else ret l.

Definition msg_duplicate_stock (row_idx : nat) (item_code warehouse : string)
  : string :=
  row_prefix row_idx +:+ "Duplicate stock row for " +:+ item_code +:+ " in " +:+
  warehouse +:+ "; using first occurrence.".

(** Lines 174-195: the stock contribution of a validated row. *)
Definition stock_step (self : Settings) (normalized : gmap string string)
  (row_idx : nat) (item_code : string) (l : Locals) : Locals :=
  if negb (skip_stock_reconciliation self) then
    let warehouse :=
      Py.or_else (Some (_get_value normalized ["warehouse"]))
        (default_warehouse self) in
    let opening_qty :=
      _get_value normalized ["opening_qty"; "opening_stock"; "qty"] in
    let valuation_rate :=
      _get_value normalized ["valuation_rate"; "valuation"; "rate"] in
    match warehouse with
    | Some wh =>
        if Py.nonempty wh && Py.nonempty opening_qty then
          let qty := flt opening_qty in
          if float_pos qty then
            if bool_decide ((item_code, wh) ∈ stock_seen l) then
              add_note (msg_duplicate_stock row_idx item_code wh) l
            else
              put_stock item_code wh
                {| qty := qty;
                   valuation_rate :=
                     if Py.nonempty valuation_rate then flt valuation_rate
                     else float_zero |} l
          else l
        else l
    | None => l
    end
  else l.

(** Lines 106-195: one iteration of the row loop. *)
Definition process_row (self : Settings) (ctx : Resolved) (row_idx : nat)
  (row : RawRow) (l : Locals) : M Locals :=
  match normalize_row row with
  | Raised e => raise e
  | Returned normalized =>
      let item_code := _get_value normalized ["item_code"; "itemcode"; "sku"] in
      let item_name := _get_value normalized ["item_name"; "itemname"; "item"] in
      let item_group := _get_value normalized ["item_group"; "itemgroup"; "group"] in
      let stock_uom := _get_value normalized ["stock_uom"; "uom"; "stockuom"] in
      if negb (Py.nonempty item_code) then
        ret (add_error (row_prefix row_idx +:+ "Missing Item Code") l)
      else
        let* exists_ := item_exists item_code in
        if negb exists_ && negb (Py.nonempty item_name) then
          ret (add_error (row_prefix row_idx +:+
                          "Item Name required for new Item " +:+ item_code) l)
        else if negb exists_ && negb (Py.nonempty item_group) then
          ret (add_error (row_prefix row_idx +:+
                          "Item Group required for new Item " +:+ item_code) l)
        else if negb exists_ && negb (Py.nonempty stock_uom) then
          ret (add_error (row_prefix row_idx +:+
                          "Stock UOM required for new Item " +:+ item_code) l)
        else
          let* l1 := upsert_item self normalized item_code item_name item_group
                       stock_uom exists_ l in
          let* l2 := price_step self ctx normalized item_code l1 in
          ret (stock_step self normalized row_idx item_code l2)
  end.

(** [for row_idx, row in enumerate(reader, start=...)] *)
Fixpoint scan_rows (self : Settings) (ctx : Resolved) (row_idx : nat)
  (rows : list RawRow) (l : Locals) : M Locals :=
  match rows with
  | [] => ret l
  | row :: rows' =>
      let* l' := process_row self ctx row_idx row l in
      scan_rows self ctx (S row_idx) rows' l'
  end.

Definition msg_invalid_difference_account (acc : option string) (error_msg : string)
  : string :=
  "Invalid Difference Account: " +:+ Py.render acc +:+ ". " +:+
  "It must be an Asset or Liability type account. " +:+
  "Error: " +:+ error_msg.

(** Lines 205-222: the Stock Reconciliation of one warehouse. *)
Definition build_reco (self : Settings) (ctx : Resolved) (warehouse : string)
  (items_ : list (string * Payload)) (date time : string) : StockReco :=
  {| purpose := "Opening Stock";
     sr_company := r_company ctx;
     posting_date := date;
     posting_time := time;
     sr_difference_account :=
       if Py.truthy (difference_account self) then difference_account self
       else None;
     sr_items :=
       map (fun ip =>
              {| sri_item_code := fst ip; sri_warehouse := warehouse;
                 sri_qty := qty (snd ip);
                 sri_valuation_rate := valuation_rate (snd ip) |}) items_ |}.

(** Lines 202-237: [for warehouse, items in stock_map.items()]. *)
Fixpoint submit_recos (self : Settings) (ctx : Resolved)
  (groups : list (string * list (string * Payload))) (stock_recos : nat)
  : M nat :=
  match groups with
  | [] => ret stock_recos
  | (warehouse, items_) :: groups' =>
      match items_ with
      | [] => submit_recos self ctx groups' stock_recos
      | _ :: _ =>
          let* date := reads (fun w => nowdate (env w)) in
          let* time := reads (fun w => nowtime (env w)) in
          let doc := build_reco self ctx warehouse items_ date time in
          let* n :=
            try_validation
              (let* name := reco_insert doc in
               reco_submit name doc ;;
               ret (S stock_recos))
              (fun error_msg =>
                 if Py.contains "Difference Account" error_msg
                    || Py.contains "Asset" error_msg
                 then throw (msg_invalid_difference_account
                               (difference_account self) error_msg)
                 else raise (ValidationError error_msg)) in
          submit_recos self ctx groups' n
      end
  end.

(** Lines 197-257: after the row loop. *)
Definition finish (self : Settings) (ctx : Resolved) (l : Locals) : M Summary :=
  (match errors l with
   | [] => ret tt
   | _ :: _ =>
       _write_log (errors l) (log_lines l) None true ;;
       throw (Py.join Py.newline (errors l))
   end) ;;
  let* stock_recos :=
    if negb (skip_stock_reconciliation self) && negb (dry_run self)
    then submit_recos self ctx (stock_map l) 0
    else ret 0 in
  let summary :=
    {| sum_created_items := created_items l;
       sum_updated_items := updated_items l;
       sum_created_prices := created_prices l;
       sum_updated_prices := updated_prices l;
       sum_stock_reconciliations := stock_recos |} in
  _write_log (errors l) (log_lines l) (Some summary) false ;;
  ret summary.

(** Lines 48-257: [import_csv] once the reader is at hand. *)
Definition import_rows (self : Settings) (rows : list RawRow) : M Summary :=
  let* ctx := resolve_config self in
  let* l := scan_rows self ctx 2 rows init_locals in
  finish self ctx l.

(** [BulkItemImport.import_csv] *)
Definition import_csv (self : Settings) : M Summary :=
  (let* allowed := reads (fun w => may_write (env w)) in
   if allowed then ret tt else raise PermissionError) ;;
  (if negb (Py.truthy (csv_file self))
   then throw "Please attach a CSV file before importing." else ret tt) ;;
  let* content :=
    fun w =>
      match files (env w) !! Py.render (csv_file self) with
      | Some c => (Returned c, w)
      | None => (Raised DoesNotExistError, w)
      end in
  let delimiter_ := effective_delimiter self in
  match csv_DictReader content delimiter_ with
  | Raised e => raise e
  | Returned rows => import_rows self rows
  end.

End Importer.

(** ** Reading the claims: definitions that follow the specification *)

Section Reading.
Context `{Host}.

(** The four per-row checks, in the order the specification lists them. *)
Inductive RowFailure :=
| MissingItemCode
| MissingItemName
| MissingItemGroup
| MissingStockUom.

Definition first_failure (item_known : bool)
  (item_code item_name item_group stock_uom : string) : option RowFailure :=
  if negb (Py.nonempty item_code) then Some MissingItemCode
  else if negb item_known && negb (Py.nonempty item_name) then Some MissingItemName
  else if negb item_known && negb (Py.nonempty item_group) then Some MissingItemGroup
  else if negb item_known && negb (Py.nonempty stock_uom) then Some MissingStockUom
  else None.

Definition failure_message (row_idx : nat) (item_code : string) (f : RowFailure)
  : string :=
  row_prefix row_idx +:+
  match f with
  | MissingItemCode => "Missing Item Code"
  | MissingItemName => "Item Name required for new Item " +:+ item_code
  | MissingItemGroup => "Item Group required for new Item " +:+ item_code
  | MissingStockUom => "Stock UOM required for new Item " +:+ item_code
  end.

(** The canonical fields of a normalized row. *)
Definition item_code_of (n : gmap string string) : string :=
  _get_value n ["item_code"; "itemcode"; "sku"].
Definition item_name_of (n : gmap string string) : string :=
  _get_value n ["item_name"; "itemname"; "item"].
Definition item_group_of (n : gmap string string) : string :=
  _get_value n ["item_group"; "itemgroup"; "group"].
Definition stock_uom_of (n : gmap string string) : string :=
  _get_value n ["stock_uom"; "uom"; "stockuom"].

(** Whether the store knows an item code. *)
Definition known (w : World) (item_code : string) : bool :=
  bool_decide (is_Some (items w !! item_code)).

(** The failure, if any, of a normalized row against a store. *)
Definition row_failure (w : World) (n : gmap string string) : option RowFailure :=
  first_failure (known w (item_code_of n)) (item_code_of n) (item_name_of n)
    (item_group_of n) (stock_uom_of n).

(** The stock contribution a row proposes: item code, warehouse and
    payload, when the warehouse and a positive quantity are given. *)
Definition row_contribution (self : Settings) (n : gmap string string)
  : option (string * string * Payload) :=
  match Py.or_else (Some (_get_value n ["warehouse"])) (default_warehouse self) with
  | Some wh =>
      let opening_qty := _get_value n ["opening_qty"; "opening_stock"; "qty"] in
      let rate := _get_value n ["valuation_rate"; "valuation"; "rate"] in
      if Py.nonempty wh && Py.nonempty opening_qty && float_pos (flt opening_qty)
      then Some (item_code_of n, wh,
                 {| qty := flt opening_qty;
                    valuation_rate :=
                      if Py.nonempty rate then flt rate else float_zero |})
      else None
  | None => None
  end.

(** The price key a row proposes (item code, price list, currency),
    when a price list and a rate are given. *)
Definition row_price_key (self : Settings) (ctx : Resolved)
  (n : gmap string string) : option (string * option string * option string) :=
  let price_list :=
    Py.or_else (Some (_get_value n ["price_list"])) (default_price_list self) in
  let rate :=
    _get_value n ["price_list_rate"; "standard_selling_rate"; "standard_rate"] in
  if Py.truthy price_list && Py.nonempty rate
  then Some (item_code_of n, price_list,
             Py.or_else (Some (_get_value n ["currency"])) (r_currency ctx))
  else None.

(** The recorded contributions, in the order they are submitted. *)
Definition contributions (m : list (string * list (string * Payload)))
  : list (string * string * Payload) :=
  concat (map (fun g => map (fun e => (fst e, fst g, snd e)) (snd g)) m).

Definition same_key (item_code warehouse : string)
  (c : string * string * Payload) : bool :=
  bool_decide (fst (fst c) = item_code) && bool_decide (snd (fst c) = warehouse).

(** Item and price upserts, as opposed to stock reconciliation calls. *)
Definition is_upsert (o : Op) : bool :=
  match o with
  | ItemInsert _ _ | ItemSave _ _ | PriceInsert _ | PriceSave _ _ => true
  | RecoInsert _ | RecoSubmit _ => false
  end.

(** The conditions under which the specification says configuration
    resolution fails. *)
Definition account_required (self : Settings) : Prop :=
  Py.truthy (difference_account self) = false /\
  skip_stock_reconciliation self = false.
Definition account_of (self : Settings) (w : World) : option Account :=
  accounts (env w) !! Py.render (difference_account self).
Definition account_not_found (self : Settings) (w : World) : Prop :=
  Py.truthy (difference_account self) = true /\ account_of self w = None.
Definition account_is_group (self : Settings) (w : World) : Prop :=
  Py.truthy (difference_account self) = true /\
  exists a, account_of self w = Some a /\ is_group a = true.
Definition account_wrong_type (self : Settings) (w : World) : Prop :=
  Py.truthy (difference_account self) = true /\
  exists a, account_of self w = Some a /\
            root_type a <> Some "Asset" /\ root_type a <> Some "Liability".
Definition listed_config_failure (self : Settings) (w : World) : Prop :=
  account_required self \/ account_not_found self w \/
  account_is_group self w \/ account_wrong_type self w.

(** The company the importer starts from: the settings' company, else
    the store-wide default. *)
Definition given_company (self : Settings) (w : World) : option string :=
  if Py.truthy (default_company self) then default_company self
  else global_default_company (env w).

Definition account_other_company (self : Settings) (w : World) : Prop :=
  Py.truthy (difference_account self) = true /\
  exists a, account_of self w = Some a /\
            Py.truthy (given_company self w) = true /\
            company a <> given_company self w.

(** A delimiter made of whitespace only (the empty one included). *)
Fixpoint only_whitespace (s : string) : bool :=
  match s with
  | EmptyString => true
  | String a s' => Py.isspace a && only_whitespace s'
  end.

Definition with_update_existing (b : bool) (self : Settings) : Settings :=
  {| csv_file := csv_file self; delimiter := delimiter self;
     default_company := default_company self;
     default_currency := default_currency self;
     default_price_list := default_price_list self;
     default_warehouse := default_warehouse self;
     difference_account := difference_account self;
     dry_run := dry_run self; update_existing := b;
     skip_item_price := skip_item_price self;
     skip_stock_reconciliation := skip_stock_reconciliation self |}.




(** Whether the store holds a selling price under a key. *)
Definition price_known (w : World) (item_code : string)
  (price_list currency : option string) : Prop :=
  exists p, p ∈ prices w /\ price_matches item_code price_list currency p = true.

(** [l1] differs from [l] in its counters at most. *)
Definition only_counters (l l1 : Locals) : Prop :=
  errors l1 = errors l /\ log_lines l1 = log_lines l /\
  stock_map l1 = stock_map l /\ stock_seen l1 = stock_seen l.

(** [w1] comes from [w] by item and price upserts alone: nothing is
    forgotten, and no other part of the world is touched. *)
Definition upserts_only (w w1 : World) : Prop :=
  env w1 = env w /\ recos w1 = recos w /\
  import_log w1 = import_log w /\ error_log w1 = error_log w /\
  (exists ops, journal w1 = journal w ++ ops /\ forallb is_upsert ops = true) /\
  (forall c, known w c = true -> known w1 c = true) /\
  (forall c pl cur, price_known w c pl cur -> price_known w1 c pl cur).

(** [w1] differs from [w] in the import log and the error log at most:
    no item, price or stock reconciliation call was issued. *)
Definition logs_only (w w1 : World) : Prop :=
  env w1 = env w /\ items w1 = items w /\ prices w1 = prices w /\
  recos w1 = recos w /\ journal w1 = journal w.

(** [w1] comes from [w] by stock reconciliation calls alone. *)
Definition recos_only (w w1 : World) : Prop :=
  env w1 = env w /\ items w1 = items w /\ prices w1 = prices w /\
  import_log w1 = import_log w /\ error_log w1 = error_log w /\
  exists ops, journal w1 = journal w ++ ops /\
              forallb (fun o => negb (is_upsert o)) ops = true.

(** The summary [import_csv] returns for the counters of [l]. *)
Definition summary_of (l : Locals) (stock_recos : nat) : Summary :=
  {| sum_created_items := created_items l;
     sum_updated_items := updated_items l;
     sum_created_prices := created_prices l;
     sum_updated_prices := updated_prices l;
     sum_stock_reconciliations := stock_recos |}.

(** A row whose item, and whose price if it proposes one and prices
    are imported, the store already holds. *)
Definition row_installed (self : Settings) (ctx : Resolved) (w : World)
  (row : RawRow) : Prop :=
  exists n,
    normalize_row row = Returned n /\
    Py.nonempty (item_code_of n) = true /\
    known w (item_code_of n) = true /\
    (skip_item_price self = false ->
     forall c pl cur, row_price_key self ctx n = Some (c, pl, cur) ->
                      price_known w c pl cur).

(** Whether a raw row proposes a stock contribution for a key. *)
Definition proposes (self : Settings) (item_code warehouse : string)
  (row : RawRow) : bool :=
  match normalize_row row with
  | Returned n =>
      match row_contribution self n with
      | Some c => same_key item_code warehouse c
      | None => false
      end
  | Raised _ => false
  end.

(** The stock bookkeeping of the row loop: [stock_seen] holds exactly
    the keys of the recorded contributions, each recorded once. *)
Definition stock_inv (l : Locals) : Prop :=
  NoDup (map fst (contributions (stock_map l))) /\
  forall c wh, (c, wh) ∈ stock_seen l <->
               (c, wh) ∈ map fst (contributions (stock_map l)).

End Reading.

(** ** A concrete host, store and files for the examples *)

Module Demo.

(** Decimal digits only; anything else parses as zero. *)
Fixpoint digits_value (acc : Z) (s : string) : option Z :=
  match s with
  | EmptyString => Some acc
  | String a s' =>
      let n := Z.of_N (N_of_ascii a) in
      if ((48 <=? n) && (n <=? 57))%Z
      then digits_value (10 * acc + (n - 48))%Z s'
      else None
  end.

Definition parse_int (s : string) : Z := default 0%Z (digits_value 0 s).

#[global] Instance utils : FrappeUtils :=
  {| float := Z; flt := parse_int; float_zero := 0%Z;
     float_pos := fun z => (0 <? z)%Z; cint := parse_int |}.

Fixpoint split_on (sep : ascii) (s : string) : list string :=
  match s with
  | EmptyString => [EmptyString]
  | String a s' =>
      if Ascii.eqb a sep then EmptyString :: split_on sep s'
      else match split_on sep s' with
           | [] => [String a EmptyString]
           | x :: xs => String a x :: xs
           end
  end.

Fixpoint zip_row (header cells : list string) : RawRow :=
  match header, cells with
  | [], [] => []
  | [], _ :: _ => [(None, CList cells)]
  | h :: hs, [] => (Some h, CNone) :: zip_row hs []
  | h :: hs, c :: cs => (Some h, CStr c) :: zip_row hs cs
  end.

(** A reader without quoting: a one-character delimiter, the first line
    is the header, blank lines are skipped. *)
Definition reader (content d : string) : Outcome (list RawRow) :=
  match d with
  | String c EmptyString =>
      match split_on (ascii_of_N 10) content with
      | [] => Returned []
      | h :: lines =>
          Returned (map (zip_row (split_on c h))
                      (map (split_on c)
                         (filter (fun ln => ln <> EmptyString) lines)))
      end
  | _ => Raised TypeError
  end.

(** A store that rejects a stock reconciliation without a company. *)
#[global] Instance host : Host :=
  {| csv_DictReader := reader;
     new_item_doc := {| fields := ∅; taxes := [] |};
     reco_insert_error := fun _ _ => None;
     reco_submit_error := fun _ doc =>
       if Py.truthy (sr_company doc) then None
       else Some "Company is mandatory" |}.

Definition ledger (root company_ : string) : Account :=
  {| account_type := Some "Stock Adjustment"; root_type := Some root;
     is_group := false; company := Some company_ |}.

Definition lines (l : list string) : string := Py.join Py.newline l.

Definition the_env (gc : option string) (content : string) : Env :=
  {| accounts :=
       <["Temporary Opening - A" := ledger "Asset" "Acme"]>
         (<["Expenses - A" := ledger "Expense" "Acme"]>
            (<["Assets - A" :=
                 {| account_type := None; root_type := Some "Asset";
                    is_group := true; company := Some "Acme" |}]>
               (<["Unassigned - X" :=
                    {| account_type := None; root_type := Some "Liability";
                       is_group := false; company := None |}]> ∅)));
     global_default_company := gc;
     global_default_currency := Some "USD";
     files := {[ "/files/items.csv" := content ]};
     may_write := true;
     nowdate := "2024-01-01";
     nowtime := "09:00:00" |}.

Definition the_world (gc : option string) (content : string)
  (its : gmap string Item) : World :=
  {| env := the_env gc content; items := its; prices := []; recos := [];
     import_log := None; error_log := []; journal := [] |}.

Definition the_settings (delim company_ account : option string)
  (dry update no_price no_stock : bool) : Settings :=
  {| csv_file := Some "/files/items.csv"; delimiter := delim;
     default_company := company_; default_currency := None;
     default_price_list := Some "Standard Selling";
     default_warehouse := None; difference_account := account;
     dry_run := dry; update_existing := update;
     skip_item_price := no_price; skip_stock_reconciliation := no_stock |}.

Definition cells (l : list (string * string)) : RawRow :=
  map (fun kv => (Some (fst kv), CStr (snd kv))) l.

(** The two rows of the end-to-end example of the specification. *)
Definition widget_row : RawRow :=
  cells [("item_code", "ITM1"); ("item_name", "Widget"); ("item_group", "Parts");
         ("stock_uom", "Nos"); ("warehouse", "WH1"); ("opening_qty", "10")].
Definition widget_again : RawRow :=
  cells [("item_code", "ITM1"); ("warehouse", "WH1"); ("opening_qty", "5")].
(** A row without an item code. *)
Definition nameless_row : RawRow :=
  cells [("item_code", ""); ("item_name", "Gadget")].
(** A new item with a price. *)
Definition priced_row : RawRow :=
  cells [("Item Code", "ITM2"); ("Item-Name", "Bolt"); ("group", "Parts");
         ("UOM", "Nos"); ("standard_rate", "12")].

Definition an_item : Item :=
  {| fields := <["item_name" := VStr "Old name"]>
                 (<["brand" := VStr "Old brand"]>
                    (<["item_code" := VStr "ITM1"]> ∅));
     taxes := [ {[ "item_tax_template" := VStr "GST 5" ]};
                {[ "item_tax_template" := VStr "GST 12" ]} ] |}.

Definition account_a : option string := Some "Temporary Opening - A".

(** What a run returned (or [d] if it raised), and a row normalized. *)
Definition value_of {A} (d : A) (r : Outcome A * World) : A :=
  match r.1 with Returned a => a | Raised _ => d end.
Definition normalized (row : RawRow) : gmap string string :=
  match normalize_row row with Returned n => n | Raised _ => ∅ end.

(** The payloads of the two widget rows. *)
Definition ten : Payload := {| qty := 10%Z; valuation_rate := 0%Z |}.
Definition five : Payload := {| qty := 5%Z; valuation_rate := 0%Z |}.

(** The context of a run with [account_a] for company Acme. *)
Definition the_ctx : Resolved :=
  {| r_company := Some "Acme"; r_currency := Some "USD";
     r_account := Some (ledger "Asset" "Acme") |}.

End Demo.

(** ** Further readings of the code *)

(** Every character of a string satisfies [p]. *)
Fixpoint all_chars (p : ascii -> bool) (s : string) : bool :=
  match s with
  | EmptyString => true
  | String a s' => p a && all_chars p s'
  end.

(** A character a normalized header can hold: no space, no hyphen, no
    capital A-Z. *)
Definition header_char (a : ascii) : bool :=
  let n := N_of_ascii a in
  (negb (n =? 32) && negb (n =? 45) && negb ((65 <=? n) && (n <=? 90)))%N.

(** What [_normalize_header] does to one character: [lower], then the
    two [replace]. *)
Definition header_map (a : ascii) : ascii :=
  let b := Py.lower_char a in
  let c := if Ascii.eqb b " " then "_"%char else b in
  if Ascii.eqb c "-" then "_"%char else c.

(** A key that gives [_get_value] nothing: absent, or empty. *)
Definition blank_at (row : gmap string string) (key : string) : Prop :=
  row !! key = None \/ row !! key = Some "".

(** A row that is longer than the header. *)
Definition overflowing (row : RawRow) : Prop :=
  exists k x xs, (k, CList (x :: xs)) ∈ row.

Definition zero_summary : Summary :=
  {| sum_created_items := 0; sum_updated_items := 0; sum_created_prices := 0;
     sum_updated_prices := 0; sum_stock_reconciliations := 0 |}.

Section Further.
Context `{HH : Host}.

Definition is_item_insert (o : Op) : bool :=
  match o with ItemInsert _ _ => true | _ => false end.
Definition is_item_save (o : Op) : bool :=
  match o with ItemSave _ _ => true | _ => false end.
Definition is_price_insert (o : Op) : bool :=
  match o with PriceInsert _ => true | _ => false end.
Definition is_price_save (o : Op) : bool :=
  match o with PriceSave _ _ => true | _ => false end.
Definition is_reco_insert (o : Op) : bool :=
  match o with RecoInsert _ => true | _ => false end.
Definition is_reco_submit (o : Op) : bool :=
  match o with RecoSubmit _ => true | _ => false end.

(** How many calls of a kind a journal holds. *)
Definition count_ops (p : Op -> bool) (ops : list Op) : nat :=
  length (List.filter p ops).

(** The warehouses that have something to reconcile. *)
Definition filled (groups : list (string * list (string * Payload)))
  : list (string * list (string * Payload)) :=
  List.filter (fun g => match g.2 with [] => false | _ :: _ => true end) groups.

(** The reconciliation of one warehouse, dated by the clock of [w]. *)
Definition reco_of (self : Settings) (ctx : Resolved) (w : World)
  (g : string * list (string * Payload)) : StockReco :=
  build_reco self ctx g.1 g.2 (nowdate (env w)) (nowtime (env w)).

(** The store accepts the reconciliation of every warehouse of [groups],
    whatever else it holds. *)
Definition accepts (self : Settings) (ctx : Resolved) (w : World)
  (groups : list (string * list (string * Payload))) : Prop :=
  forall w' g, g ∈ groups ->
    reco_insert_error w' (reco_of self ctx w g) = None /\
    reco_submit_error w' (reco_of self ctx w g) = None.

(** The stock map as the row loop leaves it: one entry per warehouse,
    none of them empty. *)
Definition groups_wf (m : list (string * list (string * Payload))) : Prop :=
  NoDup m.*1 /\ Forall (fun g => g.2 <> []) m.

End Further.

Module Sample.

(** A row with one cell more than the header has columns. *)
Definition long_row : RawRow :=
  [(Some "item_code", CStr "ITM9"); (None, CList ["stray"])].

(** Two columns whose headers normalize alike, the second one blank. *)
Definition twice_row : RawRow :=
  [(Some "Item Code", CStr "ITM1"); (Some "item-code", CStr "  ")].

End Sample.

Section Tally.
Context `{HH : Host}.

(** From [(l, w)] to [(l', w')] only item and price upserts were issued,
    and the four counters went up by the number of calls of their kind. *)
Definition tallied (l : Locals) (w : World) (l' : Locals) (w' : World) : Prop :=
  exists ops,
    journal w' = journal w ++ ops /\
    forallb is_upsert ops = true /\
    created_items l' = created_items l + count_ops is_item_insert ops /\
    updated_items l' = updated_items l + count_ops is_item_save ops /\
    created_prices l' = created_prices l + count_ops is_price_insert ops /\
    updated_prices l' = updated_prices l + count_ops is_price_save ops.

(** From [l] to [l'], over [k] rows: every row gave an error or at most
    one item call and at most one price call, and at most one new
    warehouse. *)
Definition bounded (l l' : Locals) (k : nat) : Prop :=
  length (errors l') + created_items l' + updated_items l'
  <= length (errors l) + created_items l + updated_items l + k /\
  length (errors l') + created_prices l' + updated_prices l'
  <= length (errors l) + created_prices l + updated_prices l + k /\
  length (stock_map l') <= length (stock_map l) + k.

End Tally.

Section Reconciling.
Context `{HH : Host}.

(** The message [import_csv] raises for a refused stock reconciliation:
    lines 229-237. *)
Definition translated (self : Settings) (error_msg : string) : string :=
  if Py.contains "Difference Account" error_msg || Py.contains "Asset" error_msg
  then msg_invalid_difference_account (difference_account self) error_msg
  else error_msg.

(** The reconciliation line of a recorded contribution. *)
Definition line_of (c : string * string * Payload) : StockRecoItem :=
  {| sri_item_code := c.1.1; sri_warehouse := c.1.2;
     sri_qty := qty c.2; sri_valuation_rate := valuation_rate c.2 |}.

(** The world after [doc] was inserted, and after it was submitted. *)
Definition inserted (doc : StockReco) (w : World) : World :=
  record (RecoInsert doc) (set_recos (fun rs => rs ++ [(doc, false)]) w).
Definition submitted (doc : StockReco) (w : World) : World :=
  record (RecoSubmit doc)
    (set_recos (fun rs => <[length (recos w) := (doc, true)]> rs) (inserted doc w)).

End Reconciling.

Section Keeping.
Context `{HH : Host}.

(** Whatever [w] holds, [w'] holds unchanged: every item as it was, and
    every price where it was; what is new comes behind. *)
Definition kept (w w' : World) : Prop :=
  (forall c item, items w !! c = Some item -> items w' !! c = Some item) /\
  exists new, prices w' = prices w ++ new.

End Keeping.

(** * Properties *)

(** ** Python strings *)

Lemma lstrip_only_whitespace s : only_whitespace s = true -> Py.lstrip s = "".
Proof.
  induction s as [|a s IH]; simpl; [done|].
  intros [Ha Hs]%andb_prop. rewrite Ha. auto.
Qed.

Lemma rstrip_nonempty a s : Py.isspace a = false -> Py.nonempty (Py.rstrip (String a s)) = true.
Proof. intros Ha. simpl. rewrite Ha. by destruct (Py.rstrip s). Qed.

Lemma lstrip_head s :
  only_whitespace s = false ->
  exists a t, Py.lstrip s = String a t /\ Py.isspace a = false.
Proof.
  induction s as [|a s IH]; simpl; [done|].
  destruct (Py.isspace a) eqn:Ha; simpl; eauto.
Qed.

Lemma strip_only_whitespace s : only_whitespace s = true -> Py.strip s = "".
Proof. intros Hs. unfold Py.strip. by rewrite lstrip_only_whitespace. Qed.

Lemma strip_nonempty s : only_whitespace s = false -> Py.nonempty (Py.strip s) = true.
Proof.
  intros (a & t & Hs & Ha)%lstrip_head.
  unfold Py.strip. rewrite Hs. by apply rstrip_nonempty.
Qed.

Lemma strip_starts a s : Py.isspace a = false -> Py.nonempty (Py.strip (String a s)) = true.
Proof. intros Ha. unfold Py.strip. simpl. rewrite Ha. by apply rstrip_nonempty. Qed.

Example strip_ex : Py.strip "  a b  " = "a b".
Proof. reflexivity. Qed.

Example normalize_header_ex : _normalize_header (Some " Item-Code X ") = "item_code_x".
Proof. reflexivity. Qed.

Example str_nat_ex : Py.str_nat 0 = "0" /\ Py.str_nat 120 = "120".
Proof. split; reflexivity. Qed.

Example contains_ex : Py.contains "Asset" "not an Asset account" = true.
Proof. reflexivity. Qed.

Section Delimiter.
Context `{HH : Host}.

(** ** The delimiter *)

Lemma effective_delimiter_spec self :
  effective_delimiter self =
  match delimiter self with
  | None => ","
  | Some s => if only_whitespace s then "," else Py.strip s
  end.
Proof.
  unfold effective_delimiter, Py.or_else.
  destruct (delimiter self) as [s|]; [|done].
  destruct s as [|a s]; [done|]. cbn [Py.truthy Py.nonempty Py.render].
  destruct (only_whitespace (String a s)) eqn:Hs.
  - by rewrite strip_only_whitespace.
  - by rewrite strip_nonempty.
Qed.

(** C9. Once permission and the attached file are at hand, [import_csv]
    reads its rows through the csv reader with the comma when the
    delimiter setting is unset, empty or whitespace only, and with the
    stripped setting otherwise. *)
Theorem import_csv_delimiter self w content :
  may_write (env w) = true ->
  Py.truthy (csv_file self) = true ->
  files (env w) !! Py.render (csv_file self) = Some content ->
  import_csv self w =
  match csv_DictReader content
          match delimiter self with
          | None => ","
          | Some s => if only_whitespace s then "," else Py.strip s
          end
  with
  | Raised e => (Raised e, w)
  | Returned rows => import_rows self rows w
  end.
Proof.
  intros Hperm Hfile Hcontent.
  rewrite <- effective_delimiter_spec.
  unfold import_csv, bind, reads, ret, raise, throw.
  rewrite Hperm, Hfile. simpl. rewrite Hcontent.
  by destruct (csv_DictReader content (effective_delimiter self)).
Qed.

End Delimiter.

Lemma import_csv_delimiter_witness :
  let self := Demo.the_settings (Some "  ") None Demo.account_a false false true true in
  let content := Demo.lines ["item_code,item_name"; ",Gadget"] in
  let w := Demo.the_world (Some "Acme") content ∅ in
  may_write (env w) = true /\
  Py.truthy (csv_file self) = true /\
  files (env w) !! Py.render (csv_file self) = Some content /\
  import_csv self w =
  match csv_DictReader content "," with
  | Raised e => (Raised e, w)
  | Returned rows => import_rows self rows w
  end.
Proof.
  intros self content w.
  split; [reflexivity|]. split; [reflexivity|]. split; [reflexivity|].
  apply (import_csv_delimiter self w content); reflexivity.
Defined.

(** ** [_apply_item_fields] *)

Section ItemFields.
Context `{HH : Host}.

Lemma dict_get_None {V} (f : string) (fm : list (string * V)) :
  f ∉ fm.*1 -> dict_get f fm = None.
Proof.
  induction fm as [|[k v] fm IH]; simpl; [done|].
  intros Hf. apply not_elem_of_cons in Hf as [Hne Hf].
  destruct (decide (f = k)); [done|]. auto.
Qed.

Lemma taxes_set_fields fm item : taxes (set_fields fm item) = taxes item.
Proof.
  revert item. induction fm as [|[k v] fm IH]; intros item; simpl; [done|].
  rewrite IH. by destruct (assignable v).
Qed.

Lemma fields_set_fields fm item f :
  NoDup fm.*1 ->
  fields (set_fields fm item) !! f =
  match dict_get f fm with
  | Some v => if assignable v then Some v else fields item !! f
  | None => fields item !! f
  end.
Proof.
  revert item. induction fm as [|[k v] fm IH]; intros item; simpl; [done|].
  intros [Hk Hnd]%NoDup_cons. rewrite IH by done.
  destruct (decide (f = k)) as [->|Hne].
  - rewrite dict_get_None by done.
    destruct (assignable v); simpl; [|done]. by rewrite lookup_insert_eq.
  - destruct (assignable v); simpl; [|done].
    rewrite lookup_insert_ne by done. done.
Qed.

Lemma field_map_keys n name group uom : NoDup (field_map n name group uom).*1.
Proof. unfold field_map. simpl. apply (bool_decide_unpack _). by vm_compute. Qed.

Lemma apply_item_fields_fields item n name group uom f :
  fields (_apply_item_fields item n name group uom) !! f =
  match dict_get f (field_map n name group uom) with
  | Some v => if assignable v then Some v else fields item !! f
  | None => fields item !! f
  end.
Proof.
  unfold _apply_item_fields.
  rewrite <- (fields_set_fields _ item f (field_map_keys n name group uom)).
  by destruct (Py.nonempty _).
Qed.

Lemma apply_item_fields_taxes item n name group uom :
  taxes (_apply_item_fields item n name group uom) =
  let item_tax := _get_value n ["item_tax"; "item_tax_template"] in
  if Py.nonempty item_tax then [ {[ "item_tax_template" := VStr item_tax ]} ]
  else taxes item.
Proof.
  unfold _apply_item_fields. cbv zeta.
  destruct (Py.nonempty _); [done|]. apply taxes_set_fields.
Qed.

(** C10. Updating an existing item saves a document in which a field
    holds the row's value when that value is neither [None] nor empty
    and what the item held before otherwise (fields outside the field
    map included), and whose taxes are the item's own unless the row
    gives an item tax, which then becomes the only entry. *)
Theorem update_assigns_only_given_fields self n item_code name group uom l w old :
  dry_run self = false ->
  update_existing self = true ->
  items w !! item_code = Some old ->
  exists new w',
    upsert_item self n item_code name group uom true l w
    = (Returned (count_items 0 1 l), w') /\
    items w' !! item_code = Some new /\
    journal w' = journal w ++ [ItemSave item_code new] /\
    (forall f,
       fields new !! f =
       match dict_get f (field_map n name group uom) with
       | Some v => if assignable v then Some v else fields old !! f
       | None => fields old !! f
       end) /\
    taxes new =
    (if Py.nonempty (_get_value n ["item_tax"; "item_tax_template"])
     then [ {[ "item_tax_template" :=
                 VStr (_get_value n ["item_tax"; "item_tax_template"]) ]} ]
     else taxes old).
Proof.
  intros Hdry Hupd Hold.
  eexists (_apply_item_fields old n name group uom), _.
  split.
  { unfold upsert_item. rewrite Hdry, Hupd. cbn [negb].
    unfold bind, get_item. rewrite Hold. reflexivity. }
  split; [by simpl; rewrite lookup_insert_eq|].
  split; [done|].
  split; [intros f; apply apply_item_fields_fields|].
  apply apply_item_fields_taxes.
Qed.

End ItemFields.

Lemma update_assigns_only_given_fields_witness :
  let self := Demo.the_settings None None Demo.account_a false true true true in
  let n : gmap string string := <["brand" := "New brand"]> (<["item_name" := ""]> ∅) in
  let w := Demo.the_world (Some "Acme") "" {[ "ITM1" := Demo.an_item ]} in
  dry_run self = false /\ update_existing self = true /\
  items w !! "ITM1" = Some Demo.an_item /\
  exists new w',
    upsert_item self n "ITM1" "" "" "" true init_locals w
    = (Returned (count_items 0 1 init_locals), w') /\
    items w' !! "ITM1" = Some new /\
    journal w' = journal w ++ [ItemSave "ITM1" new] /\
    (forall f,
       fields new !! f =
       match dict_get f (field_map n "" "" "") with
       | Some v => if assignable v then Some v else fields Demo.an_item !! f
       | None => fields Demo.an_item !! f
       end) /\
    taxes new =
    (if Py.nonempty (_get_value n ["item_tax"; "item_tax_template"])
     then [ {[ "item_tax_template" :=
                 VStr (_get_value n ["item_tax"; "item_tax_template"]) ]} ]
     else taxes Demo.an_item).
Proof.
  intros self n w.
  split; [reflexivity|]. split; [reflexivity|]. split; [reflexivity|].
  apply (update_assigns_only_given_fields self n "ITM1" "" "" "" init_locals w
           Demo.an_item); reflexivity.
Defined.

Example update_keeps_name_sets_brand :
  let n : gmap string string := <["brand" := "New brand"]> (<["item_name" := ""]> ∅) in
  let new := _apply_item_fields Demo.an_item n "" "" "" in
  fields new !! "item_name" = Some (VStr "Old name") /\
  fields new !! "brand" = Some (VStr "New brand") /\
  fields new !! "item_code" = Some (VStr "ITM1") /\
  taxes new = taxes Demo.an_item.
Proof. repeat split; reflexivity. Qed.

(** ** Configuration resolution *)

Section Configuration.
Context `{HH : Host}.

(** [resolve_config] written out as a case analysis. *)
Lemma resolve_config_unfold self w :
  resolve_config self w =
  let acc := Py.render (difference_account self) in
  let company0 := given_company self w in
  let currency0 :=
    if Py.truthy (default_currency self) then default_currency self
    else global_default_currency (env w) in
  if Py.truthy (difference_account self) then
    match account_of self w with
    | None => (Raised (ValidationError (msg_account_missing acc)), w)
    | Some a =>
        if is_group a then (Raised (ValidationError (msg_account_group acc)), w)
        else if negb (bool_decide (root_type a ∈ [Some "Asset"; Some "Liability"]))
        then (Raised (ValidationError (msg_account_type acc (root_type a))), w)
        else if Py.truthy company0
        then if bool_decide (company a = company0)
             then (Returned {| r_company := company0; r_currency := currency0;
                               r_account := Some a |}, w)
             else (Raised (ValidationError
                             (msg_account_company acc (company a) company0)), w)
        else (Returned {| r_company := company a; r_currency := currency0;
                          r_account := Some a |}, w)
    end
  else if skip_stock_reconciliation self
  then (Returned {| r_company := company0; r_currency := currency0;
                    r_account := None |}, w)
  else (Raised (ValidationError msg_account_required), w).
Proof.
  unfold resolve_config, given_company, account_of, bind, ret, reads, throw,
    raise, get_account.
  destruct (Py.truthy (default_company self)) eqn:Hc;
    destruct (Py.truthy (default_currency self));
    (destruct (Py.truthy (difference_account self)) eqn:Hda; simpl;
     [|by destruct (skip_stock_reconciliation self)]);
    (destruct (accounts (env w) !! Py.render (difference_account self)) as [a|];
     [|done]);
    (destruct (is_group a); [done|]);
    (destruct (bool_decide (root_type a ∈ [Some "Asset"; Some "Liability"]));
     simpl; [|done]);
    rewrite ?Hc; simpl; rewrite ?Hc; simpl;
    try (destruct (Py.truthy (global_default_company (env w))) eqn:Hg;
         simpl; rewrite ?Hg; simpl);
    try (by destruct (bool_decide (company a = _)));
    rewrite (bool_decide_eq_true_2 (company a = company a)) by done;
    by rewrite andb_false_r.
Qed.

Lemma resolve_config_world self w : (resolve_config self w).2 = w.
Proof.
  rewrite resolve_config_unfold. cbv zeta.
  repeat (first [ destruct (Py.truthy _) | destruct (account_of _ _)
                | destruct (is_group _) | destruct (bool_decide _)
                | destruct (skip_stock_reconciliation _) ]; simpl; try done).
Qed.

Lemma root_type_listed (a : Account) :
  root_type a ∈ [Some "Asset"; Some "Liability"] <->
  ~ (root_type a <> Some "Asset" /\ root_type a <> Some "Liability").
Proof.
  rewrite !elem_of_cons, elem_of_nil. split.
  - intros [->|[->|[]]] [? ?]; done.
  - intros Hn. destruct (decide (root_type a = Some "Asset")); [tauto|].
    destruct (decide (root_type a = Some "Liability")); tauto.
Qed.

Local Ltac no_condition :=
  intros [[[? ?]|[[? ?]|[[? (? & ? & ?)]|[? (? & ? & ? & ?)]]]]
         |[? (? & ? & ? & ?)]];
  simplify_eq; first [congruence | tauto].

Lemma import_rows_config_failure self rows w e :
  resolve_config self w = (Raised e, w) ->
  import_rows self rows w = (Raised e, w).
Proof. intros Hr. unfold import_rows, bind. by rewrite Hr. Qed.

(** C3, as amended. Configuration resolution leaves the world as it
    found it, and fails exactly when the difference account is unset
    although stock reconciliation is wanted, is not in the store, is a
    group account, has a root type other than Asset and Liability, or
    belongs to a company other than the given one; the first of these,
    in this order, decides the error, and the run then ends with that
    error before any row is processed. *)
Theorem config_failure_conditions self w :
  exists out,
    resolve_config self w = (out, w) /\
    ((exists e, out = Raised e) <->
     listed_config_failure self w \/ account_other_company self w) /\
    (account_required self ->
     out = Raised (ValidationError msg_account_required)) /\
    (account_not_found self w ->
     out = Raised (ValidationError
                     (msg_account_missing (Py.render (difference_account self))))) /\
    (account_is_group self w ->
     out = Raised (ValidationError
                     (msg_account_group (Py.render (difference_account self))))) /\
    (forall a, account_of self w = Some a -> account_wrong_type self w ->
               is_group a = false ->
     out = Raised (ValidationError
                     (msg_account_type (Py.render (difference_account self))
                        (root_type a)))) /\
    (forall e rows, out = Raised e -> import_rows self rows w = (Raised e, w)).
Proof.
  exists (resolve_config self w).1.
  assert (Hw : resolve_config self w = ((resolve_config self w).1, w)).
  { rewrite <- (resolve_config_world self w) at 3. by destruct (resolve_config self w). }
  split; [exact Hw|].
  split; [|split; [|split; [|split; [|split]]]].
  - rewrite resolve_config_unfold. cbv zeta.
    unfold listed_config_failure, account_required, account_not_found,
      account_is_group, account_wrong_type, account_other_company.
    destruct (Py.truthy (difference_account self)) eqn:Hda.
    2:{ destruct (skip_stock_reconciliation self) eqn:Hskip.
        - split; [intros [e He]; done | no_condition].
        - split; [|by eauto]. intros _. left. left. done. }
    destruct (account_of self w) as [a|] eqn:Ha.
    2:{ split; [|by eauto]. intros _. left. right. left. done. }
    destruct (is_group a) eqn:Hg.
    { split; [|by eauto]. intros _. left. right. right. left. eauto. }
    case_bool_decide as Hroot; simpl.
    + apply root_type_listed in Hroot.
      destruct (Py.truthy (given_company self w)) eqn:Hco.
      * case_bool_decide as Heq.
        -- split; [intros [e He]; done | no_condition].
        -- split; [|by eauto]. intros _. right. split; [done|]. by exists a.
      * split; [intros [e He]; done | no_condition].
    + split; [|by eauto]. intros _. left. right. right. right.
      split; [done|]. exists a. split; [done|].
      split; intros Hr; apply Hroot; rewrite Hr; set_solver.
  - intros [Hda Hskip]. rewrite resolve_config_unfold. cbv zeta.
    by rewrite Hda, Hskip.
  - intros [Hda Ha]. rewrite resolve_config_unfold. cbv zeta.
    by rewrite Hda, Ha.
  - intros [Hda (a & Ha & Hg)]. rewrite resolve_config_unfold. cbv zeta.
    by rewrite Hda, Ha, Hg.
  - intros a Ha [Hda (b & Hb & Hr1 & Hr2)] Hg. simplify_eq.
    rewrite resolve_config_unfold. cbv zeta. rewrite Hda, Ha, Hg.
    rewrite bool_decide_eq_false_2; [done|].
    rewrite root_type_listed. tauto.
  - intros e rows He. apply import_rows_config_failure.
    rewrite Hw. by rewrite He.
Qed.

(** C7, as amended. With a difference account that exists, is a ledger
    and of root type Asset or Liability: when neither the settings nor
    the store-wide defaults give a company, the account's company is
    adopted; when a company is given by either and the account belongs
    to another, resolution fails with an error naming the account's
    company; when it is the same, it is kept. *)
Theorem company_resolution self w a :
  Py.truthy (difference_account self) = true ->
  account_of self w = Some a ->
  is_group a = false ->
  root_type a ∈ [Some "Asset"; Some "Liability"] ->
  (Py.truthy (given_company self w) = false ->
   exists ctx, resolve_config self w = (Returned ctx, w) /\
               r_company ctx = company a) /\
  (Py.truthy (given_company self w) = true ->
   company a <> given_company self w ->
   resolve_config self w =
   (Raised (ValidationError
              (msg_account_company (Py.render (difference_account self))
                 (company a) (given_company self w))), w)) /\
  (Py.truthy (given_company self w) = true ->
   company a = given_company self w ->
   exists ctx, resolve_config self w = (Returned ctx, w) /\
               r_company ctx = given_company self w).
Proof.
  intros Hda Ha Hg Hroot.
  rewrite resolve_config_unfold. cbv zeta. rewrite Hda, Ha, Hg.
  rewrite (bool_decide_eq_true_2 _ Hroot). simpl.
  split; [|split].
  - intros ->. eauto.
  - intros -> Hne. by rewrite bool_decide_eq_false_2.
  - intros -> Heq. rewrite bool_decide_eq_true_2 by done. eauto.
Qed.

End Configuration.

(** An Asset ledger of company Acme while the settings name another
    company: resolution fails although none of the four listed
    conditions holds. *)
Lemma config_failure_unlisted :
  let self := Demo.the_settings None (Some "Beta Ltd") Demo.account_a
                false false true false in
  let w := Demo.the_world (Some "Acme") "" ∅ in
  (exists e, resolve_config self w = (Raised e, w)) /\
  ~ listed_config_failure self w.
Proof.
  intros self w. split.
  - exists (ValidationError
              (msg_account_company "Temporary Opening - A" (Some "Acme")
                 (Some "Beta Ltd"))).
    reflexivity.
  - intros [[Hda _]|[[_ Hn]|[[_ (a & Ha & Hg)]|[_ (a & Ha & Hr1 & Hr2)]]]].
    + vm_compute in Hda. discriminate.
    + vm_compute in Hn. discriminate.
    + vm_compute in Ha. injection Ha as <-. vm_compute in Hg. discriminate.
    + vm_compute in Ha. injection Ha as <-. apply Hr1. reflexivity.
Qed.

Lemma company_resolution_witness :
  let self := Demo.the_settings None None Demo.account_a false false true false in
  let w := Demo.the_world None "" ∅ in
  let a := Demo.ledger "Asset" "Acme" in
  Py.truthy (difference_account self) = true /\
  account_of self w = Some a /\
  is_group a = false /\
  root_type a ∈ [Some "Asset"; Some "Liability"] /\
  (Py.truthy (given_company self w) = false ->
   exists ctx, resolve_config self w = (Returned ctx, w) /\
               r_company ctx = company a).
Proof.
  intros self w a.
  assert (Hroot : root_type a ∈ [Some "Asset"; Some "Liability"])
    by (apply (bool_decide_unpack _); vm_compute; exact I).
  split; [reflexivity|]. split; [reflexivity|].
  split; [reflexivity|]. split; [exact Hroot|].
  apply (company_resolution self w a);
    [reflexivity | reflexivity | reflexivity | exact Hroot].
Defined.

(** The settings name no company, the store-wide default is Beta Ltd,
    the account belongs to Acme: the account's company is not adopted,
    the run fails. *)
Lemma company_not_adopted_over_global_default :
  let self := Demo.the_settings None None Demo.account_a false false true false in
  let w := Demo.the_world (Some "Beta Ltd") "" ∅ in
  default_company self = None /\
  account_of self w = Some (Demo.ledger "Asset" "Acme") /\
  resolve_config self w =
  (Raised (ValidationError
     ("Account 'Temporary Opening - A' belongs to company 'Acme'. " +:+
      "Please select an account from company 'Beta Ltd'.")), w) /\
  ~ (exists ctx w', resolve_config self w = (Returned ctx, w') /\
                    r_company ctx = Some "Acme").
Proof.
  intros self w.
  assert (Hr : resolve_config self w =
    (Raised (ValidationError
       ("Account 'Temporary Opening - A' belongs to company 'Acme'. " +:+
        "Please select an account from company 'Beta Ltd'.")), w))
    by reflexivity.
  split; [reflexivity|]. split; [reflexivity|].
  split; [exact Hr|].
  intros (ctx & w' & Hc & _). rewrite Hr in Hc. discriminate.
Qed.

(** ** The row loop *)

Section Rows.
Context `{HH : Host}.

Lemma known_true w c : known w c = true <-> is_Some (items w !! c).
Proof. unfold known. apply bool_decide_eq_true. Qed.

Lemma upserts_only_refl w : upserts_only w w.
Proof.
  repeat split; auto. exists []. by rewrite app_nil_r.
Qed.

Lemma upserts_only_trans w1 w2 w3 :
  upserts_only w1 w2 -> upserts_only w2 w3 -> upserts_only w1 w3.
Proof.
  intros (He1 & Hr1 & Hl1 & Hg1 & (o1 & Hj1 & Hu1) & Hk1 & Hp1)
         (He2 & Hr2 & Hl2 & Hg2 & (o2 & Hj2 & Hu2) & Hk2 & Hp2).
  repeat split; try congruence; auto.
  exists (o1 ++ o2). split.
  - by rewrite Hj2, Hj1, app_assoc.
  - by rewrite forallb_app, Hu1, Hu2.
Qed.

Lemma upserts_only_item_write w item_code doc op :
  is_upsert op = true ->
  upserts_only w (record op (set_items (insert item_code doc) w)).
Proof.
  intros Hop. repeat split; auto.
  - exists [op]. simpl. by rewrite Hop.
  - intros c. rewrite !known_true. simpl.
    destruct (decide (item_code = c)) as [->|Hne].
    + by rewrite lookup_insert_eq.
    + by rewrite lookup_insert_ne.
Qed.

Lemma upsert_item_spec self n item_code name group uom l w :
  exists l1 w1,
    upsert_item self n item_code name group uom (known w item_code) l w
    = (Returned l1, w1) /\
    only_counters l l1 /\
    created_prices l1 = created_prices l /\
    updated_prices l1 = updated_prices l /\
    upserts_only w w1 /\
    prices w1 = prices w /\
    (dry_run self = true -> w1 = w /\ l1 = l) /\
    (dry_run self = false -> known w1 item_code = true) /\
    (forall c, known w1 c = true -> known w c = true \/ c = item_code) /\
    (update_existing self = false -> known w item_code = true ->
     w1 = w /\ l1 = l).
Proof.
  assert (Hwrite : forall op doc,
            is_upsert op = true ->
            let w1 := record op (set_items (insert item_code doc) w) in
            known w1 item_code = true /\
            (forall c, known w1 c = true -> known w c = true \/ c = item_code)).
  { intros op doc _ w1. split.
    - apply known_true. simpl. by rewrite lookup_insert_eq.
    - intros c. rewrite !known_true. simpl.
      destruct (decide (item_code = c)) as [->|Hne]; [by right|].
      rewrite lookup_insert_ne by done. by left. }
  unfold upsert_item.
  destruct (dry_run self) eqn:Hdry; cbn [negb].
  { exists l, w. unfold ret.
    split; [done|]. split; [done|]. split; [done|]. split; [done|].
    split; [apply upserts_only_refl|]. split; [done|]. split; [done|].
    split; [done|]. split; [by left|]. done. }
  destruct (known w item_code) eqn:Hk.
  - pose proof Hk as [doc Hdoc]%known_true.
    unfold bind, get_item. rewrite Hdoc.
    destruct (update_existing self) eqn:Hupd.
    + eexists _, _. split; [reflexivity|].
      split; [done|]. split; [done|]. split; [done|].
      split; [by apply upserts_only_item_write|]. split; [done|].
      split; [done|]. split; [intros _; by apply Hwrite|].
      split; [by apply Hwrite|]. done.
    + exists l, w. unfold ret.
      split; [done|]. split; [done|]. split; [done|]. split; [done|].
      split; [apply upserts_only_refl|]. split; [done|]. split; [done|].
      split; [done|]. split; [by left|]. done.
  - eexists _, _. split; [reflexivity|].
    split; [done|]. split; [done|]. split; [done|].
    split; [by apply upserts_only_item_write|]. split; [done|].
    split; [done|]. split; [intros _; by apply Hwrite|].
    split; [by apply Hwrite|]. done.
Qed.

Lemma find_price_unfold item_code pl cur w :
  find_price item_code pl cur w =
  (Returned (fst <$> list_find (fun p => Is_true (price_matches item_code pl cur p))
                       (prices w)), w).
Proof. reflexivity. Qed.

Lemma price_known_find item_code pl cur w :
  price_known w item_code pl cur <->
  is_Some (list_find (fun p => Is_true (price_matches item_code pl cur p)) (prices w)).
Proof.
  split.
  - intros (p & Hp & Hm).
    destruct (list_find _ (prices w)) as [ip|] eqn:Hf; [by eexists|].
    apply list_find_None in Hf. rewrite Forall_forall in Hf.
    exfalso. apply (Hf p Hp). by rewrite Hm.
  - intros [[i p] (Hi & Hm & _)%list_find_Some]. exists p. split.
    + by eapply list_elem_of_lookup_2.
    + by apply Is_true_true.
Qed.

Lemma price_matches_with_rate item_code pl cur rate p :
  price_matches item_code pl cur (with_rate rate p) = price_matches item_code pl cur p.
Proof. reflexivity. Qed.

Lemma upserts_only_price_save w i p rate :
  prices w !! i = Some p ->
  upserts_only w
    (record (PriceSave i rate) (set_prices (fun ps => <[i := with_rate rate p]> ps) w)).
Proof.
  intros Hi. repeat split; auto.
  - by exists [PriceSave i rate].
  - intros c pl cur (q & Hq & Hm). simpl.
    apply list_elem_of_lookup in Hq as [j Hj].
    destruct (decide (i = j)) as [->|Hne].
    + exists (with_rate rate p). split.
      * apply list_elem_of_lookup. exists j.
        apply list_lookup_insert_eq. by eapply lookup_lt_Some.
      * rewrite price_matches_with_rate. congruence.
    + exists q. split; [|done].
      apply list_elem_of_lookup. exists j. simpl.
      by rewrite list_lookup_insert_ne.
Qed.

Lemma upserts_only_price_insert w doc :
  upserts_only w (record (PriceInsert doc) (set_prices (fun ps => ps ++ [doc]) w)).
Proof.
  repeat split; auto.
  - by exists [PriceInsert doc].
  - intros c pl cur (q & Hq & Hm). exists q. split; [|done].
    simpl. apply elem_of_app. by left.
Qed.

Lemma upsert_item_price_spec item_code pl cur rate upd w :
  exists cu w1,
    _upsert_item_price item_code pl cur rate upd w = (Returned cu, w1) /\
    upserts_only w w1 /\
    items w1 = items w /\
    price_known w1 item_code pl cur /\
    (upd = false -> price_known w item_code pl cur -> w1 = w /\ cu = (0, 0)).
Proof.
  unfold _upsert_item_price, bind. rewrite find_price_unfold.
  destruct (list_find _ (prices w)) as [[i p]|] eqn:Hf; simpl.
  - pose proof Hf as (Hi & Hm & _)%list_find_Some.
    apply Is_true_true in Hm.
    destruct upd.
    + unfold price_save. rewrite Hi. eexists _, _. split; [reflexivity|].
      split; [by apply upserts_only_price_save|]. split; [done|].
      split; [|done].
      exists (with_rate rate p). split; [|done]. simpl.
      apply list_elem_of_lookup. exists i.
      apply list_lookup_insert_eq. by eapply lookup_lt_Some.
    + exists (0, 0), w. unfold ret.
      split; [done|]. split; [apply upserts_only_refl|]. split; [done|].
      split; [|done]. exists p. split; [|done]. by eapply list_elem_of_lookup_2.
  - eexists _, _. split; [reflexivity|].
    split; [apply upserts_only_price_insert|]. split; [done|]. split.
    + eexists. split; [simpl; apply elem_of_app; right; apply list_elem_of_singleton; reflexivity|].
      unfold price_matches. simpl. by rewrite !bool_decide_eq_true_2.
    + intros _ Hk%price_known_find. rewrite Hf in Hk. by destruct Hk.
Qed.

Lemma price_step_spec self ctx n l w :
  exists l2 w2,
    price_step self ctx n (item_code_of n) l w = (Returned l2, w2) /\
    only_counters l l2 /\
    created_items l2 = created_items l /\
    updated_items l2 = updated_items l /\
    upserts_only w w2 /\
    items w2 = items w /\
    (dry_run self = true -> w2 = w /\ l2 = l) /\
    (dry_run self = false -> skip_item_price self = false ->
     forall c pl cur, row_price_key self ctx n = Some (c, pl, cur) ->
                      price_known w2 c pl cur) /\
    (update_existing self = false ->
     (skip_item_price self = false ->
      forall c pl cur, row_price_key self ctx n = Some (c, pl, cur) ->
                       price_known w c pl cur) ->
     w2 = w /\ created_prices l2 = created_prices l /\
     updated_prices l2 = updated_prices l).
Proof.
  assert (Hnop : forall P Q : Prop,
            exists l2 w2,
              (Returned l, w) = (Returned l2, w2) /\
              only_counters l l2 /\
              created_items l2 = created_items l /\
              updated_items l2 = updated_items l /\
              upserts_only w w2 /\ items w2 = items w /\
              (dry_run self = true -> w2 = w /\ l2 = l) /\
              (P -> w2 = w /\ l2 = l) /\
              (Q -> w2 = w /\ created_prices l2 = created_prices l /\
                    updated_prices l2 = updated_prices l)).
  { intros P Q. exists l, w. split_and!; try done. apply upserts_only_refl. }
  unfold price_step, row_price_key.
  destruct (skip_item_price self) eqn:Hskip; cbn [negb].
  { destruct (Hnop True True) as (l2 & w2 & ? & ? & ? & ? & ? & ? & ? & ? & ?).
    exists l2, w2. unfold ret. split_and!; try done. intros _ _; auto. }
  set (pl := Py.or_else (Some (_get_value n ["price_list"])) (default_price_list self)).
  set (cur := Py.or_else (Some (_get_value n ["currency"])) (r_currency ctx)).
  destruct (Py.truthy pl && Py.nonempty _) eqn:Hcand.
  2:{ destruct (Hnop True True) as (l2 & w2 & ? & ? & ? & ? & ? & ? & ? & ? & ?).
      exists l2, w2. unfold ret. split_and!; try done. intros _ _; auto. }
  destruct (dry_run self) eqn:Hdry; cbn [negb].
  { destruct (Hnop True True) as (l2 & w2 & ? & ? & ? & ? & ? & ? & ? & ? & ?).
    exists l2, w2. unfold ret. split_and!; try done. intros _ _; auto. }
  clear Hnop.
  destruct (upsert_item_price_spec (item_code_of n) pl cur
              (flt (_get_value n ["price_list_rate"; "standard_selling_rate";
                                  "standard_rate"]))
              (update_existing self) w)
    as (cu & w1 & Hrun & Hups & Hitems & Hknown & Hsame).
  unfold bind. rewrite Hrun. eexists _, w1. unfold ret.
  split; [reflexivity|]. split; [done|]. split; [done|]. split; [done|].
  split; [done|]. split; [done|]. split; [done|].
  split.
  - intros _ _ c pl' cur' Hkey. by simplify_eq.
  - intros Hupd Hk. destruct (Hsame Hupd) as [-> ->].
    { by apply Hk. }
    simpl. split; [done|]. split; apply Nat.add_0_r.
Qed.

Lemma process_row_unfold self ctx idx row l w :
  process_row self ctx idx row l w =
  match normalize_row row with
  | Raised e => (Raised e, w)
  | Returned n =>
      match row_failure w n with
      | Some f =>
          (Returned (add_error (failure_message idx (item_code_of n) f) l), w)
      | None =>
          bind (upsert_item self n (item_code_of n) (item_name_of n)
                  (item_group_of n) (stock_uom_of n) (known w (item_code_of n)) l)
            (fun l1 =>
               bind (price_step self ctx n (item_code_of n) l1)
                 (fun l2 => ret (stock_step self n idx (item_code_of n) l2))) w
      end
  end.
Proof.
  unfold process_row, row_failure, first_failure.
  destruct (normalize_row row) as [n|e]; [|done].
  fold (item_code_of n) (item_name_of n) (item_group_of n) (stock_uom_of n).
  destruct (Py.nonempty (item_code_of n)); cbn [negb]; [|done].
  unfold bind at 1. unfold item_exists, reads. fold (known w (item_code_of n)).
  destruct (known w (item_code_of n)); cbn [negb andb]; [done|].
  destruct (Py.nonempty (item_name_of n)); cbn [negb]; [|done].
  destruct (Py.nonempty (item_group_of n)); cbn [negb]; [|done].
  by destruct (Py.nonempty (stock_uom_of n)).
Qed.

(** What a row that passes validation does to the store and to the
    counters; the stock bookkeeping is [stock_step] on top of it. *)
Lemma process_row_valid self ctx idx row l w n :
  normalize_row row = Returned n ->
  row_failure w n = None ->
  exists l2 w2,
    process_row self ctx idx row l w
    = (Returned (stock_step self n idx (item_code_of n) l2), w2) /\
    only_counters l l2 /\
    upserts_only w w2 /\
    (dry_run self = true -> w2 = w /\ l2 = l) /\
    (dry_run self = false -> known w2 (item_code_of n) = true) /\
    (forall c, known w2 c = true -> known w c = true \/ c = item_code_of n) /\
    (dry_run self = false -> skip_item_price self = false ->
     forall c pl cur, row_price_key self ctx n = Some (c, pl, cur) ->
                      price_known w2 c pl cur) /\
    (update_existing self = false -> known w (item_code_of n) = true ->
     (skip_item_price self = false ->
      forall c pl cur, row_price_key self ctx n = Some (c, pl, cur) ->
                       price_known w c pl cur) ->
     w2 = w /\
     created_items l2 = created_items l /\ updated_items l2 = updated_items l /\
     created_prices l2 = created_prices l /\ updated_prices l2 = updated_prices l).
Proof.
  intros Hn Hvalid. rewrite process_row_unfold, Hn, Hvalid.
  destruct (upsert_item_spec self n (item_code_of n) (item_name_of n)
              (item_group_of n) (stock_uom_of n) l w)
    as (l1 & w1 & Hrun1 & Hc1 & Hcp1 & Hup1 & Hu1 & Hpr1 & Hdry1 & Hk1 & Hdom1 & Hsame1).
  destruct (price_step_spec self ctx n l1 w1)
    as (l2 & w2 & Hrun2 & Hc2 & Hci2 & Hui2 & Hu2 & Hit2 & Hdry2 & Hpk2 & Hsame2).
  exists l2, w2. unfold bind at 1. rewrite Hrun1. unfold bind. rewrite Hrun2.
  split; [done|].
  split.
  { destruct Hc1 as (? & ? & ? & ?), Hc2 as (? & ? & ? & ?).
    repeat split; congruence. }
  split; [by eapply upserts_only_trans|].
  split.
  { intros Hdry. destruct (Hdry1 Hdry) as [-> ->]. by apply Hdry2. }
  split.
  { intros Hdry. unfold known. rewrite Hit2. by apply Hk1. }
  split.
  { intros c. unfold known at 1. rewrite Hit2. apply Hdom1. }
  split; [done|].
  intros Hupd Hk Hp. destruct (Hsame1 Hupd Hk) as [-> ->].
  destruct (Hsame2 Hupd Hp) as (-> & ? & ?). done.
Qed.

Lemma scan_rows_app self ctx idx pre post l w :
  scan_rows self ctx idx (pre ++ post) l w =
  match scan_rows self ctx idx pre l w with
  | (Returned l1, w1) => scan_rows self ctx (idx + length pre) post l1 w1
  | (Raised e, w1) => (Raised e, w1)
  end.
Proof.
  revert idx l w. induction pre as [|row pre IH]; intros idx l w; simpl.
  - unfold ret. by rewrite Nat.add_0_r.
  - unfold bind. destruct (process_row self ctx idx row l w) as [[l1|e] w1]; [|done].
    rewrite IH. by rewrite Nat.add_succ_comm.
Qed.

Lemma stock_step_unfold self n idx l :
  stock_step self n idx (item_code_of n) l =
  if skip_stock_reconciliation self then l
  else match row_contribution self n with
       | Some (c, wh, p) =>
           if bool_decide ((c, wh) ∈ stock_seen l)
           then add_note (msg_duplicate_stock idx c wh) l
           else put_stock c wh p l
       | None => l
       end.
Proof.
  unfold stock_step, row_contribution.
  destruct (skip_stock_reconciliation self); cbn [negb]; [reflexivity|].
  destruct (Py.or_else _ _) as [wh|]; [|reflexivity].
  destruct (Py.nonempty wh); cbn [andb]; [|reflexivity].
  destruct (Py.nonempty (_get_value n ["opening_qty"; "opening_stock"; "qty"]));
    cbn [andb]; [|reflexivity].
  destruct (float_pos _); reflexivity.
Qed.

Lemma errors_stock_step self n idx l :
  errors (stock_step self n idx (item_code_of n) l) = errors l.
Proof.
  rewrite stock_step_unfold.
  destruct (skip_stock_reconciliation self); [reflexivity|].
  destruct (row_contribution self n) as [[[c wh] p]|]; [|reflexivity].
  destruct (bool_decide _); reflexivity.
Qed.


End Rows.


(** ** Stock contributions *)

Section Stock.
Context `{HH : Host}.

Lemma contributions_cons g m :
  contributions (g :: m) =
  map (fun e => (e.1, g.1, e.2)) g.2 ++ contributions m.
Proof. reflexivity. Qed.

Lemma group_keys (wh : string) (d : list (string * Payload)) c wh' :
  (c, wh') ∈ map fst (map (fun e => (e.1, wh, e.2)) d) <-> wh' = wh /\ c ∈ d.*1.
Proof.
  rewrite map_map. simpl. rewrite !list_elem_of_fmap. split.
  - intros ([c' p] & Heq & Hin). simpl in Heq. simplify_eq. split; [done|].
    by exists (c', p).
  - intros [-> ([c' p] & -> & Hin)]. by exists (c', p).
Qed.

Lemma dict_set_fresh {V} (k : string) (v : V) d :
  k ∉ d.*1 -> dict_set k v d = d ++ [(k, v)].
Proof.
  induction d as [|[k' v'] d IH]; simpl; [done|].
  intros [Hne Hd]%not_elem_of_cons.
  destruct (decide (k = k')); [done|]. by rewrite IH.
Qed.

(** Recording a fresh key inserts one contribution and moves none. *)
Lemma contributions_put m c wh p :
  (c, wh) ∉ map fst (contributions m) ->
  exists pre post,
    contributions m = pre ++ post /\
    contributions (dict_set wh (dict_set c p (default [] (dict_get wh m))) m)
    = pre ++ (c, wh, p) :: post.
Proof.
  induction m as [|[k d] m IH]; intros Hfresh.
  - exists [], []. done.
  - rewrite contributions_cons, map_app, elem_of_app in Hfresh.
    cbn [dict_get dict_set]. destruct (decide (wh = k)) as [->|Hne].
    + cbn [default dict_set].
      assert (Hc : c ∉ d.*1).
      { intros Hc. apply Hfresh. left. by apply group_keys. }
      rewrite (dict_set_fresh _ _ _ Hc).
      exists (map (fun e => (e.1, k, e.2)) d), (contributions m).
      split; [done|].
      rewrite contributions_cons. simpl. rewrite map_app. simpl.
      by rewrite <- app_assoc.
    + destruct IH as (pre & post & Hm & Hput); [tauto|].
      exists (map (fun e => (e.1, k, e.2)) d ++ pre), post.
      rewrite !contributions_cons. simpl.
      rewrite Hm, Hput. by rewrite !app_assoc.
Qed.

Lemma same_key_true c wh x : same_key c wh x = true <-> x.1 = (c, wh).
Proof.
  unfold same_key. rewrite andb_true_iff, !bool_decide_eq_true.
  destruct x as [[c' wh'] p]. simpl. split; [by intros [-> ->]|].
  intros ?. by simplify_eq.
Qed.

Lemma filter_no_key c wh (L : list (string * string * Payload)) :
  (c, wh) ∉ map fst L -> List.filter (same_key c wh) L = [].
Proof.
  induction L as [|x L IH]; simpl; [done|].
  intros [Hne HL]%not_elem_of_cons.
  destruct (same_key c wh x) eqn:Hx; [|auto].
  apply same_key_true in Hx. congruence.
Qed.

Lemma filter_has_key c wh (L : list (string * string * Payload)) x :
  List.filter (same_key c wh) L = [x] -> (c, wh) ∈ map fst L.
Proof.
  intros Hf. destruct (decide ((c, wh) ∈ map fst L)) as [|Hn]; [done|].
  by rewrite (filter_no_key _ _ _ Hn) in Hf.
Qed.

Lemma stock_inv_init : stock_inv init_locals.
Proof.
  split; [constructor|]. intros c wh. simpl. set_solver.
Qed.

Lemma stock_inv_fields l l' :
  stock_map l' = stock_map l -> stock_seen l' = stock_seen l ->
  stock_inv l -> stock_inv l'.
Proof. unfold stock_inv. by intros -> ->. Qed.

(** Recording a key that was not seen. *)
Lemma put_stock_spec c wh p l :
  stock_inv l -> (c, wh) ∉ stock_seen l ->
  stock_inv (put_stock c wh p l) /\
  List.filter (same_key c wh) (contributions (stock_map (put_stock c wh p l)))
  = [(c, wh, p)] /\
  (forall c' wh', (c', wh') <> (c, wh) ->
     List.filter (same_key c' wh') (contributions (stock_map (put_stock c wh p l)))
     = List.filter (same_key c' wh') (contributions (stock_map l))).
Proof.
  intros [Hnd Hseen] Hfresh.
  assert (Hkey : (c, wh) ∉ map fst (contributions (stock_map l)))
    by (by rewrite <- Hseen).
  destruct (contributions_put (stock_map l) c wh p Hkey)
    as (pre & post & Hm & Hput).
  unfold stock_inv. cbn [put_stock stock_map stock_seen]. rewrite Hput.
  rewrite Hm, map_app in Hnd, Hkey.
  rewrite Hm in Hseen |- *.
  apply NoDup_app in Hnd as (Hpre & Hdisj & Hpost).
  rewrite elem_of_app in Hkey.
  split; [split|split].
  - rewrite map_app. simpl. apply NoDup_app. split; [done|]. split.
    + intros k Hk [->|Hk']%elem_of_cons; [tauto|]. by eapply Hdisj.
    + apply NoDup_cons. split; [tauto|done].
  - intros c' wh'. rewrite elem_of_union, elem_of_singleton, Hseen.
    rewrite !map_app. simpl. rewrite !elem_of_app, elem_of_cons. tauto.
  - rewrite List.filter_app. simpl.
    rewrite (proj2 (same_key_true c wh (c, wh, p))) by done.
    rewrite !filter_no_key by tauto. done.
  - intros c' wh' Hne. rewrite !List.filter_app. simpl.
    destruct (same_key c' wh' (c, wh, p)) eqn:Hk; [|done].
    apply same_key_true in Hk. simpl in Hk. congruence.
Qed.

(** One stock step: the bookkeeping stays sound, and a contribution
    that is recorded stays as it is. *)
Lemma stock_step_spec self n idx l :
  stock_inv l ->
  stock_inv (stock_step self n idx (item_code_of n) l) /\
  (forall c wh x,
     List.filter (same_key c wh) (contributions (stock_map l)) = [x] ->
     List.filter (same_key c wh)
       (contributions (stock_map (stock_step self n idx (item_code_of n) l))) = [x]) /\
  (forall c wh,
     (c, wh) ∈ stock_seen (stock_step self n idx (item_code_of n) l) ->
     (c, wh) ∈ stock_seen l \/
     exists p, row_contribution self n = Some (c, wh, p)).
Proof.
  intros Hinv. rewrite stock_step_unfold.
  destruct (skip_stock_reconciliation self); [by auto|].
  destruct (row_contribution self n) as [[[c0 wh0] p0]|]; [|by auto].
  case_bool_decide as Hseen.
  { split; [by eapply stock_inv_fields|]. by auto. }
  destruct (put_stock_spec c0 wh0 p0 l Hinv Hseen) as (Hinv' & _ & Hother).
  split; [done|]. split.
  - intros c wh x Hx. rewrite Hother; [done|].
    intros Heq. simplify_eq. apply Hseen.
    apply Hinv. by eapply filter_has_key.
  - intros c wh. cbn [put_stock stock_seen].
    rewrite elem_of_union, elem_of_singleton.
    intros [?|Heq]; [by left|]. simplify_eq. right. by eexists.
Qed.

Lemma process_row_stock self ctx idx row l w l' w' :
  process_row self ctx idx row l w = (Returned l', w') ->
  stock_inv l ->
  stock_inv l' /\
  (forall c wh x,
     List.filter (same_key c wh) (contributions (stock_map l)) = [x] ->
     List.filter (same_key c wh) (contributions (stock_map l')) = [x]) /\
  (forall c wh, (c, wh) ∈ stock_seen l' ->
                (c, wh) ∈ stock_seen l \/ proposes self c wh row = true).
Proof.
  intros Hrow Hinv.
  destruct (normalize_row row) as [n|e] eqn:Hn.
  2:{ rewrite process_row_unfold, Hn in Hrow. discriminate. }
  destruct (row_failure w n) as [f|] eqn:Hf.
  { rewrite process_row_unfold, Hn, Hf in Hrow. simplify_eq.
    split; [by eapply stock_inv_fields|]. by auto. }
  destruct (process_row_valid self ctx idx row l w n Hn Hf)
    as (l2 & w2 & Hrow' & (_ & _ & Hmap & Hseen) & _).
  rewrite Hrow' in Hrow. simplify_eq.
  assert (Hinv2 : stock_inv l2) by (by eapply stock_inv_fields).
  destruct (stock_step_spec self n idx l2 Hinv2) as (Hinv' & Hkeep & Hnew).
  rewrite Hmap in Hkeep. rewrite Hseen in Hnew.
  split; [done|]. split; [done|].
  intros c wh Hin. destruct (Hnew c wh Hin) as [?|[p Hp]]; [by left|].
  right. unfold proposes. rewrite Hn, Hp. by apply same_key_true.
Qed.

Lemma scan_rows_stock self ctx rows idx l w l' w' :
  scan_rows self ctx idx rows l w = (Returned l', w') ->
  stock_inv l ->
  stock_inv l' /\
  (forall c wh x,
     List.filter (same_key c wh) (contributions (stock_map l)) = [x] ->
     List.filter (same_key c wh) (contributions (stock_map l')) = [x]) /\
  (forall c wh, (c, wh) ∈ stock_seen l' ->
                (c, wh) ∈ stock_seen l \/
                exists row, row ∈ rows /\ proposes self c wh row = true).
Proof.
  revert idx l w. induction rows as [|row rows IH]; intros idx l w Hscan Hinv.
  - cbn [scan_rows] in Hscan. unfold ret in Hscan. simplify_eq. by auto.
  - cbn [scan_rows] in Hscan. unfold bind in Hscan.
    destruct (process_row self ctx idx row l w) as [[l1|e] w1] eqn:Hrow;
      [|discriminate].
    destruct (process_row_stock _ _ _ _ _ _ _ _ Hrow Hinv) as (Hinv1 & Hk1 & Hs1).
    destruct (IH _ _ _ Hscan Hinv1) as (Hinv2 & Hk2 & Hs2).
    split; [done|]. split; [by auto|].
    intros c wh Hin. destruct (Hs2 c wh Hin) as [Hin1|(r & Hr & Hp)].
    + destruct (Hs1 c wh Hin1) as [?|Hp]; [by left|].
      right. exists row. split; [by left|done].
    + right. exists r. split; [by right|done].
Qed.

(** C5. Two rows that pass validation and propose a stock contribution
    for the same item code and warehouse, the first of them being the
    first row of the file that does: when the scan ends, one
    contribution is recorded under that key and it carries the first
    row's quantity and valuation rate; the second row leaves the stock
    map as it was, adds one note, and adds no error. *)
Theorem stock_first_occurrence_wins
  self ctx pre row1 mid row2 post w0 l1 w1 l1' w1' l2 w2 l2' w2' l3 w3
  n1 n2 c wh p1 p2 :
  let idx1 := 2 + length pre in
  let idx2 := S idx1 + length mid in
  skip_stock_reconciliation self = false ->
  scan_rows self ctx 2 pre init_locals w0 = (Returned l1, w1) ->
  Forall (fun r => proposes self c wh r = false) pre ->
  normalize_row row1 = Returned n1 ->
  row_failure w1 n1 = None ->
  row_contribution self n1 = Some (c, wh, p1) ->
  process_row self ctx idx1 row1 l1 w1 = (Returned l1', w1') ->
  scan_rows self ctx (S idx1) mid l1' w1' = (Returned l2, w2) ->
  normalize_row row2 = Returned n2 ->
  row_failure w2 n2 = None ->
  row_contribution self n2 = Some (c, wh, p2) ->
  process_row self ctx idx2 row2 l2 w2 = (Returned l2', w2') ->
  scan_rows self ctx (S idx2) post l2' w2' = (Returned l3, w3) ->
  List.filter (same_key c wh) (contributions (stock_map l3)) = [(c, wh, p1)] /\
  stock_map l2' = stock_map l2 /\
  log_lines l2' = log_lines l2 ++ [msg_duplicate_stock idx2 c wh] /\
  errors l2' = errors l2 /\
  scan_rows self ctx 2 (pre ++ row1 :: mid ++ row2 :: post) init_locals w0
  = (Returned l3, w3).
Proof.
  intros idx1 idx2 Hskip Hpre Hfirst Hn1 Hv1 Hc1 Hrow1 Hmid Hn2 Hv2 Hc2 Hrow2 Hpost.
  (* the rows before the first one *)
  destruct (scan_rows_stock _ _ _ _ _ _ _ _ Hpre stock_inv_init)
    as (Hinv1 & _ & Hseen1).
  assert (Hfresh : (c, wh) ∉ stock_seen l1).
  { intros Hin. destruct (Hseen1 c wh Hin) as [Hin0|(r & Hr & Hp)].
    - cbn [init_locals stock_seen] in Hin0. set_solver.
    - rewrite Forall_forall in Hfirst. rewrite (Hfirst r Hr) in Hp. discriminate. }
  (* the first row records its contribution *)
  destruct (process_row_valid self ctx idx1 row1 l1 w1 n1 Hn1 Hv1)
    as (la & wa & Hrow1' & (_ & _ & Hmapa & Hseena) & _).
  rewrite Hrow1' in Hrow1. injection Hrow1 as <- <-.
  assert (Hinva : stock_inv la) by (by eapply stock_inv_fields).
  assert (Hfresha : (c, wh) ∉ stock_seen la) by (by rewrite Hseena).
  assert (Hcode1 : item_code_of n1 = c).
  { unfold row_contribution in Hc1. destruct (Py.or_else _ _); [|done].
    destruct (_ && _); by simplify_eq. }
  rewrite stock_step_unfold, Hskip, Hc1 in Hmid.
  rewrite (bool_decide_eq_false_2 _ Hfresha) in Hmid.
  destruct (put_stock_spec c wh p1 la Hinva Hfresha) as (Hinv1' & Hrec1 & _).
  (* the rows in between keep it *)
  destruct (scan_rows_stock _ _ _ _ _ _ _ _ Hmid Hinv1') as (Hinv2 & Hkeep2 & _).
  pose proof (Hkeep2 _ _ _ Hrec1) as Hrec2.
  (* the second row finds the key seen *)
  destruct (process_row_valid self ctx idx2 row2 l2 w2 n2 Hn2 Hv2)
    as (lb & wb & Hrow2' & (Herrb & Hlogb & Hmapb & Hseenb) & _).
  rewrite Hrow2' in Hrow2. injection Hrow2 as <- <-.
  assert (Hseen2 : (c, wh) ∈ stock_seen lb).
  { rewrite Hseenb. apply Hinv2. by eapply filter_has_key. }
  assert (Hstep2 : stock_step self n2 idx2 (item_code_of n2) lb
                   = add_note (msg_duplicate_stock idx2 c wh) lb).
  { rewrite stock_step_unfold, Hskip, Hc2. by rewrite bool_decide_eq_true_2. }
  rewrite Hstep2 in Hpost |- *.
  assert (Hinv2' : stock_inv (add_note (msg_duplicate_stock idx2 c wh) lb)).
  { eapply stock_inv_fields; [| |exact Hinv2]; cbn; congruence. }
  destruct (scan_rows_stock _ _ _ _ _ _ _ _ Hpost Hinv2') as (_ & Hkeep3 & _).
  split.
  { apply Hkeep3. cbn [add_note stock_map]. by rewrite Hmapb. }
  split; [by cbn; rewrite Hmapb|].
  split; [by cbn; rewrite Hlogb|].
  split; [by cbn; rewrite Herrb|].
  rewrite scan_rows_app, Hpre. fold idx1. cbn [scan_rows]. unfold bind at 1.
  rewrite Hrow1'. rewrite stock_step_unfold, Hskip, Hc1.
  rewrite (bool_decide_eq_false_2 _ Hfresha).
  rewrite scan_rows_app, Hmid. fold idx2. cbn [scan_rows]. unfold bind at 1.
  rewrite Hrow2', Hstep2. exact Hpost.
Qed.

End Stock.

(** The end-to-end example of the specification: ITM1 in WH1 with
    quantity 10, then again with quantity 5. *)
Lemma stock_first_occurrence_wins_witness :
  let self := Demo.the_settings None None Demo.account_a false false true false in
  let w0 := Demo.the_world (Some "Acme") "" ∅ in
  let r1 := process_row self Demo.the_ctx 2 Demo.widget_row init_locals w0 in
  let l1 := Demo.value_of init_locals r1 in
  let r2 := process_row self Demo.the_ctx 3 Demo.widget_again l1 r1.2 in
  let l2 := Demo.value_of init_locals r2 in
  skip_stock_reconciliation self = false /\
  row_contribution self (Demo.normalized Demo.widget_row)
  = Some ("ITM1", "WH1", Demo.ten) /\
  row_contribution self (Demo.normalized Demo.widget_again)
  = Some ("ITM1", "WH1", Demo.five) /\
  List.filter (same_key "ITM1" "WH1") (contributions (stock_map l2))
  = [("ITM1", "WH1", Demo.ten)] /\
  stock_map l2 = stock_map l1 /\
  log_lines l2 = log_lines l1 ++ [msg_duplicate_stock 3 "ITM1" "WH1"] /\
  errors l2 = errors l1 /\
  scan_rows self Demo.the_ctx 2 [Demo.widget_row; Demo.widget_again] init_locals w0
  = (Returned l2, r2.2).
Proof.
  intros self w0 r1 l1 r2 l2.
  assert (Hc1 : row_contribution self (Demo.normalized Demo.widget_row)
                = Some ("ITM1", "WH1", Demo.ten))
    by reflexivity.
  assert (Hc2 : row_contribution self (Demo.normalized Demo.widget_again)
                = Some ("ITM1", "WH1", Demo.five))
    by reflexivity.
  split; [reflexivity|]. split; [exact Hc1|]. split; [exact Hc2|].
  apply (stock_first_occurrence_wins self Demo.the_ctx [] Demo.widget_row []
           Demo.widget_again [] w0 init_locals w0 l1 r1.2 l1 r1.2 l2 r2.2 l2 r2.2
           (Demo.normalized Demo.widget_row) (Demo.normalized Demo.widget_again)
           "ITM1" "WH1" Demo.ten
           Demo.five).
  - reflexivity.
  - reflexivity.
  - constructor.
  - reflexivity.
  - reflexivity.
  - exact Hc1.
  - reflexivity.
  - reflexivity.
  - reflexivity.
  - reflexivity.
  - exact Hc2.
  - reflexivity.
  - reflexivity.
Defined.

(** ** The end of a run *)

Section Run.
Context `{HH : Host}.

Lemma join_starts sep a s l : exists t, Py.join sep (String a s :: l) = String a t.
Proof. destruct l; simpl; eauto. Qed.

Lemma strip_join_starts sep a s l :
  Py.isspace a = false ->
  Py.nonempty (Py.strip (Py.join sep (String a s :: l))) = true.
Proof.
  intros Ha. destruct (join_starts sep a s l) as [t ->]. by apply strip_starts.
Qed.

Lemma log_message_summary_nonempty errs notes s :
  Py.nonempty (log_message errs notes (Some s)) = true.
Proof.
  unfold log_message, log_output.
  by apply (strip_join_starts Py.newline "S" "ummary").
Qed.

Lemma log_message_errors_nonempty e errs notes :
  Py.nonempty (log_message (e :: errs) notes None) = true.
Proof.
  unfold log_message, log_output. destruct notes as [|note notes].
  - by apply (strip_join_starts Py.newline "E" "rrors").
  - by apply (strip_join_starts Py.newline "N" "otes").
Qed.

Lemma write_log_summary errs notes s w :
  _write_log errs notes (Some s) false w
  = (Returned tt, set_import_log (log_message errs notes (Some s)) w).
Proof.
  unfold _write_log, bind, modify, ret.
  by rewrite log_message_summary_nonempty.
Qed.

Lemma write_log_errors e errs notes w :
  let msg := log_message (e :: errs) notes None in
  _write_log (e :: errs) notes None true w
  = (Returned tt, add_error_log msg "Bulk Item Import" (set_import_log msg w)).
Proof.
  unfold _write_log, bind, modify, ret.
  by rewrite log_message_errors_nonempty.
Qed.

Lemma recos_only_refl w : recos_only w w.
Proof. split_and!; try done. exists []. by rewrite app_nil_r. Qed.

Lemma recos_only_trans w1 w2 w3 :
  recos_only w1 w2 -> recos_only w2 w3 -> recos_only w1 w3.
Proof.
  intros (? & ? & ? & ? & ? & o1 & Hj1 & Hu1) (? & ? & ? & ? & ? & o2 & Hj2 & Hu2).
  split_and!; try congruence.
  exists (o1 ++ o2). split.
  - by rewrite Hj2, Hj1, app_assoc.
  - by rewrite forallb_app, Hu1, Hu2.
Qed.

(** The stock reconciliation loop issues stock reconciliation calls
    only, and writes no log. *)
Lemma submit_recos_frame self ctx groups k w :
  recos_only w (submit_recos self ctx groups k w).2.
Proof.
  revert k w. induction groups as [|[wh its] groups IH]; intros k w.
  { apply recos_only_refl. }
  cbn [submit_recos]. destruct its as [|it its]; [apply IH|].
  unfold bind at 1. unfold reads at 1. unfold bind at 1. unfold reads at 1.
  set (doc := build_reco self ctx wh (it :: its) _ _).
  unfold bind at 1. unfold try_validation.
  unfold bind at 1. unfold reco_insert.
  destruct (reco_insert_error w doc) as [msg|].
  { destruct (_ || _); unfold throw, raise; apply recos_only_refl. }
  unfold bind at 1. unfold reco_submit. cbn [recos record set_recos].
  destruct (reco_submit_error _ doc) as [msg|].
  { assert (Hins : recos_only w
              (record (RecoInsert doc) (set_recos (fun rs => rs ++ [(doc, false)]) w))).
    { split_and!; try done. by exists [RecoInsert doc]. }
    destruct (_ || _); unfold throw, raise; exact Hins. }
  unfold ret at 1. eapply recos_only_trans; [|apply IH].
  split_and!; try done. exists [RecoInsert doc; RecoSubmit doc].
  split; [|done]. cbn [journal record set_recos]. by rewrite <- app_assoc.
Qed.

Lemma finish_errors self ctx l w e errs :
  errors l = e :: errs ->
  let msg := log_message (errors l) (log_lines l) None in
  finish self ctx l w
  = (Raised (ValidationError (Py.join Py.newline (errors l))),
     add_error_log msg "Bulk Item Import" (set_import_log msg w)).
Proof.
  intros He. unfold finish. rewrite He.
  unfold bind at 1. unfold bind at 1. rewrite write_log_errors.
  reflexivity.
Qed.

Lemma finish_clean self ctx l w :
  errors l = [] ->
  finish self ctx l w =
  match (if negb (skip_stock_reconciliation self) && negb (dry_run self)
         then submit_recos self ctx (stock_map l) 0 else ret 0) w with
  | (Returned k, w1) =>
      (Returned (summary_of l k),
       set_import_log (log_message [] (log_lines l) (Some (summary_of l k))) w1)
  | (Raised e, w1) => (Raised e, w1)
  end.
Proof.
  intros He. unfold finish. rewrite He.
  unfold bind at 1. unfold ret at 1. unfold bind at 1.
  destruct (negb (skip_stock_reconciliation self) && negb (dry_run self)).
  - destruct (submit_recos self ctx (stock_map l) 0 w) as [[k|e] w1]; [|done].
    unfold bind. rewrite write_log_summary. reflexivity.
  - unfold ret at 1. unfold bind. rewrite write_log_summary. reflexivity.
Qed.

Lemma process_row_world self ctx idx row l w :
  upserts_only w (process_row self ctx idx row l w).2 /\
  (dry_run self = true -> (process_row self ctx idx row l w).2 = w).
Proof.
  destruct (normalize_row row) as [n|e] eqn:Hn.
  2:{ rewrite process_row_unfold, Hn. split; [apply upserts_only_refl|done]. }
  destruct (row_failure w n) as [f|] eqn:Hf.
  { rewrite process_row_unfold, Hn, Hf. split; [apply upserts_only_refl|done]. }
  destruct (process_row_valid self ctx idx row l w n Hn Hf)
    as (l2 & w2 & -> & _ & Hups & Hdry & _).
  split; [done|]. intros Hd. by destruct (Hdry Hd).
Qed.

Lemma scan_rows_world self ctx rows idx l w :
  upserts_only w (scan_rows self ctx idx rows l w).2 /\
  (dry_run self = true -> (scan_rows self ctx idx rows l w).2 = w).
Proof.
  revert idx l w. induction rows as [|row rows IH]; intros idx l w.
  { split; [apply upserts_only_refl|done]. }
  cbn [scan_rows]. unfold bind.
  destruct (process_row_world self ctx idx row l w) as [Hups Hdry].
  destruct (process_row self ctx idx row l w) as [[l1|e] w1]; [|done].
  destruct (IH (S idx) l1 w1) as [Hups' Hdry'].
  split; [by eapply upserts_only_trans|].
  intros Hd. rewrite Hdry' by done. by apply Hdry.
Qed.

Lemma import_rows_unfold self rows w ctx w0 l w1 :
  resolve_config self w = (Returned ctx, w0) ->
  scan_rows self ctx 2 rows init_locals w0 = (Returned l, w1) ->
  import_rows self rows w = finish self ctx l w1.
Proof.
  intros Hc Hs. unfold import_rows. unfold bind at 1. rewrite Hc.
  unfold bind at 1. by rewrite Hs.
Qed.

(** C1, as amended. When the scan ends with row errors, the run writes
    the error log and fails with the errors joined by newlines; no stock
    reconciliation is inserted or submitted, and whatever was issued
    against the store are the item and price upserts of the scan, which
    stay issued; under dry run nothing was issued at all. *)
Theorem row_errors_abort self rows w ctx w0 l w1 :
  resolve_config self w = (Returned ctx, w0) ->
  scan_rows self ctx 2 rows init_locals w0 = (Returned l, w1) ->
  errors l <> [] ->
  exists w2,
    import_rows self rows w
    = (Raised (ValidationError (Py.join Py.newline (errors l))), w2) /\
    import_log w2 = Some (log_message (errors l) (log_lines l) None) /\
    recos w2 = recos w /\
    items w2 = items w1 /\ prices w2 = prices w1 /\ journal w2 = journal w1 /\
    (exists ops, journal w2 = journal w ++ ops /\ forallb is_upsert ops = true) /\
    (dry_run self = true ->
     journal w2 = journal w /\ items w2 = items w /\ prices w2 = prices w).
Proof.
  intros Hc Hs He.
  assert (Hw0 : w0 = w).
  { rewrite <- (resolve_config_world self w). by rewrite Hc. }
  subst w0.
  destruct (scan_rows_world self ctx rows 2 init_locals w) as [Hups Hdry].
  rewrite Hs in Hups, Hdry. cbn [snd] in Hups, Hdry.
  destruct Hups as (_ & Hrecos & _ & _ & Hops & _).
  destruct (errors l) as [|e errs] eqn:Herrs; [done|]. rewrite <- Herrs.
  eexists. split.
  { rewrite (import_rows_unfold _ _ _ _ _ _ _ Hc Hs).
    apply (finish_errors self ctx l w1 e errs Herrs). }
  cbn [import_log recos items prices journal add_error_log set_import_log].
  split_and!; try done.
  intros Hd. by rewrite (Hdry Hd).
Qed.

(** C8, as amended. A run that got past configuration resolution and
    the scan writes the log with the summary counts and the notes when
    it returns; when it is aborted by row errors the log holds the notes
    and the errors but no summary, and is also sent to the error log;
    when a stock reconciliation is refused it writes no log at all. *)
Theorem final_log self rows w ctx w0 l w1 out w2 :
  resolve_config self w = (Returned ctx, w0) ->
  scan_rows self ctx 2 rows init_locals w0 = (Returned l, w1) ->
  import_rows self rows w = (out, w2) ->
  import_log w1 = import_log w /\
  match out with
  | Returned s =>
      errors l = [] /\
      (exists k, s = summary_of l k) /\
      import_log w2 = Some (log_message [] (log_lines l) (Some s)) /\
      log_output [] (log_lines l) (Some s)
      = ["Summary"] ++ summary_lines s ++ [""] ++
        match log_lines l with [] => [] | _ => ["Notes"] ++ log_lines l ++ [""] end /\
      error_log w2 = error_log w1
  | Raised e =>
      (errors l <> [] /\
       e = ValidationError (Py.join Py.newline (errors l)) /\
       import_log w2 = Some (log_message (errors l) (log_lines l) None) /\
       log_output (errors l) (log_lines l) None
       = match log_lines l with [] => [] | _ => ["Notes"] ++ log_lines l ++ [""] end
         ++ ["Errors"] ++ errors l /\
       error_log w2
       = error_log w1 ++ [(log_message (errors l) (log_lines l) None,
                           "Bulk Item Import")])
      \/
      (errors l = [] /\ import_log w2 = import_log w1 /\
       error_log w2 = error_log w1)
  end.
Proof.
  intros Hc Hs Hrun.
  assert (Hw0 : w0 = w).
  { rewrite <- (resolve_config_world self w). by rewrite Hc. }
  subst w0.
  destruct (scan_rows_world self ctx rows 2 init_locals w) as [Hups _].
  rewrite Hs in Hups. cbn [snd] in Hups.
  destruct Hups as (_ & _ & Hlog & _).
  split; [done|].
  rewrite (import_rows_unfold _ _ _ _ _ _ _ Hc Hs) in Hrun.
  destruct (errors l) as [|e errs] eqn:Herrs.
  - rewrite (finish_clean self ctx l w1 Herrs) in Hrun.
    assert (Hfr : recos_only w1
              (((if negb (skip_stock_reconciliation self) && negb (dry_run self)
                 then submit_recos self ctx (stock_map l) 0 else ret 0) w1).2)).
    { destruct (_ && _); [apply submit_recos_frame|apply recos_only_refl]. }
    destruct ((if negb (skip_stock_reconciliation self) && negb (dry_run self)
               then submit_recos self ctx (stock_map l) 0 else ret 0) w1)
      as [[k|e] w1'].
    + simplify_eq. cbn [snd] in Hfr. destruct Hfr as (_ & _ & _ & _ & Herr & _).
      split_and!; try done.
      * by exists k.
      * unfold log_output. by rewrite app_nil_r.
    + simplify_eq. right. cbn [snd] in Hfr.
      destruct Hfr as (_ & _ & _ & Hl & Herr & _). done.
  - rewrite <- Herrs.
    rewrite (finish_errors self ctx l w1 e errs Herrs) in Hrun. simplify_eq.
    left. split_and!; try done.
    + by rewrite Herrs.
    + unfold log_output. by rewrite Herrs.
Qed.

End Run.

Lemma row_errors_abort_witness :
  let self := Demo.the_settings None None Demo.account_a false false true false in
  let w := Demo.the_world (Some "Acme") "" ∅ in
  let rows := [Demo.widget_row; Demo.nameless_row] in
  let scanned := scan_rows self Demo.the_ctx 2 rows init_locals w in
  let l := Demo.value_of init_locals scanned in
  resolve_config self w = (Returned Demo.the_ctx, w) /\
  scan_rows self Demo.the_ctx 2 rows init_locals w = (Returned l, scanned.2) /\
  errors l = ["Row 3: Missing Item Code"] /\
  exists w2,
    import_rows self rows w
    = (Raised (ValidationError (Py.join Py.newline (errors l))), w2) /\
    import_log w2 = Some (log_message (errors l) (log_lines l) None) /\
    recos w2 = recos w /\
    items w2 = items scanned.2 /\ prices w2 = prices scanned.2 /\
    journal w2 = journal scanned.2 /\
    (exists ops, journal w2 = journal w ++ ops /\ forallb is_upsert ops = true) /\
    (dry_run self = true ->
     journal w2 = journal w /\ items w2 = items w /\ prices w2 = prices w).
Proof.
  intros self w rows scanned l.
  assert (Hc : resolve_config self w = (Returned Demo.the_ctx, w)) by reflexivity.
  assert (Hs : scan_rows self Demo.the_ctx 2 rows init_locals w
               = (Returned l, scanned.2)) by reflexivity.
  assert (He : errors l = ["Row 3: Missing Item Code"]) by reflexivity.
  split; [exact Hc|]. split; [exact Hs|]. split; [exact He|].
  apply (row_errors_abort self rows w Demo.the_ctx w l scanned.2 Hc Hs).
  rewrite He. discriminate.
Defined.

(** A valid row followed by a row without item code: the run fails on
    the second row, and the first row's item has been inserted. *)
Lemma valid_rows_are_upserted_before_the_abort :
  let self := Demo.the_settings None None Demo.account_a false false true false in
  let w := Demo.the_world (Some "Acme") "" ∅ in
  let r := import_rows self [Demo.widget_row; Demo.nameless_row] w in
  let doc :=
    _apply_item_fields (item_set "item_code" (VStr "ITM1") new_item_doc)
      (Demo.normalized Demo.widget_row) "Widget" "Parts" "Nos" in
  r.1 = Raised (ValidationError "Row 3: Missing Item Code") /\
  journal w = [] /\
  journal r.2 = [ItemInsert "ITM1" doc] /\
  items w !! "ITM1" = None /\
  items r.2 !! "ITM1" = Some doc.
Proof. repeat split; reflexivity. Qed.

Lemma final_log_witness :
  let self := Demo.the_settings None None Demo.account_a false false true false in
  let w := Demo.the_world (Some "Acme") "" ∅ in
  let rows := [Demo.widget_row; Demo.widget_again] in
  let scanned := scan_rows self Demo.the_ctx 2 rows init_locals w in
  let l := Demo.value_of init_locals scanned in
  let r := import_rows self rows w in
  let s := summary_of l 1 in
  resolve_config self w = (Returned Demo.the_ctx, w) /\
  scan_rows self Demo.the_ctx 2 rows init_locals w = (Returned l, scanned.2) /\
  import_rows self rows w = (Returned s, r.2) /\
  import_log r.2 = Some (log_message [] (log_lines l) (Some s)) /\
  log_lines l = ["Row 3: Duplicate stock row for ITM1 in WH1; using first occurrence."].
Proof.
  intros self w rows scanned l r s.
  assert (Hc : resolve_config self w = (Returned Demo.the_ctx, w)) by reflexivity.
  assert (Hs : scan_rows self Demo.the_ctx 2 rows init_locals w
               = (Returned l, scanned.2)) by reflexivity.
  assert (Hr : import_rows self rows w = (Returned s, r.2)) by reflexivity.
  split; [exact Hc|]. split; [exact Hs|]. split; [exact Hr|].
  split; [|reflexivity].
  exact (proj1 (proj2 (proj2 (proj2
           (final_log self rows w Demo.the_ctx w l scanned.2 (Returned s) r.2
              Hc Hs Hr))))).
Defined.

(** A run aborted by a row error logs the errors without a summary; a
    run whose stock reconciliation the store refuses logs nothing. *)
Lemma final_log_not_always_written :
  let w := Demo.the_world None "" ∅ in
  let r := import_rows
             (Demo.the_settings None None Demo.account_a false false true false)
             [Demo.widget_row; Demo.nameless_row] w in
  let r' := import_rows
              (Demo.the_settings None None (Some "Unassigned - X")
                 false false true false)
              [Demo.widget_row] w in
  r.1 = Raised (ValidationError "Row 3: Missing Item Code") /\
  import_log r.2 = Some (Demo.lines ["Errors"; "Row 3: Missing Item Code"]) /\
  r'.1 = Raised (ValidationError "Company is mandatory") /\
  import_log r'.2 = None /\
  length (journal r'.2) = 2.
Proof. repeat split; reflexivity. Qed.

(** ** Dry run *)

Section DryRun.
Context `{HH : Host}.








End DryRun.



(** ** Running the same file again *)

Section Rerun.
Context `{HH : Host}.

Lemma process_row_errors_grow self ctx idx row l w l' w' :
  process_row self ctx idx row l w = (Returned l', w') ->
  exists es, errors l' = errors l ++ es.
Proof.
  intros Hrow. destruct (normalize_row row) as [n|e] eqn:Hn.
  2:{ rewrite process_row_unfold, Hn in Hrow. discriminate. }
  destruct (row_failure w n) as [f|] eqn:Hf.
  { rewrite process_row_unfold, Hn, Hf in Hrow. simplify_eq.
    by eexists [_]. }
  destruct (process_row_valid self ctx idx row l w n Hn Hf)
    as (l2 & w2 & Hrow' & (He & _) & _).
  rewrite Hrow' in Hrow. simplify_eq. exists [].
  by rewrite errors_stock_step, app_nil_r.
Qed.

Lemma scan_rows_errors_grow self ctx rows idx l w l' w' :
  scan_rows self ctx idx rows l w = (Returned l', w') ->
  exists es, errors l' = errors l ++ es.
Proof.
  revert idx l w. induction rows as [|row rows IH]; intros idx l w Hscan.
  - cbn [scan_rows] in Hscan. unfold ret in Hscan. simplify_eq.
    exists []. by rewrite app_nil_r.
  - cbn [scan_rows] in Hscan. unfold bind in Hscan.
    destruct (process_row self ctx idx row l w) as [[l1|e] w1] eqn:Hrow;
      [|discriminate].
    destruct (process_row_errors_grow _ _ _ _ _ _ _ _ Hrow) as [es1 H1].
    destruct (IH _ _ _ Hscan) as [es2 H2].
    exists (es1 ++ es2). by rewrite H2, H1, app_assoc.
Qed.

Lemma first_failure_none_code k c nm g u :
  first_failure k c nm g u = None -> Py.nonempty c = true.
Proof. unfold first_failure. by destruct (Py.nonempty c). Qed.

Lemma first_failure_known c nm g u :
  Py.nonempty c = true -> first_failure true c nm g u = None.
Proof. unfold first_failure. by intros ->. Qed.

Lemma row_installed_mono self ctx w w' row :
  upserts_only w w' -> row_installed self ctx w row -> row_installed self ctx w' row.
Proof.
  intros (_ & _ & _ & _ & _ & Hk & Hp) (n & Hn & Hc & Hkn & Hpr).
  exists n. split_and!; auto.
Qed.

Lemma row_installed_world self ctx w w' row :
  items w' = items w -> prices w' = prices w ->
  row_installed self ctx w row -> row_installed self ctx w' row.
Proof.
  intros Hi Hp (n & Hn & Hc & Hkn & Hpr).
  exists n. unfold known, price_known in *. rewrite Hi, Hp. done.
Qed.

(** A real scan that ends without a new error leaves every row's item,
    and its price if any, in the store. *)
Lemma scan_rows_installs self ctx rows idx l w l' w' :
  dry_run self = false ->
  scan_rows self ctx idx rows l w = (Returned l', w') ->
  errors l' = errors l ->
  Forall (row_installed self ctx w') rows.
Proof.
  intros Hd. revert idx l w.
  induction rows as [|row rows IH]; intros idx l w Hscan Herr; [constructor|].
  cbn [scan_rows] in Hscan. unfold bind in Hscan.
  destruct (process_row self ctx idx row l w) as [[l1|e] w1] eqn:Hrow;
    [|discriminate].
  destruct (process_row_errors_grow _ _ _ _ _ _ _ _ Hrow) as [es1 H1].
  destruct (scan_rows_errors_grow _ _ _ _ _ _ _ _ Hscan) as [es2 H2].
  assert (Hes : es1 = [] /\ es2 = []).
  { rewrite H2, H1, <- app_assoc in Herr.
    rewrite <- (app_nil_r (errors l)) in Herr at 2.
    apply app_inv_head in Herr. by apply app_eq_nil in Herr. }
  destruct Hes as [-> ->]. rewrite app_nil_r in H1, H2.
  pose proof (scan_rows_world self ctx rows (S idx) l1 w1) as [Hups _].
  rewrite Hscan in Hups. cbn [snd] in Hups.
  constructor; [|by eapply IH; [exact Hscan|congruence]].
  eapply row_installed_mono; [exact Hups|].
  destruct (normalize_row row) as [n|e] eqn:Hn.
  2:{ rewrite process_row_unfold, Hn in Hrow. discriminate. }
  destruct (row_failure w n) as [f|] eqn:Hf.
  { rewrite process_row_unfold, Hn, Hf in Hrow. simplify_eq.
    cbn [add_error errors] in H1.
    rewrite <- (app_nil_r (errors l)) in H1 at 2.
    apply app_inv_head in H1. discriminate. }
  destruct (process_row_valid self ctx idx row l w n Hn Hf)
    as (l2 & w2 & Hrow' & _ & _ & _ & Hk & _ & Hp & _).
  rewrite Hrow' in Hrow. simplify_eq.
  exists n. split_and!; auto.
  by eapply first_failure_none_code.
Qed.

Lemma counters_stock_step self n idx l :
  let l' := stock_step self n idx (item_code_of n) l in
  created_items l' = created_items l /\ updated_items l' = updated_items l /\
  created_prices l' = created_prices l /\ updated_prices l' = updated_prices l.
Proof.
  cbv zeta. rewrite stock_step_unfold.
  destruct (skip_stock_reconciliation self); [done|].
  destruct (row_contribution self n) as [[[c wh] p]|]; [|done].
  by destruct (bool_decide _).
Qed.

(** Scanning rows that the store already holds, without
    [update_existing]: nothing is written and no counter moves. *)
Lemma scan_rows_settled self ctx rows w idx l :
  update_existing self = false ->
  Forall (row_installed self ctx w) rows ->
  exists l',
    scan_rows self ctx idx rows l w = (Returned l', w) /\
    errors l' = errors l /\
    created_items l' = created_items l /\ updated_items l' = updated_items l /\
    created_prices l' = created_prices l /\ updated_prices l' = updated_prices l.
Proof.
  intros Hu Hall. revert idx l.
  induction Hall as [|row rows (n & Hn & Hc & Hk & Hp) _ IH]; intros idx l.
  { exists l. by split_and!. }
  assert (Hf : row_failure w n = None).
  { unfold row_failure. rewrite Hk. by apply first_failure_known. }
  destruct (process_row_valid self ctx idx row l w n Hn Hf)
    as (l2 & w2 & Hrow & (He & _) & _ & _ & _ & _ & _ & Hsame).
  destruct (Hsame Hu Hk Hp) as (-> & Hci & Hui & Hcp & Hup).
  destruct (counters_stock_step self n idx l2) as (Hci' & Hui' & Hcp' & Hup').
  destruct (IH (S idx) (stock_step self n idx (item_code_of n) l2))
    as (l' & Hscan & He' & Hci'' & Hui'' & Hcp'' & Hup'').
  exists l'. cbn [scan_rows]. unfold bind. rewrite Hrow.
  split; [exact Hscan|].
  rewrite errors_stock_step in He'. split_and!; congruence.
Qed.

Lemma resolve_config_env self w w' :
  env w' = env w -> (resolve_config self w').1 = (resolve_config self w).1.
Proof.
  intros He. rewrite !resolve_config_unfold. cbv zeta.
  unfold given_company, account_of. rewrite He.
  repeat (first [ destruct (Py.truthy _) | destruct (accounts _ !! _)
                | destruct (is_group _) | destruct (bool_decide _)
                | destruct (skip_stock_reconciliation _) ]; try done).
Qed.

(** C6. After a real run of a file has returned, running the same file
    again without [update_existing] gets through configuration and the
    scan without an error and without writing an item or a price, with
    all four item and price counters at zero; so the summary, when the
    stock reconciliation stage lets the run return, reports
    createdItems = 0 and updatedItems = 0 (and no created or updated
    price), and it does return when stock reconciliation is skipped. *)
Theorem rerun_creates_nothing self rows w s1 w1 :
  dry_run self = false ->
  import_rows self rows w = (Returned s1, w1) ->
  let again := with_update_existing false self in
  exists ctx l,
    resolve_config again w1 = (Returned ctx, w1) /\
    scan_rows again ctx 2 rows init_locals w1 = (Returned l, w1) /\
    errors l = [] /\
    created_items l = 0 /\ updated_items l = 0 /\
    created_prices l = 0 /\ updated_prices l = 0 /\
    (forall s2 w2,
       import_rows again rows w1 = (Returned s2, w2) ->
       sum_created_items s2 = 0 /\ sum_updated_items s2 = 0 /\
       sum_created_prices s2 = 0 /\ sum_updated_prices s2 = 0 /\
       items w2 = items w1 /\ prices w2 = prices w1) /\
    (skip_stock_reconciliation self = true ->
     exists w2, import_rows again rows w1 = (Returned (summary_of l 0), w2)).
Proof.
  intros Hd Hrun again.
  (* the first run *)
  pose proof (resolve_config_world self w) as Hw0.
  destruct (resolve_config self w) as [[ctx|e] w0] eqn:Hc.
  2:{ unfold import_rows, bind in Hrun. rewrite Hc in Hrun. discriminate. }
  cbn [snd] in Hw0. subst w0.
  destruct (scan_rows self ctx 2 rows init_locals w) as [[l1|e] wa] eqn:Hs.
  2:{ unfold import_rows in Hrun. unfold bind at 1 in Hrun. rewrite Hc in Hrun.
      unfold bind at 1 in Hrun. rewrite Hs in Hrun. discriminate. }
  rewrite (import_rows_unfold _ _ _ _ _ _ _ Hc Hs) in Hrun.
  destruct (errors l1) as [|e errs] eqn:He1.
  2:{ rewrite (finish_errors self ctx l1 wa e errs He1) in Hrun. discriminate. }
  rewrite (finish_clean self ctx l1 wa He1) in Hrun.
  assert (Hfr : recos_only wa
            (((if negb (skip_stock_reconciliation self) && negb (dry_run self)
               then submit_recos self ctx (stock_map l1) 0 else ret 0) wa).2)).
  { destruct (_ && _); [apply submit_recos_frame|apply recos_only_refl]. }
  destruct ((if negb (skip_stock_reconciliation self) && negb (dry_run self)
             then submit_recos self ctx (stock_map l1) 0 else ret 0) wa)
    as [[k|e] wb]; [|discriminate].
  cbn [snd] in Hfr. destruct Hfr as (Henvb & Hitb & Hprb & _).
  injection Hrun as _ <-.
  pose proof (scan_rows_world self ctx rows 2 init_locals w) as [Hups _].
  rewrite Hs in Hups. cbn [snd] in Hups. destruct Hups as (Henva & _).
  set (w1 := set_import_log _ wb).
  assert (Henv : env w1 = env w) by (cbn; congruence).
  assert (Hall : Forall (row_installed again ctx w1) rows).
  { eapply Forall_impl.
    - apply (scan_rows_installs self ctx rows 2 init_locals w l1 wa Hd Hs He1).
    - intros row Hrow. by apply (row_installed_world self ctx wa w1). }
  (* the second run *)
  assert (Hc2 : resolve_config again w1 = (Returned ctx, w1)).
  { pose proof (resolve_config_world again w1) as Hw.
    pose proof (resolve_config_env again w w1 Henv) as Hout.
    change (resolve_config again w) with (resolve_config self w) in Hout.
    rewrite Hc in Hout. cbn [fst] in Hout.
    destruct (resolve_config again w1) as [o w']. cbn [fst snd] in *. congruence. }
  destruct (scan_rows_settled again ctx rows w1 2 init_locals eq_refl Hall)
    as (l & Hs2 & He2 & Hci & Hui & Hcp & Hup).
  exists ctx, l. split; [exact Hc2|]. split; [exact Hs2|].
  split; [exact He2|]. split; [exact Hci|]. split; [exact Hui|].
  split; [exact Hcp|]. split; [exact Hup|].
  rewrite (import_rows_unfold _ _ _ _ _ _ _ Hc2 Hs2).
  rewrite (finish_clean again ctx l w1 He2).
  split.
  - intros s2 w2 Hret.
    assert (Hfr2 : recos_only w1
              (((if negb (skip_stock_reconciliation again) && negb (dry_run again)
                 then submit_recos again ctx (stock_map l) 0 else ret 0) w1).2)).
    { destruct (_ && _); [apply submit_recos_frame|apply recos_only_refl]. }
    destruct ((if negb (skip_stock_reconciliation again) && negb (dry_run again)
               then submit_recos again ctx (stock_map l) 0 else ret 0) w1)
      as [[k2|e2] wc]; [|discriminate].
    cbn [snd] in Hfr2. destruct Hfr2 as (_ & Hitc & Hprc & _).
    injection Hret as <- <-.
    split_and!; [exact Hci|exact Hui|exact Hcp|exact Hup|exact Hitc|exact Hprc].
  - intros Hskip.
    change (skip_stock_reconciliation again) with (skip_stock_reconciliation self).
    rewrite Hskip. cbn [negb andb]. unfold ret. eauto.
Qed.

End Rerun.

Lemma rerun_creates_nothing_witness :
  let self := Demo.the_settings None None Demo.account_a false true false false in
  let w := Demo.the_world (Some "Acme") "" ∅ in
  let rows := [Demo.priced_row; Demo.widget_row; Demo.widget_again] in
  let first := import_rows self rows w in
  let s1 :=
    {| sum_created_items := 2; sum_updated_items := 1; sum_created_prices := 1;
       sum_updated_prices := 0; sum_stock_reconciliations := 1 |} in
  dry_run self = false /\
  import_rows self rows w = (Returned s1, first.2) /\
  forall s2 w2,
    import_rows (with_update_existing false self) rows first.2 = (Returned s2, w2) ->
    sum_created_items s2 = 0 /\ sum_updated_items s2 = 0.
Proof.
  intros self w rows first s1.
  assert (Hout : first.1 = Returned s1) by (vm_compute; reflexivity).
  assert (Hrun : import_rows self rows w = (Returned s1, first.2)).
  { fold first. rewrite <- Hout. by destruct first. }
  split; [reflexivity|]. split; [exact Hrun|].
  destruct (rerun_creates_nothing self rows w s1 first.2 eq_refl Hrun)
    as (ctx & l & _ & _ & _ & _ & _ & _ & _ & Hret & _).
  intros s2 w2 Hs2. destruct (Hret s2 w2 Hs2) as (? & ? & _). by split.
Defined.

Example rerun_example :
  let self := Demo.the_settings None None Demo.account_a false true false false in
  let w := Demo.the_world (Some "Acme") "" ∅ in
  let rows := [Demo.priced_row; Demo.widget_row; Demo.widget_again] in
  (import_rows (with_update_existing false self) rows (import_rows self rows w).2).1
  = Returned {| sum_created_items := 0; sum_updated_items := 0;
                sum_created_prices := 0; sum_updated_prices := 0;
                sum_stock_reconciliations := 1 |}.
Proof. vm_compute. reflexivity. Qed.

(** * Further properties *)

(** ** Headers *)

Lemma all_chars_map p f s :
  all_chars p (Py.map_chars f s) = all_chars (fun a => p (f a)) s.
Proof. induction s as [|a s IH]; simpl; [done|]. by rewrite IH. Qed.

Lemma all_chars_true p s : (forall a, p a = true) -> all_chars p s = true.
Proof. intros Hp. induction s as [|a s IH]; simpl; [done|]. by rewrite Hp. Qed.

Lemma map_chars_compose f g s :
  Py.map_chars f (Py.map_chars g s) = Py.map_chars (fun a => f (g a)) s.
Proof. induction s as [|a s IH]; simpl; [done|]. by rewrite IH. Qed.

Lemma map_chars_ext f g s :
  (forall a, f a = g a) -> Py.map_chars f s = Py.map_chars g s.
Proof. intros Hfg. induction s as [|a s IH]; simpl; [done|]. by rewrite Hfg, IH. Qed.

Lemma normalize_header_unfold h :
  _normalize_header h = Py.map_chars header_map (Py.strip (default "" h)).
Proof.
  unfold _normalize_header, Py.replace_char, Py.lower.
  by rewrite !map_chars_compose.
Qed.

Lemma header_map_char a : header_char (header_map a) = true.
Proof. destruct a as [[] [] [] [] [] [] [] []]; reflexivity. Qed.

Lemma header_map_idem a : header_map (header_map a) = header_map a.
Proof. destruct a as [[] [] [] [] [] [] [] []]; reflexivity. Qed.

Lemma header_map_not_space a :
  Py.isspace a = false -> Py.isspace (header_map a) = false.
Proof. destruct a as [[] [] [] [] [] [] [] []]; intros Ha; done. Qed.

Lemma rstrip_idem s : Py.rstrip (Py.rstrip s) = Py.rstrip s.
Proof.
  induction s as [|a s IH]; [done|]. cbn [Py.rstrip].
  destruct (Py.rstrip s) as [|b t] eqn:Hs.
  - destruct (Py.isspace a) eqn:Ha; [done|]. cbn. by rewrite Ha.
  - cbn [Py.rstrip]. cbn [Py.rstrip] in IH. by rewrite IH.
Qed.

Lemma rstrip_head a s :
  Py.isspace a = false -> exists t, Py.rstrip (String a s) = String a t.
Proof. intros Ha. cbn. rewrite Ha. destruct (Py.rstrip s); eauto. Qed.

Lemma lstrip_cases s :
  Py.lstrip s = "" \/
  exists a t, Py.lstrip s = String a t /\ Py.isspace a = false.
Proof.
  induction s as [|a s IH]; [by left|]. cbn.
  destruct (Py.isspace a) eqn:Ha; [done|]. right. eauto.
Qed.

(** A stripped string is empty or starts with a non-space, and has
    nothing left to strip on the right. *)
Lemma strip_shape s :
  Py.rstrip (Py.strip s) = Py.strip s /\
  (Py.strip s = "" \/
   exists a t, Py.strip s = String a t /\ Py.isspace a = false).
Proof.
  unfold Py.strip. split; [apply rstrip_idem|].
  destruct (lstrip_cases s) as [->|(a & t & -> & Ha)]; [by left|].
  destruct (rstrip_head a t Ha) as [t' ->]. right. eauto.
Qed.

Lemma strip_stable u :
  Py.rstrip u = u ->
  (u = "" \/ exists a t, u = String a t /\ Py.isspace a = false) ->
  Py.strip u = u.
Proof.
  intros Hr [->|(a & t & -> & Ha)]; [done|].
  unfold Py.strip. cbn [Py.lstrip]. by rewrite Ha.
Qed.

Lemma strip_idem s : Py.strip (Py.strip s) = Py.strip s.
Proof. destruct (strip_shape s) as [Hr Hl]. by apply strip_stable. Qed.

Lemma rstrip_map_chars g u :
  (forall a, Py.isspace a = false -> Py.isspace (g a) = false) ->
  Py.rstrip u = u -> Py.rstrip (Py.map_chars g u) = Py.map_chars g u.
Proof.
  intros Hg. induction u as [|a u IH]; [done|]. cbn [Py.rstrip Py.map_chars].
  destruct (Py.rstrip u) as [|b t] eqn:Hu.
  - destruct (Py.isspace a) eqn:Ha; [done|]. intros [= <-].
    cbn. by rewrite (Hg a Ha).
  - intros [= Ht]. rewrite IH by done. rewrite <- Ht. done.
Qed.

Lemma normalize_header_idem h :
  _normalize_header (Some (_normalize_header h)) = _normalize_header h.
Proof.
  rewrite (normalize_header_unfold h).
  rewrite (normalize_header_unfold (Some _)).
  change (default "" (Some ?s)) with s.
  destruct (strip_shape (default "" h)) as [Hr Hl].
  rewrite strip_stable.
  - rewrite map_chars_compose. apply map_chars_ext, header_map_idem.
  - by apply rstrip_map_chars; [apply header_map_not_space|].
  - destruct Hl as [->|(a & t & -> & Ha)]; [by left|]. right.
    exists (header_map a), (Py.map_chars header_map t).
    split; [done|]. by apply header_map_not_space.
Qed.

(** X1. [_normalize_header] is idempotent, and what it returns holds no
    space, no hyphen and no capital A-Z. *)
Theorem normalize_header_canonical h :
  _normalize_header (Some (_normalize_header h)) = _normalize_header h /\
  all_chars header_char (_normalize_header h) = true.
Proof.
  split; [apply normalize_header_idem|].
  rewrite (normalize_header_unfold h).
  rewrite all_chars_map. apply all_chars_true, header_map_char.
Qed.

(** ** [_get_value] *)

Lemma get_value_blank row key keys :
  blank_at row key -> _get_value row (key :: keys) = _get_value row keys.
Proof. intros [Hk|Hk]; cbn [_get_value]; by rewrite Hk. Qed.

Lemma get_value_hit row key keys a s :
  row !! key = Some (String a s) -> _get_value row (key :: keys) = String a s.
Proof. intros Hk. cbn [_get_value]. by rewrite Hk. Qed.

Lemma blank_or_hit (row : gmap string string) key :
  blank_at row key \/ exists a s, row !! key = Some (String a s).
Proof.
  unfold blank_at. destruct (row !! key) as [[|a s]|]; eauto.
Qed.

(** X2. [_get_value] returns the value of the first key that holds
    non-empty text, and the empty string exactly when no key does;
    looking up a longer list of keys only matters when the shorter one
    found nothing. *)
Theorem get_value_first_nonempty (row : gmap string string) keys :
  (_get_value row keys = "" <-> Forall (blank_at row) keys) /\
  (forall v, v <> "" ->
     (_get_value row keys = v <->
      exists pre key post,
        keys = pre ++ key :: post /\ Forall (blank_at row) pre /\
        row !! key = Some v)) /\
  (forall more,
     _get_value row (keys ++ more) =
     if Py.nonempty (_get_value row keys) then _get_value row keys
     else _get_value row more).
Proof.
  induction keys as [|key keys (IH1 & IH2 & IH3)].
  { split; [done|]. split; [|done]. intros v Hv. split; [done|].
    intros (pre & key & post & Heq & _). by destruct pre. }
  destruct (blank_or_hit row key) as [Hb|(a & s & Hk)].
  - rewrite (get_value_blank _ _ _ Hb). split; [|split].
    + rewrite IH1. split; [by constructor|]. by inversion 1.
    + intros v Hv. rewrite (IH2 v Hv). split.
      * intros (pre & k & post & -> & Hpre & Hkv).
        exists (key :: pre), k, post. split; [done|]. split; [by constructor|done].
      * intros (pre & k & post & Heq & Hpre & Hkv).
        destruct pre as [|k0 pre]; simplify_eq/=.
        -- destruct Hb as [Hb|Hb]; rewrite Hb in Hkv; by simplify_eq.
        -- inversion Hpre; subst. by exists pre, k, post.
    + intros more. cbn [app]. rewrite (get_value_blank _ _ _ Hb). apply IH3.
  - rewrite (get_value_hit _ _ _ _ _ Hk). split; [|split].
    + split; [done|]. inversion 1 as [|? ? [Hb|Hb] _]; rewrite Hb in Hk; done.
    + intros v Hv. split.
      * intros <-. by exists [], key, keys.
      * intros (pre & k & post & Heq & Hpre & Hkv).
        destruct pre as [|k0 pre]; simplify_eq/=; [congruence|].
        inversion Hpre as [|? ? [Hb|Hb] _]; rewrite Hb in Hk; done.
    + intros more. cbn [app]. by rewrite (get_value_hit _ _ _ _ _ Hk).
Qed.

(** ** Normalizing a row *)

Section Normalize.
Context `{HH : Host}.

Lemma cell_text_stripped c t : cell_text c = Returned t -> Py.strip t = t.
Proof.
  destruct c as [|s|[|x xs]]; cbn; intros [= <-]; try done. apply strip_idem.
Qed.

Lemma cell_text_raises c e :
  cell_text c = Raised e <-> e = AttributeError /\ exists x xs, c = CList (x :: xs).
Proof.
  destruct c as [|s|[|x xs]]; cbn; split; try done.
  - intros (_ & x & xs & [=]).
  - intros (_ & x & xs & [=]).
  - intros (_ & x & xs & [=]).
  - intros [= <-]. eauto.
  - by intros [-> _].
Qed.

Lemma normalize_into_cons acc h c row :
  normalize_into acc ((h, c) :: row) =
  match cell_text c with
  | Returned t => normalize_into (<[_normalize_header h := t]> acc) row
  | Raised e => Raised e
  end.
Proof. reflexivity. Qed.

Lemma normalize_into_raises acc row e :
  normalize_into acc row = Raised e <-> e = AttributeError /\ overflowing row.
Proof.
  revert acc. induction row as [|[h c] row IH]; intros acc.
  { cbn. split; [done|]. intros [_ (k & x & xs & Hin)]. by apply elem_of_nil in Hin. }
  rewrite normalize_into_cons. destruct (cell_text c) as [t|e'] eqn:Hc.
  - rewrite IH. split; intros [-> (k & x & xs & Hin)]; (split; [done|]).
    + exists k, x, xs. by right.
    + apply elem_of_cons in Hin as [[= ? ?]|Hin]; [subst; by cbn in Hc|].
      by exists k, x, xs.
  - pose proof Hc as [-> (x & xs & Hx)]%cell_text_raises. subst c. split.
    + intros [= <-]. split; [done|]. exists h, x, xs. by left.
    + by intros [-> _].
Qed.

Lemma normalize_into_entries acc row n :
  normalize_into acc row = Returned n ->
  forall k,
    match n !! k with
    | Some v =>
        (exists pre h c post,
            row = pre ++ (h, c) :: post /\ _normalize_header h = k /\
            cell_text c = Returned v /\
            Forall (fun hc => _normalize_header hc.1 <> k) post)
        \/ (acc !! k = Some v /\ Forall (fun hc => _normalize_header hc.1 <> k) row)
    | None =>
        acc !! k = None /\ Forall (fun hc => _normalize_header hc.1 <> k) row
    end.
Proof.
  revert acc. induction row as [|[h c] row IH]; intros acc Hn k.
  { cbn in Hn. simplify_eq. destruct (n !! k); [right|]; done. }
  rewrite normalize_into_cons in Hn.
  destruct (cell_text c) as [t|e] eqn:Hc; [|done].
  specialize (IH _ Hn k). destruct (n !! k) as [v|].
  - destruct IH as [(pre & h' & c' & post & -> & Hk & Hv & Hpost)|[Hacc Hrow]].
    + left. by exists ((h, c) :: pre), h', c', post.
    + destruct (decide (_normalize_header h = k)) as [Heq|Hne].
      * rewrite Heq, lookup_insert_eq in Hacc. simplify_eq.
        left. by exists [], h, c, row.
      * rewrite lookup_insert_ne in Hacc by done. right.
        split; [done|]. by constructor.
  - destruct IH as [Hacc Hrow].
    destruct (decide (_normalize_header h = k)) as [Heq|Hne].
    + by rewrite Heq, lookup_insert_eq in Hacc.
    + rewrite lookup_insert_ne in Hacc by done. split; [done|by constructor].
Qed.

(** X3. In a normalized row a key holds the stripped text of the last
    column whose header normalizes to it (an empty one included), and no
    key is held that no header normalizes to; every key is a normalized
    header and every value is stripped. *)
Theorem normalized_row_entries row n :
  normalize_row row = Returned n ->
  (forall k v,
     n !! k = Some v ->
     (exists pre h c post,
         row = pre ++ (h, c) :: post /\ _normalize_header h = k /\
         cell_text c = Returned v /\
         Forall (fun hc => _normalize_header hc.1 <> k) post) /\
     _normalize_header (Some k) = k /\ Py.strip v = v) /\
  (forall k, n !! k = None -> Forall (fun hc => _normalize_header hc.1 <> k) row).
Proof.
  intros Hn. split.
  - intros k v Hk. pose proof (normalize_into_entries ∅ row n Hn k) as He.
    rewrite Hk in He.
    destruct He as [(pre & h & c & post & -> & Hh & Hc & Hpost)|[He _]];
      [|by rewrite lookup_empty in He].
    split; [by exists pre, h, c, post|]. split.
    + rewrite <- Hh. apply normalize_header_idem.
    + by eapply cell_text_stripped.
  - intros k Hk. pose proof (normalize_into_entries ∅ row n Hn k) as He.
    rewrite Hk in He. apply He.
Qed.

(** X4. A row normalizes unless it is longer than the header; then both
    normalizing it and the scan that meets it raise [AttributeError]:
    the rows after it are not looked at, what the rows before it
    upserted stays, and the run ends without writing a log. *)
Theorem overflow_aborts self rows_before row rows_after w ctx l1 w1 :
  overflowing row ->
  resolve_config self w = (Returned ctx, w) ->
  scan_rows self ctx 2 rows_before init_locals w = (Returned l1, w1) ->
  normalize_row row = Raised AttributeError /\
  import_rows self (rows_before ++ row :: rows_after) w
  = (Raised AttributeError, w1) /\
  import_log w1 = import_log w /\ error_log w1 = error_log w.
Proof.
  intros Hover Hc Hs.
  assert (Hn : normalize_row row = Raised AttributeError).
  { by apply normalize_into_raises. }
  split; [exact Hn|]. split.
  - unfold import_rows. unfold bind at 1. rewrite Hc. unfold bind at 1.
    rewrite scan_rows_app, Hs. cbn [scan_rows]. unfold bind at 1.
    by rewrite process_row_unfold, Hn.
  - pose proof (scan_rows_world self ctx rows_before 2 init_locals w) as [Hups _].
    rewrite Hs in Hups. by destruct Hups as (_ & _ & ? & ? & _).
Qed.

Lemma normalize_row_returns row :
  ~ overflowing row -> exists n, normalize_row row = Returned n.
Proof.
  intros Hno. destruct (normalize_row row) as [n|e] eqn:Hn; [by eexists|].
  apply normalize_into_raises in Hn as [_ Hover]. done.
Qed.

End Normalize.

Lemma normalized_row_entries_witness :
  normalize_row Sample.twice_row = Returned (Demo.normalized Sample.twice_row) /\
  Demo.normalized Sample.twice_row !! "item_code" = Some "" /\
  exists pre h c post,
    Sample.twice_row = pre ++ (h, c) :: post /\
    _normalize_header h = "item_code" /\ cell_text c = Returned "" /\
    Forall (fun hc => _normalize_header hc.1 <> "item_code") post.
Proof.
  assert (Hn : normalize_row Sample.twice_row
               = Returned (Demo.normalized Sample.twice_row)) by reflexivity.
  assert (Hk : Demo.normalized Sample.twice_row !! "item_code" = Some "")
    by reflexivity.
  split; [exact Hn|]. split; [exact Hk|].
  exact (proj1 (proj1 (normalized_row_entries _ _ Hn) "item_code" "" Hk)).
Defined.

Lemma overflow_aborts_witness :
  let self := Demo.the_settings None None Demo.account_a false false true false in
  let w := Demo.the_world (Some "Acme") "" ∅ in
  let scanned := scan_rows self Demo.the_ctx 2 [Demo.widget_row] init_locals w in
  overflowing Sample.long_row /\
  import_rows self ([Demo.widget_row] ++ Sample.long_row :: [Demo.nameless_row]) w
  = (Raised AttributeError, scanned.2) /\
  import_log scanned.2 = import_log w.
Proof.
  intros self w scanned.
  assert (Hover : overflowing Sample.long_row).
  { exists None, "stray", []. right. left. }
  split; [exact Hover|].
  destruct (overflow_aborts self [Demo.widget_row] Sample.long_row
              [Demo.nameless_row] w Demo.the_ctx
              (Demo.value_of init_locals scanned) scanned.2 Hover)
    as (_ & Hrun & Hlog & _); [reflexivity|reflexivity|].
  split; [exact Hrun|exact Hlog].
Defined.

(** ** Items *)

Section Items.
Context `{HH : Host}.

Lemma item_eq (a b : Item) : fields a = fields b -> taxes a = taxes b -> a = b.
Proof. destruct a, b; simpl; by intros -> ->. Qed.

(** X5. Applying the same row to an item a second time changes nothing. *)
Theorem apply_item_fields_idempotent item n name group uom :
  let once := _apply_item_fields item n name group uom in
  _apply_item_fields once n name group uom = once.
Proof.
  intros once. apply item_eq.
  - apply map_eq. intros f. unfold once. rewrite !apply_item_fields_fields.
    destruct (dict_get f _) as [v|]; [|done]. by destruct (assignable v).
  - unfold once. rewrite !apply_item_fields_taxes. cbv zeta.
    by destruct (Py.nonempty _).
Qed.

Lemma first_failure_new c nm g u :
  first_failure false c nm g u = None ->
  Py.nonempty c = true /\ Py.nonempty nm = true /\
  Py.nonempty g = true /\ Py.nonempty u = true.
Proof.
  unfold first_failure.
  destruct (Py.nonempty c), (Py.nonempty nm), (Py.nonempty g), (Py.nonempty u);
    done.
Qed.

Lemma assignable_text s : Py.nonempty s = true -> assignable (VStr s) = true.
Proof. by destruct s. Qed.

(** X6. A row that passes validation for an item the store does not
    know makes a real run insert that item, once: the document is then
    found under the item code, carries the row's item code, name, group
    and UOM, all of them non-empty, and the created counter goes up by
    one. *)
Theorem new_item_is_inserted self ctx idx row l w n :
  dry_run self = false ->
  normalize_row row = Returned n ->
  row_failure w n = None ->
  known w (item_code_of n) = false ->
  exists doc l' w',
    process_row self ctx idx row l w = (Returned l', w') /\
    items w' !! item_code_of n = Some doc /\
    ItemInsert (item_code_of n) doc ∈ journal w' /\
    fields doc !! "item_code" = Some (VStr (item_code_of n)) /\
    fields doc !! "item_name" = Some (VStr (item_name_of n)) /\
    fields doc !! "item_group" = Some (VStr (item_group_of n)) /\
    fields doc !! "stock_uom" = Some (VStr (stock_uom_of n)) /\
    Py.nonempty (item_code_of n) = true /\ Py.nonempty (item_name_of n) = true /\
    Py.nonempty (item_group_of n) = true /\ Py.nonempty (stock_uom_of n) = true /\
    created_items l' = created_items l + 1 /\
    updated_items l' = updated_items l.
Proof.
  intros Hd Hn Hf Hk.
  pose proof Hf as Hf'. unfold row_failure in Hf'. rewrite Hk in Hf'.
  apply first_failure_new in Hf' as (Hc & Hnm & Hg & Hu).
  set (doc := _apply_item_fields
                (item_set "item_code" (VStr (item_code_of n)) new_item_doc)
                n (item_name_of n) (item_group_of n) (stock_uom_of n)).
  set (w1 := record (ItemInsert (item_code_of n) doc)
               (set_items (insert (item_code_of n) doc) w)).
  destruct (price_step_spec self ctx n (count_items 1 0 l) w1)
    as (l2 & w2 & Hrun2 & _ & Hci & Hui & Hups & Hitems & _).
  destruct (counters_stock_step self n idx l2) as (Hci' & Hui' & _).
  exists doc, (stock_step self n idx (item_code_of n) l2), w2.
  split.
  { rewrite process_row_unfold, Hn, Hf, Hk. unfold bind at 1.
    unfold upsert_item. rewrite Hd. cbn [negb]. unfold bind at 1.
    unfold item_insert, modify. fold doc. fold w1. unfold ret at 1.
    unfold bind. by rewrite Hrun2. }
  split.
  { rewrite Hitems. cbn. by rewrite lookup_insert_eq. }
  split.
  { destruct Hups as (_ & _ & _ & _ & (ops & -> & _) & _).
    apply elem_of_app. left. cbn. apply elem_of_app. right. by left. }
  split.
  { unfold doc. rewrite apply_item_fields_fields. cbn [dict_get field_map].
    rewrite !decide_False by done. cbn. by rewrite lookup_insert_eq. }
  split.
  { unfold doc. rewrite apply_item_fields_fields. cbn [dict_get field_map].
    rewrite decide_True by done. by rewrite assignable_text. }
  split.
  { unfold doc. rewrite apply_item_fields_fields. cbn [dict_get field_map].
    rewrite decide_False by done. rewrite decide_True by done.
    by rewrite assignable_text. }
  split.
  { unfold doc. rewrite apply_item_fields_fields. cbn [dict_get field_map].
    rewrite !decide_False by done. rewrite decide_True by done.
    by rewrite assignable_text. }
  split_and!; try done.
  - rewrite Hci', Hci. done.
  - rewrite Hui', Hui. cbn. apply Nat.add_0_r.
Qed.

End Items.

Lemma new_item_is_inserted_witness :
  let self := Demo.the_settings None None Demo.account_a false false true false in
  let w := Demo.the_world (Some "Acme") "" ∅ in
  let n := Demo.normalized Demo.widget_row in
  dry_run self = false /\
  normalize_row Demo.widget_row = Returned n /\
  row_failure w n = None /\
  known w (item_code_of n) = false /\
  exists doc l' w',
    process_row self Demo.the_ctx 2 Demo.widget_row init_locals w = (Returned l', w') /\
    items w' !! "ITM1" = Some doc /\
    fields doc !! "item_name" = Some (VStr "Widget") /\
    created_items l' = 1.
Proof.
  intros self w n.
  assert (Hn : normalize_row Demo.widget_row = Returned n) by reflexivity.
  assert (Hf : row_failure w n = None) by reflexivity.
  assert (Hk : known w (item_code_of n) = false) by reflexivity.
  split; [reflexivity|]. split; [exact Hn|]. split; [exact Hf|]. split; [exact Hk|].
  destruct (new_item_is_inserted self Demo.the_ctx 2 Demo.widget_row init_locals
              w n eq_refl Hn Hf Hk)
    as (doc & l' & w' & Hrun & Hdoc & _ & _ & Hname & _ & _ & _ & _ & _ & _ & Hc & _).
  exists doc, l', w'. split; [exact Hrun|]. split; [exact Hdoc|].
  split; [exact Hname|exact Hc].
Defined.

(** ** Item prices *)

Section Prices.
Context `{HH : Host}.

(** [_upsert_item_price] case by case. *)
Lemma upsert_item_price_cases item_code pl cur rate upd w :
  _upsert_item_price item_code pl cur rate upd w =
  match list_find (fun p => Is_true (price_matches item_code pl cur p)) (prices w) with
  | Some (i, p) =>
      if upd
      then (Returned (0, 1),
            record (PriceSave i rate)
              (set_prices (fun ps => <[i := with_rate rate p]> ps) w))
      else (Returned (0, 0), w)
  | None =>
      let doc := {| ip_item_code := item_code; ip_price_list := pl;
                    ip_currency := cur; ip_rate := rate; ip_selling := true |} in
      (Returned (1, 0),
       record (PriceInsert doc) (set_prices (fun ps => ps ++ [doc]) w))
  end.
Proof.
  unfold _upsert_item_price, bind. rewrite find_price_unfold.
  destruct (list_find _ (prices w)) as [[i p]|] eqn:Hf; cbn [fmap option_fmap option_map fst].
  - destruct upd; [|done].
    apply list_find_Some in Hf as (Hi & _ & _).
    unfold price_save. by rewrite Hi.
  - reflexivity.
Qed.

Lemma price_matches_new item_code pl cur rate :
  price_matches item_code pl cur
    {| ip_item_code := item_code; ip_price_list := pl; ip_currency := cur;
       ip_rate := rate; ip_selling := true |} = true.
Proof. unfold price_matches. cbn. by rewrite !bool_decide_eq_true_2. Qed.

(** X7. [_upsert_item_price] creates a price exactly when no selling
    price is held under the key, and otherwise updates one exactly when
    told to; the number of prices grows by what it reports as created;
    afterwards a price is held under the key, the first such price
    carries the rate when something was created or updated, prices
    under other keys are where they were, and when nothing is reported
    nothing was touched. *)
Theorem upsert_item_price_outcome item_code pl cur rate upd w :
  exists created updated w1,
    _upsert_item_price item_code pl cur rate upd w = (Returned (created, updated), w1) /\
    (created = 1 /\ updated = 0 /\ ~ price_known w item_code pl cur \/
     created = 0 /\ updated = (if upd then 1 else 0) /\
     price_known w item_code pl cur) /\
    length (prices w1) = length (prices w) + created /\
    price_known w1 item_code pl cur /\
    (created + updated = 1 ->
     exists j q,
       list_find (fun p => Is_true (price_matches item_code pl cur p)) (prices w1)
       = Some (j, q) /\ ip_rate q = rate) /\
    (forall j q, prices w !! j = Some q ->
                 price_matches item_code pl cur q = false ->
                 prices w1 !! j = Some q) /\
    (created + updated = 0 -> w1 = w) /\
    items w1 = items w /\ recos w1 = recos w.
Proof.
  rewrite upsert_item_price_cases.
  destruct (list_find _ (prices w)) as [[i p]|] eqn:Hf.
  - pose proof Hf as (Hi & Hm & Hleast)%list_find_Some.
    assert (Hk : price_known w item_code pl cur).
    { apply price_known_find. by rewrite Hf. }
    destruct upd.
    + eexists 0, 1, _. split; [reflexivity|].
      split; [by right|]. split; [cbn; by rewrite length_insert, Nat.add_0_r|].
      assert (Hfind : list_find (fun p => Is_true (price_matches item_code pl cur p))
                        (<[i := with_rate rate p]> (prices w))
                      = Some (i, with_rate rate p)).
      { apply list_find_Some. split; [|split].
        - apply list_lookup_insert_eq. by eapply lookup_lt_Some.
        - by rewrite price_matches_with_rate.
        - intros j y Hj Hlt. rewrite list_lookup_insert_ne in Hj by lia.
          by eapply Hleast. }
      split; [apply price_known_find; cbn; by rewrite Hfind|].
      split; [intros _; by exists i, (with_rate rate p)|].
      split.
      { intros j q Hj Hq. cbn. rewrite list_lookup_insert_ne; [done|].
        intros ->. rewrite Hi in Hj. simplify_eq. by rewrite Hq in Hm. }
      split; [done|]. done.
    + exists 0, 0, w. split; [reflexivity|].
      split; [by right|]. split; [by rewrite Nat.add_0_r|].
      split; [done|]. split; [done|]. split; [done|]. done.
  - assert (Hk : ~ price_known w item_code pl cur).
    { intros Hk%price_known_find. rewrite Hf in Hk. by destruct Hk. }
    eexists 1, 0, _. split; [reflexivity|].
    split; [by left|]. split; [cbn; by rewrite length_app|].
    assert (Hfind : list_find (fun p => Is_true (price_matches item_code pl cur p))
                      (prices w ++
                       [{| ip_item_code := item_code; ip_price_list := pl;
                           ip_currency := cur; ip_rate := rate; ip_selling := true |}])
                    = Some (length (prices w),
                            {| ip_item_code := item_code; ip_price_list := pl;
                               ip_currency := cur; ip_rate := rate;
                               ip_selling := true |})).
    { rewrite (list_find_app_r _ _ _ Hf). cbn.
      rewrite decide_True by (by rewrite price_matches_new). done. }
    split; [apply price_known_find; cbn; by rewrite Hfind|].
    split; [intros _; eexists _, _; split; [exact Hfind|done]|].
    split; [intros j q Hj _; cbn; by apply lookup_app_l_Some|].
    split; [done|]. done.
Qed.

(** X8. Upserting the same price a second time never creates one and
    leaves the prices as the first upsert left them. *)
Theorem upsert_item_price_twice item_code pl cur rate upd w :
  let first := _upsert_item_price item_code pl cur rate upd w in
  let second := _upsert_item_price item_code pl cur rate upd first.2 in
  exists updated,
    second.1 = Returned (0, updated) /\ prices second.2 = prices first.2.
Proof.
  cbv zeta. rewrite (upsert_item_price_cases _ _ _ _ _ w).
  destruct (list_find _ (prices w)) as [[i p]|] eqn:Hf.
  - pose proof Hf as (Hi & Hm & Hleast)%list_find_Some.
    destruct upd; cbn [snd].
    + rewrite upsert_item_price_cases. cbn [prices record set_prices].
      assert (Hfind : list_find (fun p => Is_true (price_matches item_code pl cur p))
                        (<[i := with_rate rate p]> (prices w))
                      = Some (i, with_rate rate p)).
      { apply list_find_Some. split; [|split].
        - apply list_lookup_insert_eq. by eapply lookup_lt_Some.
        - by rewrite price_matches_with_rate.
        - intros j y Hj Hlt. rewrite list_lookup_insert_ne in Hj by lia.
          by eapply Hleast. }
      rewrite Hfind. exists 1. split; [done|]. cbn.
      by rewrite list_insert_insert_eq.
    + rewrite upsert_item_price_cases, Hf. by exists 0.
  - cbn [snd]. rewrite upsert_item_price_cases. cbn [prices record set_prices].
    set (doc := {| ip_item_code := item_code; ip_price_list := pl;
                   ip_currency := cur; ip_rate := rate; ip_selling := true |}).
    assert (Hfind : list_find (fun p => Is_true (price_matches item_code pl cur p))
                      (prices w ++ [doc]) = Some (length (prices w), doc)).
    { rewrite (list_find_app_r _ _ _ Hf). cbn.
      rewrite decide_True by (unfold doc; by rewrite price_matches_new). done. }
    rewrite Hfind. destruct upd.
    + exists 1. split; [done|]. cbn.
      apply list_insert_id. rewrite lookup_app_r by done.
      by rewrite Nat.sub_diag.
    + by exists 0.
Qed.

End Prices.

(** ** The log, the preamble and the empty file *)

Section Edges.
Context `{HH : Host}.

Lemma log_message_notes_nonempty errs note notes summary :
  Py.nonempty (log_message errs (note :: notes) summary) = true.
Proof.
  destruct summary as [s|]; [apply log_message_summary_nonempty|].
  unfold log_message, log_output.
  by apply (strip_join_starts Py.newline "N" "otes").
Qed.

Lemma log_message_nothing : log_message [] [] None = "".
Proof. reflexivity. Qed.

(** X9. [_write_log] touches nothing but the two logs. It stores the
    message whenever there is an error, a note or a summary to report,
    and leaves the previous log in place when there is none; what it
    stores is never empty and has no white space around it; the error
    log receives the message exactly when asked to, an empty one
    included. *)
Theorem write_log_effect errs notes summary is_error w :
  let msg := log_message errs notes summary in
  exists w',
    _write_log errs notes summary is_error w = (Returned tt, w') /\
    logs_only w w' /\
    (errs = [] /\ notes = [] /\ summary = None ->
     msg = "" /\ import_log w' = import_log w) /\
    (errs <> [] \/ notes <> [] \/ summary <> None ->
     import_log w' = Some msg /\ Py.nonempty msg = true) /\
    Py.strip msg = msg /\
    error_log w' =
    error_log w ++ (if is_error then [(msg, "Bulk Item Import")] else []).
Proof.
  intros msg.
  assert (Hsome : errs <> [] \/ notes <> [] \/ summary <> None ->
                  Py.nonempty msg = true).
  { intros [He|[Hn|Hs]].
    - destruct errs as [|e errs]; [done|].
      destruct summary; [apply log_message_summary_nonempty|].
      apply log_message_errors_nonempty.
    - destruct notes as [|note notes]; [done|]. apply log_message_notes_nonempty.
    - destruct summary; [apply log_message_summary_nonempty|done]. }
  unfold _write_log. fold msg. unfold bind, modify, ret.
  destruct (Py.nonempty msg) eqn:Hm; destruct is_error;
    (eexists; split; [reflexivity|]); (split; [done|]).
  1,2: split;
    [intros (-> & -> & ->); unfold msg in Hm; by rewrite log_message_nothing in Hm|].
  3,4: split; [intros _; split; [by destruct msg|done]|].
  1,2: split; [done|].
  3,4: split; [intros Hany; by specialize (Hsome Hany)|].
  all: split; [apply strip_idem|].
  all: cbn; by rewrite ?app_nil_r.
Qed.

(** X10. Before anything is resolved or read from the rows,
    [import_csv] fails, in this order of precedence and with the world
    untouched: without write permission; without an attached file; when
    the attached file is not found; when the csv reader refuses. *)
Theorem import_csv_preamble self w :
  (may_write (env w) = false ->
   import_csv self w = (Raised PermissionError, w)) /\
  (may_write (env w) = true -> Py.truthy (csv_file self) = false ->
   import_csv self w
   = (Raised (ValidationError "Please attach a CSV file before importing."), w)) /\
  (may_write (env w) = true -> Py.truthy (csv_file self) = true ->
   files (env w) !! Py.render (csv_file self) = None ->
   import_csv self w = (Raised DoesNotExistError, w)) /\
  (forall content e,
     may_write (env w) = true -> Py.truthy (csv_file self) = true ->
     files (env w) !! Py.render (csv_file self) = Some content ->
     csv_DictReader content (effective_delimiter self) = Raised e ->
     import_csv self w = (Raised e, w)).
Proof.
  unfold import_csv, bind, reads, ret, raise, throw.
  split; [by intros ->|]. split; [by intros -> ->|].
  split.
  - intros Hp Hf Hc. rewrite Hp, Hf. simpl. by rewrite Hc.
  - intros content e Hp Hf Hc He. rewrite Hp, Hf. simpl. by rewrite Hc, He.
Qed.

(** X11. A file without data rows, once configuration is resolved,
    makes the run return an all-zero summary; nothing is issued against
    the store, and the log holds that summary. *)
Theorem import_rows_no_rows self w :
  import_rows self [] w =
  match resolve_config self w with
  | (Returned _, _) =>
      (Returned zero_summary,
       set_import_log (log_message [] [] (Some zero_summary)) w)
  | (Raised e, _) => (Raised e, w)
  end.
Proof.
  unfold import_rows. unfold bind at 1.
  pose proof (resolve_config_world self w) as Hw.
  destruct (resolve_config self w) as [[ctx|e] w0]; cbn [snd] in Hw; subst w0;
    [|done].
  unfold bind at 1. cbn [scan_rows]. unfold ret at 1.
  rewrite (finish_clean self ctx init_locals w eq_refl).
  by destruct (negb (skip_stock_reconciliation self) && negb (dry_run self)).
Qed.

End Edges.

(** ** What the summary counts *)

Section Counts.
Context `{HH : Host}.

Lemma count_ops_app p a b : count_ops p (a ++ b) = count_ops p a + count_ops p b.
Proof. unfold count_ops. by rewrite List.filter_app, length_app. Qed.

Lemma tallied_refl l w : tallied l w l w.
Proof. exists []. rewrite app_nil_r. cbn. split_and!; by rewrite ?Nat.add_0_r. Qed.

Lemma tallied_trans l1 w1 l2 w2 l3 w3 :
  tallied l1 w1 l2 w2 -> tallied l2 w2 l3 w3 -> tallied l1 w1 l3 w3.
Proof.
  intros (o1 & Hj1 & Hu1 & ? & ? & ? & ?) (o2 & Hj2 & Hu2 & ? & ? & ? & ?).
  exists (o1 ++ o2). rewrite !count_ops_app, forallb_app, Hu1, Hu2.
  split; [by rewrite Hj2, Hj1, app_assoc|]. split; [done|]. lia.
Qed.

Lemma upsert_item_cases self n item_code name group uom l w :
  upsert_item self n item_code name group uom (known w item_code) l w =
  if dry_run self then (Returned l, w)
  else match items w !! item_code with
       | Some item =>
           if update_existing self
           then let doc := _apply_item_fields item n name group uom in
                (Returned (count_items 0 1 l),
                 record (ItemSave item_code doc) (set_items (insert item_code doc) w))
           else (Returned l, w)
       | None =>
           let doc := _apply_item_fields
                        (item_set "item_code" (VStr item_code) new_item_doc)
                        n name group uom in
           (Returned (count_items 1 0 l),
            record (ItemInsert item_code doc) (set_items (insert item_code doc) w))
       end.
Proof.
  unfold upsert_item, known. destruct (dry_run self); cbn [negb]; [done|].
  destruct (items w !! item_code) as [item|] eqn:Hi.
  - rewrite bool_decide_eq_true_2 by done. unfold bind, get_item. rewrite Hi.
    by destruct (update_existing self).
  - rewrite bool_decide_eq_false_2 by (by intros [? ?]). done.
Qed.

Lemma upsert_item_tally self n item_code name group uom l w :
  exists l1 w1,
    upsert_item self n item_code name group uom (known w item_code) l w
    = (Returned l1, w1) /\
    tallied l w l1 w1 /\
    errors l1 = errors l /\ stock_map l1 = stock_map l /\
    created_prices l1 = created_prices l /\ updated_prices l1 = updated_prices l /\
    created_items l1 + updated_items l1 <= created_items l + updated_items l + 1.
Proof.
  rewrite upsert_item_cases.
  assert (Hnop : tallied l w l w /\ errors l = errors l /\
                 stock_map l = stock_map l /\
                 created_prices l = created_prices l /\
                 updated_prices l = updated_prices l /\
                 created_items l + updated_items l
                 <= created_items l + updated_items l + 1).
  { split; [apply tallied_refl|]. split_and!; try done; lia. }
  destruct (dry_run self); [by exists l, w|].
  destruct (items w !! item_code) as [item|].
  - destruct (update_existing self); [|by exists l, w].
    eexists _, _. split; [reflexivity|]. split.
    + eexists [_]. cbn. split_and!; try done; lia.
    + cbn. split_and!; try done; lia.
  - eexists _, _. split; [reflexivity|]. split.
    + eexists [_]. cbn. split_and!; try done; lia.
    + cbn. split_and!; try done; lia.
Qed.

Lemma price_step_tally self ctx n l w :
  exists l2 w2,
    price_step self ctx n (item_code_of n) l w = (Returned l2, w2) /\
    tallied l w l2 w2 /\
    errors l2 = errors l /\ stock_map l2 = stock_map l /\
    created_items l2 = created_items l /\ updated_items l2 = updated_items l /\
    created_prices l2 + updated_prices l2 <= created_prices l + updated_prices l + 1.
Proof.
  assert (Hnop : exists l2 w2,
            (Returned l, w) = (Returned l2, w2) /\ tallied l w l2 w2 /\
            errors l2 = errors l /\ stock_map l2 = stock_map l /\
            created_items l2 = created_items l /\
            updated_items l2 = updated_items l /\
            created_prices l2 + updated_prices l2
            <= created_prices l + updated_prices l + 1).
  { exists l, w. split; [done|]. split; [apply tallied_refl|].
    split_and!; try done; lia. }
  unfold price_step.
  destruct (skip_item_price self); cbn [negb]; [exact Hnop|].
  destruct (Py.truthy _ && Py.nonempty _); [|exact Hnop].
  destruct (dry_run self); cbn [negb]; [exact Hnop|].
  unfold bind. rewrite upsert_item_price_cases.
  destruct (list_find _ (prices w)) as [[i p]|].
  - destruct (update_existing self).
    + eexists _, _. split; [reflexivity|]. split.
      * eexists [_]. cbn. split_and!; try done; lia.
      * cbn. split_and!; try done; lia.
    + eexists _, _. split; [reflexivity|]. split.
      * exists []. rewrite app_nil_r. cbn. split_and!; try done; lia.
      * cbn. split_and!; try done; lia.
  - eexists _, _. split; [reflexivity|]. split.
    + eexists [_]. cbn. split_and!; try done; lia.
    + cbn. split_and!; try done; lia.
Qed.

Lemma dict_set_length {V} (k : string) (v : V) d :
  length (dict_set k v d) <= S (length d).
Proof.
  induction d as [|[k' v'] d IH]; cbn; [lia|].
  destruct (decide (k = k')); cbn; lia.
Qed.

Lemma stock_step_tally self n idx l :
  let l' := stock_step self n idx (item_code_of n) l in
  errors l' = errors l /\
  created_items l' = created_items l /\ updated_items l' = updated_items l /\
  created_prices l' = created_prices l /\ updated_prices l' = updated_prices l /\
  length (stock_map l') <= S (length (stock_map l)).
Proof.
  cbv zeta. rewrite stock_step_unfold.
  destruct (skip_stock_reconciliation self); [split_and!; try done; lia|].
  destruct (row_contribution self n) as [[[c wh] p]|]; [|split_and!; try done; lia].
  destruct (bool_decide _); [split_and!; try done; cbn; lia|].
  split_and!; try done. cbn [put_stock stock_map]. apply dict_set_length.
Qed.

(** One row: either an error and nothing else, or upserts that the
    counters account for. *)
Lemma process_row_tally self ctx idx row l w l' w' :
  process_row self ctx idx row l w = (Returned l', w') ->
  tallied l w l' w' /\ bounded l l' 1.
Proof.
  intros Hrow. rewrite process_row_unfold in Hrow.
  destruct (normalize_row row) as [n|e]; [|done].
  destruct (row_failure w n) as [f|].
  { simplify_eq. split.
    - exists []. rewrite app_nil_r. cbn. split_and!; try done; lia.
    - unfold bounded. cbn. rewrite length_app. cbn. lia. }
  destruct (upsert_item_tally self n (item_code_of n) (item_name_of n)
              (item_group_of n) (stock_uom_of n) l w)
    as (l1 & w1 & Hrun1 & Ht1 & He1 & Hm1 & Hcp1 & Hup1 & Hb1).
  destruct (price_step_tally self ctx n l1 w1)
    as (l2 & w2 & Hrun2 & Ht2 & He2 & Hm2 & Hci2 & Hui2 & Hb2).
  unfold bind at 1 in Hrow. rewrite Hrun1 in Hrow.
  unfold bind in Hrow. rewrite Hrun2 in Hrow. unfold ret in Hrow. simplify_eq.
  destruct (stock_step_tally self n idx l2) as (He3 & Hci & Hui & Hcp & Hup & Hlen).
  pose proof (tallied_trans _ _ _ _ _ _ Ht1 Ht2) as (ops & Hj & Hu & ? & ? & ? & ?).
  split.
  - exists ops. split_and!; try done; congruence.
  - unfold bounded. rewrite He3, He2, He1, Hci, Hui, Hcp, Hup.
    rewrite Hm2, Hm1 in Hlen. lia.
Qed.

Lemma scan_rows_tally self ctx rows idx l w l' w' :
  scan_rows self ctx idx rows l w = (Returned l', w') ->
  tallied l w l' w' /\ bounded l l' (length rows).
Proof.
  revert idx l w. induction rows as [|row rows IH]; intros idx l w Hscan.
  { cbn in Hscan. unfold ret in Hscan. simplify_eq.
    split; [apply tallied_refl|]. unfold bounded. lia. }
  cbn [scan_rows] in Hscan. unfold bind in Hscan.
  destruct (process_row self ctx idx row l w) as [[l1|e] w1] eqn:Hrow; [|done].
  destruct (process_row_tally _ _ _ _ _ _ _ _ Hrow) as [Ht1 Hb1].
  destruct (IH _ _ _ Hscan) as [Ht2 Hb2].
  split; [by eapply tallied_trans|].
  unfold bounded in *. cbn [length]. lia.
Qed.

End Counts.

(** ** The stock reconciliation stage *)

Section Reconcile.
Context `{HH : Host}.

(** One pass of the loop over a warehouse that has contributions. *)
Lemma submit_recos_cons self ctx wh it its groups k w :
  let doc := reco_of self ctx w (wh, it :: its) in
  submit_recos self ctx ((wh, it :: its) :: groups) k w =
  match reco_insert_error w doc with
  | Some msg => (Raised (ValidationError (translated self msg)), w)
  | None =>
      match reco_submit_error (inserted doc w) doc with
      | Some msg => (Raised (ValidationError (translated self msg)), inserted doc w)
      | None => submit_recos self ctx groups (S k) (submitted doc w)
      end
  end.
Proof.
  cbv zeta. cbn [submit_recos].
  unfold bind at 1. unfold reads at 1. unfold bind at 1. unfold reads at 1.
  unfold reco_of. cbn [fst snd].
  set (doc := build_reco self ctx wh (it :: its) _ _).
  unfold bind at 1. unfold try_validation.
  unfold bind at 1. unfold reco_insert.
  destruct (reco_insert_error w doc) as [msg|].
  { unfold translated. by destruct (_ || _). }
  unfold bind at 1. unfold reco_submit. fold (inserted doc w).
  destruct (reco_submit_error (inserted doc w) doc) as [msg|].
  { unfold translated. by destruct (_ || _). }
  reflexivity.
Qed.

Lemma submit_recos_skip self ctx wh groups k w :
  submit_recos self ctx ((wh, []) :: groups) k w = submit_recos self ctx groups k w.
Proof. reflexivity. Qed.

Lemma insert_at_end {A} (l : list A) (x y : A) :
  <[length l := y]> (l ++ [x]) = l ++ [y].
Proof. rewrite insert_app_r_alt by lia. by rewrite Nat.sub_diag. Qed.

Lemma submitted_recos doc w : recos (submitted doc w) = recos w ++ [(doc, true)].
Proof. cbn. apply insert_at_end. Qed.

(** X12. A stock reconciliation that the store refuses, at insert or at
    submit, ends the loop at once with a validation error: the store's
    message as it is, or wrapped in the "Invalid Difference Account"
    message when it mentions "Difference Account" or "Asset". Refused at
    submit, the document stays inserted and unsubmitted; the warehouses
    after it are not reconciled. *)
Theorem refused_reconciliation self ctx wh it its groups k w msg :
  let doc := reco_of self ctx w (wh, it :: its) in
  (reco_insert_error w doc = Some msg ->
   submit_recos self ctx ((wh, it :: its) :: groups) k w
   = (Raised (ValidationError (translated self msg)), w)) /\
  (reco_insert_error w doc = None ->
   reco_submit_error (inserted doc w) doc = Some msg ->
   submit_recos self ctx ((wh, it :: its) :: groups) k w
   = (Raised (ValidationError (translated self msg)), inserted doc w) /\
   recos (inserted doc w) = recos w ++ [(doc, false)]) /\
  (Py.contains "Difference Account" msg = false ->
   Py.contains "Asset" msg = false -> translated self msg = msg) /\
  (Py.contains "Difference Account" msg = true \/ Py.contains "Asset" msg = true ->
   translated self msg
   = msg_invalid_difference_account (difference_account self) msg).
Proof.
  intros doc. split; [|split; [|split]].
  - intros Hi. rewrite submit_recos_cons. fold doc. by rewrite Hi.
  - intros Hi Hs. rewrite submit_recos_cons. fold doc. by rewrite Hi, Hs.
  - unfold translated. by intros -> ->.
  - unfold translated. intros [->| ->]; [done|]. by rewrite orb_true_r.
Qed.

Lemma reco_of_env self ctx w w' g :
  env w' = env w -> reco_of self ctx w' g = reco_of self ctx w g.
Proof. unfold reco_of. by intros ->. Qed.

(** The loop when the store accepts every reconciliation. *)
Lemma submit_recos_accepted self ctx w0 groups k w :
  env w = env w0 ->
  accepts self ctx w0 groups ->
  exists w',
    submit_recos self ctx groups k w = (Returned (k + length (filled groups)), w') /\
    recos w' = recos w ++ map (fun g => (reco_of self ctx w0 g, true)) (filled groups) /\
    env w' = env w /\ items w' = items w /\ prices w' = prices w /\
    import_log w' = import_log w /\ error_log w' = error_log w.
Proof.
  revert k w. induction groups as [|[wh its] groups IH]; intros k w Henv Hacc.
  { exists w. cbn. unfold ret. rewrite Nat.add_0_r, app_nil_r. done. }
  assert (Hacc' : accepts self ctx w0 groups).
  { intros w' g Hg. apply Hacc. by right. }
  destruct its as [|it its].
  { rewrite submit_recos_skip. cbn [filled List.filter snd]. by apply IH. }
  rewrite submit_recos_cons. cbv zeta.
  rewrite (reco_of_env self ctx w0 w _ Henv).
  set (doc := reco_of self ctx w0 (wh, it :: its)).
  destruct (Hacc w (wh, it :: its)) as [Hi _]; [by left|]. fold doc in Hi.
  destruct (Hacc (inserted doc w) (wh, it :: its)) as [_ Hs]; [by left|].
  fold doc in Hs. rewrite Hi, Hs.
  destruct (IH (S k) (submitted doc w)) as (w' & Hrun & Hrecos & He & Hit & Hpr & Hl & Hel);
    [done|done|].
  exists w'. cbn [filled List.filter snd length map]. fold (filled groups).
  rewrite Hrun, Hrecos, submitted_recos, <- app_assoc.
  split; [f_equal; f_equal; lia|]. by split_and!.
Qed.

Lemma lines_of_group self ctx w (g : string * list (string * Payload)) :
  sr_items (reco_of self ctx w g) = map line_of (map (fun e => (e.1, g.1, e.2)) g.2).
Proof. unfold reco_of, build_reco. cbn. by rewrite map_map. Qed.

Lemma lines_of_groups self ctx w groups :
  concat (map (fun g => sr_items (reco_of self ctx w g)) groups)
  = map line_of (contributions groups).
Proof.
  induction groups as [|g groups IH]; [done|].
  rewrite contributions_cons, map_app. cbn [map concat].
  by rewrite IH, lines_of_group.
Qed.

Lemma dict_set_keys_NoDup {V} (k : string) (v : V) d :
  NoDup d.*1 -> NoDup (dict_set k v d).*1.
Proof.
  induction d as [|[k' v'] d IH]; cbn; [intros _; by apply NoDup_singleton|].
  intros [Hk Hd]%NoDup_cons. destruct (decide (k = k')) as [->|Hne]; cbn.
  - by apply NoDup_cons.
  - apply NoDup_cons. split; [|auto].
    intros Hin. apply Hk. clear -Hin Hne.
    induction d as [|[k1 v1] d IH]; cbn in *.
    + apply list_elem_of_singleton in Hin. done.
    + destruct (decide (k = k1)); cbn in *.
      * apply elem_of_cons in Hin as [->|Hin]; [done|]. by right.
      * apply elem_of_cons in Hin as [->|Hin]; [by left|]. right. auto.
Qed.

Lemma dict_set_Forall {V} (P : string * V -> Prop) k v d :
  Forall P d -> P (k, v) -> Forall P (dict_set k v d).
Proof.
  induction 1 as [|[k' v'] d Hx Hd IH]; intros Hkv; cbn; [by constructor|].
  destruct (decide (k = k')); constructor; auto.
Qed.

Lemma dict_set_nonempty {V} k (v : V) d : dict_set k v d <> [].
Proof. destruct d as [|[k' v'] d]; cbn; [done|]. by destruct (decide (k = k')). Qed.

Lemma stock_step_groups_wf self n idx l :
  groups_wf (stock_map l) ->
  groups_wf (stock_map (stock_step self n idx (item_code_of n) l)).
Proof.
  intros [Hnd Hne]. rewrite stock_step_unfold.
  destruct (skip_stock_reconciliation self); [done|].
  destruct (row_contribution self n) as [[[c wh] p]|]; [|done].
  destruct (bool_decide _); [done|].
  cbn [put_stock stock_map]. split.
  - by apply dict_set_keys_NoDup.
  - apply dict_set_Forall; [done|]. cbn. apply dict_set_nonempty.
Qed.

Lemma scan_rows_groups_wf self ctx rows idx l w l' w' :
  scan_rows self ctx idx rows l w = (Returned l', w') ->
  groups_wf (stock_map l) -> groups_wf (stock_map l').
Proof.
  revert idx l w. induction rows as [|row rows IH]; intros idx l w Hscan Hwf.
  { cbn in Hscan. unfold ret in Hscan. by simplify_eq. }
  cbn [scan_rows] in Hscan. unfold bind in Hscan.
  destruct (process_row self ctx idx row l w) as [[l1|e] w1] eqn:Hrow; [|done].
  eapply IH; [exact Hscan|].
  destruct (normalize_row row) as [n|e] eqn:Hn.
  2:{ rewrite process_row_unfold, Hn in Hrow. discriminate. }
  destruct (row_failure w n) as [f|] eqn:Hf.
  { rewrite process_row_unfold, Hn, Hf in Hrow. by simplify_eq. }
  destruct (process_row_valid self ctx idx row l w n Hn Hf)
    as (l2 & w2 & Hrow' & (_ & _ & Hmap & _) & _).
  rewrite Hrow' in Hrow. simplify_eq.
  apply stock_step_groups_wf. by rewrite Hmap.
Qed.

Lemma filled_all groups : Forall (fun g => g.2 <> []) groups -> filled groups = groups.
Proof.
  induction 1 as [|[wh its] groups Hne _ IH]; [done|].
  cbn [filled List.filter]. destruct its; [done|]. cbn. f_equal. exact IH.
Qed.

(** X13. A real run whose scan found no error and whose stock
    reconciliations the store accepts returns after submitting one
    reconciliation per warehouse that received a contribution, in the
    order of the stock map; no warehouse comes twice, none is empty, and
    every recorded contribution is one line of its warehouse's
    reconciliation, no (item, warehouse) pair twice. *)
Theorem one_reconciliation_per_warehouse self ctx rows w l w1 :
  scan_rows self ctx 2 rows init_locals w = (Returned l, w1) ->
  errors l = [] ->
  skip_stock_reconciliation self = false ->
  dry_run self = false ->
  accepts self ctx w1 (stock_map l) ->
  exists w2,
    finish self ctx l w1 = (Returned (summary_of l (length (stock_map l))), w2) /\
    recos w2
    = recos w1 ++ map (fun g => (reco_of self ctx w1 g, true)) (stock_map l) /\
    NoDup (stock_map l).*1 /\
    Forall (fun g => g.2 <> []) (stock_map l) /\
    concat (map (fun g => sr_items (reco_of self ctx w1 g)) (stock_map l))
    = map line_of (contributions (stock_map l)) /\
    NoDup (map fst (contributions (stock_map l))).
Proof.
  intros Hscan Herr Hskip Hdry Hacc.
  assert (Hwf : groups_wf (stock_map l)).
  { eapply scan_rows_groups_wf; [exact Hscan|]. split; [constructor|constructor]. }
  destruct Hwf as [Hnd Hne].
  destruct (scan_rows_stock _ _ _ _ _ _ _ _ Hscan stock_inv_init) as ([Hkeys _] & _).
  destruct (submit_recos_accepted self ctx w1 (stock_map l) 0 w1 eq_refl Hacc)
    as (w' & Hrun & Hrecos & _).
  rewrite (filled_all _ Hne) in Hrun, Hrecos. cbn [Nat.add] in Hrun.
  eexists. split.
  { rewrite (finish_clean self ctx l w1 Herr), Hskip, Hdry. cbn [negb andb].
    rewrite Hrun. reflexivity. }
  split; [exact Hrecos|]. split; [exact Hnd|]. split; [exact Hne|].
  split; [apply lines_of_groups|exact Hkeys].
Qed.

End Reconcile.

(** ** The summary *)

Section Totals.
Context `{HH : Host}.

Lemma count_ops_upserts p ops :
  (forall o, is_upsert o = true -> p o = false) ->
  forallb is_upsert ops = true -> count_ops p ops = 0.
Proof.
  intros Hp. induction ops as [|o ops IH]; [done|].
  cbn [forallb]. intros [Ho Hops]%andb_prop.
  unfold count_ops in *. cbn [List.filter]. rewrite (Hp o Ho). auto.
Qed.

Lemma count_ops_recos p ops :
  (forall o, is_upsert o = false -> p o = false) ->
  forallb (fun o => negb (is_upsert o)) ops = true -> count_ops p ops = 0.
Proof.
  intros Hp. induction ops as [|o ops IH]; [done|].
  cbn [forallb]. intros [Ho%negb_true_iff Hops]%andb_prop.
  unfold count_ops in *. cbn [List.filter]. rewrite (Hp o Ho). auto.
Qed.

(** The loop over the warehouses, when it returns: one insert and one
    submit per reconciliation counted. *)
Lemma submit_recos_tally self ctx groups k w k' w' :
  submit_recos self ctx groups k w = (Returned k', w') ->
  exists ops,
    journal w' = journal w ++ ops /\
    forallb (fun o => negb (is_upsert o)) ops = true /\
    k' = k + count_ops is_reco_submit ops /\
    count_ops is_reco_insert ops = count_ops is_reco_submit ops /\
    k' <= k + length groups.
Proof.
  revert k w. induction groups as [|[wh its] groups IH]; intros k w Hrun.
  { cbn in Hrun. unfold ret in Hrun. simplify_eq.
    exists []. rewrite app_nil_r. cbn. split_and!; try done; lia. }
  destruct its as [|it its].
  { rewrite submit_recos_skip in Hrun.
    destruct (IH _ _ Hrun) as (ops & Hj & Hu & Hk & Hc & Hle).
    exists ops. split_and!; try done. cbn [length]. lia. }
  rewrite submit_recos_cons in Hrun. cbv zeta in Hrun.
  set (doc := reco_of self ctx w (wh, it :: its)) in Hrun.
  destruct (reco_insert_error w doc); [done|].
  destruct (reco_submit_error (inserted doc w) doc); [done|].
  destruct (IH _ _ Hrun) as (ops & Hj & Hu & Hk & Hc & Hle).
  exists ([RecoInsert doc; RecoSubmit doc] ++ ops).
  rewrite !count_ops_app. split.
  { rewrite Hj. cbn [journal submitted inserted record set_recos].
    by rewrite <- !app_assoc. }
  split; [by rewrite forallb_app, Hu|].
  cbn [length]. unfold count_ops at 1 3 5. cbn. lia.
Qed.

(** A run that returns: the configuration was resolved, the scan found
    no error, and the stock reconciliation stage returned. *)
Lemma import_rows_returns self rows w s w' :
  import_rows self rows w = (Returned s, w') ->
  exists ctx l w1 k w2,
    scan_rows self ctx 2 rows init_locals w = (Returned l, w1) /\
    errors l = [] /\
    (if negb (skip_stock_reconciliation self) && negb (dry_run self)
     then submit_recos self ctx (stock_map l) 0 else ret 0) w1 = (Returned k, w2) /\
    s = summary_of l k /\
    w' = set_import_log (log_message [] (log_lines l) (Some s)) w2.
Proof.
  unfold import_rows. unfold bind at 1.
  pose proof (resolve_config_world self w) as Hw.
  destruct (resolve_config self w) as [[ctx|e] w0]; [|done].
  cbn [snd] in Hw. subst w0. unfold bind at 1.
  destruct (scan_rows self ctx 2 rows init_locals w) as [[l|e] w1] eqn:Hscan; [|done].
  destruct (errors l) as [|e errs] eqn:He.
  2:{ by rewrite (finish_errors self ctx l w1 e errs He). }
  rewrite (finish_clean self ctx l w1 He).
  destruct ((if negb (skip_stock_reconciliation self) && negb (dry_run self)
             then submit_recos self ctx (stock_map l) 0 else ret 0) w1)
    as [[k|e] w2] eqn:Hrec; [|done].
  intros [= <- <-]. by exists ctx, l, w1, k, w2.
Qed.

(** X14. The summary a run returns counts the calls the run issued
    against the store: created and updated items are the item inserts
    and item saves, created and updated prices the price inserts and
    price saves, and the stock reconciliations the submits, each of them
    with its insert. *)
Theorem summary_counts_store_calls self rows w s w' :
  import_rows self rows w = (Returned s, w') ->
  exists ops,
    journal w' = journal w ++ ops /\
    sum_created_items s = count_ops is_item_insert ops /\
    sum_updated_items s = count_ops is_item_save ops /\
    sum_created_prices s = count_ops is_price_insert ops /\
    sum_updated_prices s = count_ops is_price_save ops /\
    sum_stock_reconciliations s = count_ops is_reco_submit ops /\
    count_ops is_reco_insert ops = count_ops is_reco_submit ops.
Proof.
  intros Hrun.
  destruct (import_rows_returns _ _ _ _ _ Hrun)
    as (ctx & l & w1 & k & w2 & Hscan & _ & Hrec & -> & ->).
  destruct (scan_rows_tally _ _ _ _ _ _ _ _ Hscan)
    as [(ops1 & Hj1 & Hu1 & Hci & Hui & Hcp & Hup) _].
  cbn [init_locals created_items updated_items created_prices updated_prices
       Nat.add] in Hci, Hui, Hcp, Hup.
  assert (exists ops2,
            journal w2 = journal w1 ++ ops2 /\
            forallb (fun o => negb (is_upsert o)) ops2 = true /\
            k = count_ops is_reco_submit ops2 /\
            count_ops is_reco_insert ops2 = count_ops is_reco_submit ops2)
    as (ops2 & Hj2 & Hu2 & Hk & Hc).
  { destruct (negb (skip_stock_reconciliation self) && negb (dry_run self)).
    - destruct (submit_recos_tally _ _ _ _ _ _ _ Hrec) as (ops & ? & ? & ? & ? & _).
      by exists ops.
    - unfold ret in Hrec. simplify_eq. exists []. by rewrite app_nil_r. }
  exists (ops1 ++ ops2). rewrite !count_ops_app.
  rewrite (count_ops_recos is_item_insert ops2), (count_ops_recos is_item_save ops2),
    (count_ops_recos is_price_insert ops2), (count_ops_recos is_price_save ops2),
    (count_ops_upserts is_reco_submit ops1), (count_ops_upserts is_reco_insert ops1);
    try done; try (by intros []).
  cbn [journal set_import_log summary_of sum_created_items sum_updated_items
       sum_created_prices sum_updated_prices sum_stock_reconciliations].
  rewrite Hj2, Hj1, <- app_assoc, !Nat.add_0_r.
  split_and!; try done.
Qed.

(** X15. No row is counted twice: in the summary of a run that returns,
    created and updated items together are at most the rows of the file,
    and so are created and updated prices, and so are the stock
    reconciliations. *)
Theorem summary_bounded_by_rows self rows w s w' :
  import_rows self rows w = (Returned s, w') ->
  sum_created_items s + sum_updated_items s <= length rows /\
  sum_created_prices s + sum_updated_prices s <= length rows /\
  sum_stock_reconciliations s <= length rows.
Proof.
  intros Hrun.
  destruct (import_rows_returns _ _ _ _ _ Hrun)
    as (ctx & l & w1 & k & w2 & Hscan & Herr & Hrec & -> & ->).
  destruct (scan_rows_tally _ _ _ _ _ _ _ _ Hscan) as [_ (Hi & Hp & Hm)].
  rewrite Herr in Hi, Hp.
  cbn [init_locals errors created_items updated_items created_prices updated_prices
       stock_map length Nat.add] in Hi, Hp, Hm.
  assert (k <= length (stock_map l)) as Hk.
  { destruct (negb (skip_stock_reconciliation self) && negb (dry_run self)).
    - destruct (submit_recos_tally _ _ _ _ _ _ _ Hrec) as (ops & _ & _ & _ & _ & Hle).
      exact Hle.
    - unfold ret in Hrec. simplify_eq. lia. }
  cbn [summary_of sum_created_items sum_updated_items sum_created_prices
       sum_updated_prices sum_stock_reconciliations].
  lia.
Qed.

End Totals.

(** ** The switches *)

Section Switches.
Context `{HH : Host}.

Lemma kept_refl w : kept w w.
Proof. split; [done|]. exists []. by rewrite app_nil_r. Qed.

Lemma kept_trans w1 w2 w3 : kept w1 w2 -> kept w2 w3 -> kept w1 w3.
Proof.
  intros [Hi1 [n1 Hp1]] [Hi2 [n2 Hp2]]. split; [auto|].
  exists (n1 ++ n2). by rewrite Hp2, Hp1, app_assoc.
Qed.

Lemma upsert_item_switch self n item_code name group uom l w :
  exists l1 w1,
    upsert_item self n item_code name group uom (known w item_code) l w
    = (Returned l1, w1) /\
    prices w1 = prices w /\
    created_prices l1 = created_prices l /\ updated_prices l1 = updated_prices l /\
    (update_existing self = false ->
     (forall c item, items w !! c = Some item -> items w1 !! c = Some item) /\
     updated_items l1 = updated_items l).
Proof.
  rewrite upsert_item_cases.
  destruct (dry_run self); [by exists l, w|].
  destruct (items w !! item_code) as [item|] eqn:Hi.
  - destruct (update_existing self); [|by exists l, w].
    eexists _, _. split; [reflexivity|]. by split_and!.
  - eexists _, _. split; [reflexivity|]. split_and!; try done.
    intros _. split; [|done]. intros c item Hc.
    cbn [items record set_items]. rewrite lookup_insert_ne; [done|]. congruence.
Qed.

Lemma price_step_switch self ctx n l w :
  exists l2 w2,
    price_step self ctx n (item_code_of n) l w = (Returned l2, w2) /\
    items w2 = items w /\
    created_items l2 = created_items l /\ updated_items l2 = updated_items l /\
    (skip_item_price self = true -> w2 = w /\ l2 = l) /\
    (update_existing self = false ->
     (exists new, prices w2 = prices w ++ new) /\
     updated_prices l2 = updated_prices l).
Proof.
  assert (Hnop : exists l2 w2,
            (Returned l, w) = (Returned l2, w2) /\ items w2 = items w /\
            created_items l2 = created_items l /\
            updated_items l2 = updated_items l /\
            (skip_item_price self = true -> w2 = w /\ l2 = l) /\
            (update_existing self = false ->
             (exists new, prices w2 = prices w ++ new) /\
             updated_prices l2 = updated_prices l)).
  { exists l, w. split_and!; try done. intros _. split; [|done].
    exists []. by rewrite app_nil_r. }
  unfold price_step.
  destruct (skip_item_price self); cbn [negb]; [exact Hnop|].
  destruct (Py.truthy _ && Py.nonempty _); [|exact Hnop].
  destruct (dry_run self); cbn [negb]; [exact Hnop|].
  unfold bind. rewrite upsert_item_price_cases.
  destruct (list_find _ (prices w)) as [[i p]|].
  - destruct (update_existing self).
    + eexists _, _. split; [reflexivity|]. by split_and!.
    + eexists _, _. split; [reflexivity|]. split_and!; try done.
      intros _. split; [|cbn; lia]. exists []. by rewrite app_nil_r.
  - eexists _, _. split; [reflexivity|]. split_and!; try done.
    intros _. split; [|cbn; lia]. by eexists [_].
Qed.

(** One row, whatever its outcome. *)
Lemma process_row_switch self ctx idx row l w :
  (skip_item_price self = true ->
   prices (process_row self ctx idx row l w).2 = prices w) /\
  (update_existing self = false -> kept w (process_row self ctx idx row l w).2) /\
  forall l', (process_row self ctx idx row l w).1 = Returned l' ->
    (skip_item_price self = true ->
     created_prices l' = created_prices l /\ updated_prices l' = updated_prices l) /\
    (update_existing self = false ->
     updated_items l' = updated_items l /\ updated_prices l' = updated_prices l).
Proof.
  rewrite process_row_unfold.
  destruct (normalize_row row) as [n|e].
  2:{ split; [done|]. split; [intros _; apply kept_refl|done]. }
  destruct (row_failure w n) as [f|].
  { split; [done|]. split; [intros _; apply kept_refl|].
    cbn [fst]. intros l' [= <-]. by split. }
  destruct (upsert_item_switch self n (item_code_of n) (item_name_of n)
              (item_group_of n) (stock_uom_of n) l w)
    as (l1 & w1 & Hrun1 & Hp1 & Hcp1 & Hup1 & Hno1).
  destruct (price_step_switch self ctx n l1 w1)
    as (l2 & w2 & Hrun2 & Hi2 & Hci2 & Hui2 & Hskip2 & Hno2).
  assert (Hrow :
            bind (upsert_item self n (item_code_of n) (item_name_of n)
                    (item_group_of n) (stock_uom_of n) (known w (item_code_of n)) l)
              (fun l1 =>
                 bind (price_step self ctx n (item_code_of n) l1)
                   (fun l2 => ret (stock_step self n idx (item_code_of n) l2))) w
            = (Returned (stock_step self n idx (item_code_of n) l2), w2)).
  { unfold bind at 1. rewrite Hrun1. unfold bind. by rewrite Hrun2. }
  rewrite Hrow. cbn [fst snd].
  destruct (stock_step_tally self n idx l2) as (_ & _ & Hui & Hcp & Hup & _).
  split; [|split].
  - intros Hs. destruct (Hskip2 Hs) as [-> _]. exact Hp1.
  - intros Hu. destruct (Hno1 Hu) as [Hk1 _]. destruct (Hno2 Hu) as [[new Hk2] _].
    split.
    + intros c item Hc. rewrite Hi2. by apply Hk1.
    + exists new. by rewrite Hk2, Hp1.
  - intros l' [= <-]. rewrite Hui, Hcp, Hup. split.
    + intros Hs. destruct (Hskip2 Hs) as [_ ->]. by split.
    + intros Hu. destruct (Hno1 Hu) as [_ Hx]. destruct (Hno2 Hu) as [_ Hy].
      split; congruence.
Qed.

Lemma scan_rows_switch self ctx rows idx l w :
  (skip_item_price self = true ->
   prices (scan_rows self ctx idx rows l w).2 = prices w) /\
  (update_existing self = false -> kept w (scan_rows self ctx idx rows l w).2) /\
  forall l', (scan_rows self ctx idx rows l w).1 = Returned l' ->
    (skip_item_price self = true ->
     created_prices l' = created_prices l /\ updated_prices l' = updated_prices l) /\
    (update_existing self = false ->
     updated_items l' = updated_items l /\ updated_prices l' = updated_prices l).
Proof.
  revert idx l w. induction rows as [|row rows IH]; intros idx l w.
  { cbn. split; [done|]. split; [intros _; apply kept_refl|].
    intros l' [= <-]. by split. }
  cbn [scan_rows]. unfold bind.
  destruct (process_row_switch self ctx idx row l w) as (Hp1 & Hk1 & Hl1).
  destruct (process_row self ctx idx row l w) as [[l1|e] w1]; cbn [fst snd] in *.
  2:{ split; [done|]. split; [done|]. done. }
  destruct (IH (S idx) l1 w1) as (Hp2 & Hk2 & Hl2).
  destruct (Hl1 l1 eq_refl) as [Hs1 Hu1].
  split; [|split].
  - intros Hs. by rewrite Hp2, Hp1.
  - intros Hu. eapply kept_trans; [by apply Hk1|by apply Hk2].
  - intros l' Hl'. destruct (Hl2 l' Hl') as [Hs2 Hu2]. split.
    + intros Hs. destruct (Hs1 Hs), (Hs2 Hs). split; congruence.
    + intros Hu. destruct (Hu1 Hu), (Hu2 Hu). split; congruence.
Qed.

(** After the row loop no item and no price is touched. *)
Lemma finish_store self ctx l w :
  items (finish self ctx l w).2 = items w /\
  prices (finish self ctx l w).2 = prices w.
Proof.
  destruct (errors l) as [|e errs] eqn:He.
  2:{ by rewrite (finish_errors self ctx l w e errs He). }
  rewrite (finish_clean self ctx l w He).
  destruct (negb (skip_stock_reconciliation self) && negb (dry_run self)).
  - destruct (submit_recos_frame self ctx (stock_map l) 0 w) as (_ & Hi & Hp & _).
    by destruct (submit_recos self ctx (stock_map l) 0 w) as [[k|e] w1].
  - done.
Qed.

(** X16. Without [update_existing] a run changes nothing that the store
    already holds, whether it returns or fails: every item stays as it
    was and every item price stays where it was with its rate, new prices
    come behind the old ones; and the summary of a run that returns
    counts no updated item and no updated price. *)
Theorem no_update_keeps_existing self rows w :
  update_existing self = false ->
  kept w (import_rows self rows w).2 /\
  forall s w', import_rows self rows w = (Returned s, w') ->
    sum_updated_items s = 0 /\ sum_updated_prices s = 0.
Proof.
  intros Hu. split.
  - unfold import_rows. unfold bind at 1.
    pose proof (resolve_config_world self w) as Hw.
    destruct (resolve_config self w) as [[ctx|e] w0]; cbn [snd] in Hw; subst w0;
      [|apply kept_refl].
    unfold bind.
    destruct (scan_rows_switch self ctx rows 2 init_locals w) as (_ & Hk & _).
    specialize (Hk Hu).
    destruct (scan_rows self ctx 2 rows init_locals w) as [[l|e] w1];
      cbn [snd] in *; [|done].
    destruct (finish_store self ctx l w1) as [Hi Hp].
    destruct Hk as [Hk1 Hk2]. split.
    + intros c item Hc. rewrite Hi. by apply Hk1.
    + by rewrite Hp.
  - intros s w' Hrun.
    destruct (import_rows_returns _ _ _ _ _ Hrun)
      as (ctx & l & w1 & k & w2 & Hscan & _ & _ & -> & _).
    destruct (scan_rows_switch self ctx rows 2 init_locals w) as (_ & _ & Hl).
    rewrite Hscan in Hl. destruct (Hl l eq_refl) as [_ Hx].
    exact (Hx Hu).
Qed.

(** X17. A stage that is switched off does nothing. With
    [skip_item_price] a run leaves the item prices of the store as they
    are and counts no price; with [skip_stock_reconciliation] it leaves
    the stock reconciliations as they are and counts none; and the
    summary of a dry run is all zeros. *)
Theorem skipped_stages self rows w :
  (skip_item_price self = true ->
   prices (import_rows self rows w).2 = prices w /\
   forall s w', import_rows self rows w = (Returned s, w') ->
     sum_created_prices s = 0 /\ sum_updated_prices s = 0) /\
  (skip_stock_reconciliation self = true ->
   recos (import_rows self rows w).2 = recos w /\
   forall s w', import_rows self rows w = (Returned s, w') ->
     sum_stock_reconciliations s = 0) /\
  (dry_run self = true ->
   forall s w', import_rows self rows w = (Returned s, w') -> s = zero_summary).
Proof.
  split; [|split].
  - intros Hs. split.
    + unfold import_rows. unfold bind at 1.
      pose proof (resolve_config_world self w) as Hw.
      destruct (resolve_config self w) as [[ctx|e] w0]; cbn [snd] in Hw; subst w0;
        [|done].
      unfold bind.
      destruct (scan_rows_switch self ctx rows 2 init_locals w) as (Hp & _ & _).
      specialize (Hp Hs).
      destruct (scan_rows self ctx 2 rows init_locals w) as [[l|e] w1];
        cbn [snd] in *; [|done].
      destruct (finish_store self ctx l w1) as [_ Hp']. by rewrite Hp'.
    + intros s w' Hrun.
      destruct (import_rows_returns _ _ _ _ _ Hrun)
        as (ctx & l & w1 & k & w2 & Hscan & _ & _ & -> & _).
      destruct (scan_rows_switch self ctx rows 2 init_locals w) as (_ & _ & Hl).
      rewrite Hscan in Hl. destruct (Hl l eq_refl) as [Hx _].
      exact (Hx Hs).
  - intros Hs. split.
    + unfold import_rows. unfold bind at 1.
      pose proof (resolve_config_world self w) as Hw.
      destruct (resolve_config self w) as [[ctx|e] w0]; cbn [snd] in Hw; subst w0;
        [|done].
      unfold bind.
      destruct (scan_rows_world self ctx rows 2 init_locals w) as [(_ & Hr & _) _].
      destruct (scan_rows self ctx 2 rows init_locals w) as [[l|e] w1];
        cbn [snd] in *; [|done].
      destruct (errors l) as [|e errs] eqn:He.
      * rewrite (finish_clean self ctx l w1 He), Hs. exact Hr.
      * rewrite (finish_errors self ctx l w1 e errs He). exact Hr.
    + intros s w' Hrun.
      destruct (import_rows_returns _ _ _ _ _ Hrun)
        as (ctx & l & w1 & k & w2 & _ & _ & Hrec & -> & _).
      rewrite Hs in Hrec. cbn [negb andb] in Hrec. unfold ret in Hrec. by simplify_eq.
  - intros Hd s w' Hrun.
    destruct (import_rows_returns _ _ _ _ _ Hrun)
      as (ctx & l & w1 & k & w2 & Hscan & _ & Hrec & -> & _).
    rewrite Hd, andb_false_r in Hrec. unfold ret in Hrec. simplify_eq.
    destruct (scan_rows_tally _ _ _ _ _ _ _ _ Hscan)
      as [(ops & Hj & _ & Hci & Hui & Hcp & Hup) _].
    destruct (scan_rows_world self ctx rows 2 init_locals w) as [_ Hw].
    rewrite Hscan in Hw. cbn [snd] in Hw. rewrite (Hw Hd) in Hj.
    rewrite <- (app_nil_r (journal w)) in Hj at 1.
    apply app_inv_head in Hj. subst ops.
    unfold summary_of, zero_summary. by rewrite Hci, Hui, Hcp, Hup.
Qed.

End Switches.

(** Two rows for the same item and warehouse, accepted by the store: one
    stock reconciliation, for warehouse WH1. *)
Lemma one_reconciliation_per_warehouse_witness :
  let self := Demo.the_settings None None Demo.account_a false false true false in
  let w := Demo.the_world (Some "Acme") "" ∅ in
  let rows := [Demo.widget_row; Demo.widget_again] in
  let scanned := scan_rows self Demo.the_ctx 2 rows init_locals w in
  let l := Demo.value_of init_locals scanned in
  scan_rows self Demo.the_ctx 2 rows init_locals w = (Returned l, scanned.2) /\
  errors l = [] /\
  skip_stock_reconciliation self = false /\
  dry_run self = false /\
  accepts self Demo.the_ctx scanned.2 (stock_map l) /\
  stock_map l = [("WH1", [("ITM1", Demo.ten)])] /\
  exists w2,
    finish self Demo.the_ctx l scanned.2
    = (Returned (summary_of l (length (stock_map l))), w2) /\
    recos w2
    = recos scanned.2
      ++ map (fun g => (reco_of self Demo.the_ctx scanned.2 g, true)) (stock_map l).
Proof.
  intros self w rows scanned l.
  assert (Hs : scan_rows self Demo.the_ctx 2 rows init_locals w
               = (Returned l, scanned.2)) by reflexivity.
  assert (He : errors l = []) by reflexivity.
  assert (Ha : accepts self Demo.the_ctx scanned.2 (stock_map l)).
  { intros w' g _. split; reflexivity. }
  split; [exact Hs|]. split; [exact He|]. split; [reflexivity|].
  split; [reflexivity|]. split; [exact Ha|]. split; [reflexivity|].
  destruct (one_reconciliation_per_warehouse self Demo.the_ctx rows w l scanned.2
              Hs He eq_refl eq_refl Ha) as (w2 & Hfin & Hrecos & _).
  exists w2. split; [exact Hfin|exact Hrecos].
Defined.

(** Three rows, two new items and one of them a second time: two item
    inserts, one item save, one price insert, one stock reconciliation. *)
Lemma summary_counts_store_calls_witness :
  let self := Demo.the_settings None None Demo.account_a false true false false in
  let w := Demo.the_world (Some "Acme") "" ∅ in
  let rows := [Demo.priced_row; Demo.widget_row; Demo.widget_again] in
  let run := import_rows self rows w in
  let s :=
    {| sum_created_items := 2; sum_updated_items := 1; sum_created_prices := 1;
       sum_updated_prices := 0; sum_stock_reconciliations := 1 |} in
  import_rows self rows w = (Returned s, run.2) /\
  exists ops,
    journal run.2 = journal w ++ ops /\
    count_ops is_item_insert ops = 2 /\
    count_ops is_item_save ops = 1 /\
    count_ops is_price_insert ops = 1 /\
    count_ops is_price_save ops = 0 /\
    count_ops is_reco_submit ops = 1 /\
    count_ops is_reco_insert ops = 1.
Proof.
  intros self w rows run s.
  assert (Hout : run.1 = Returned s) by (vm_compute; reflexivity).
  assert (Hrun : import_rows self rows w = (Returned s, run.2)).
  { fold run. rewrite <- Hout. by destruct run. }
  split; [exact Hrun|].
  destruct (summary_counts_store_calls self rows w s run.2 Hrun)
    as (ops & Hj & Hci & Hui & Hcp & Hup & Hr & Hri).
  exists ops. cbn in Hci, Hui, Hcp, Hup, Hr. rewrite Hri.
  split; [exact Hj|]. by split_and!.
Defined.

(** The same three rows: three item calls, one price call, one stock
    reconciliation. *)
Lemma summary_bounded_by_rows_witness :
  let self := Demo.the_settings None None Demo.account_a false true false false in
  let w := Demo.the_world (Some "Acme") "" ∅ in
  let rows := [Demo.priced_row; Demo.widget_row; Demo.widget_again] in
  let run := import_rows self rows w in
  let s :=
    {| sum_created_items := 2; sum_updated_items := 1; sum_created_prices := 1;
       sum_updated_prices := 0; sum_stock_reconciliations := 1 |} in
  import_rows self rows w = (Returned s, run.2) /\
  sum_created_items s + sum_updated_items s <= 3 /\
  sum_created_prices s + sum_updated_prices s <= 3 /\
  sum_stock_reconciliations s <= 3.
Proof.
  intros self w rows run s.
  assert (Hout : run.1 = Returned s) by (vm_compute; reflexivity).
  assert (Hrun : import_rows self rows w = (Returned s, run.2)).
  { fold run. rewrite <- Hout. by destruct run. }
  split; [exact Hrun|].
  exact (summary_bounded_by_rows self rows w s run.2 Hrun).
Defined.

(** An item the store holds, met by a row that names it differently,
    without [update_existing]: the item stays as it was. *)
Lemma no_update_keeps_existing_witness :
  let self := Demo.the_settings None None Demo.account_a false false true false in
  let w := Demo.the_world (Some "Acme") "" {[ "ITM1" := Demo.an_item ]} in
  let rows := [Demo.widget_row; Demo.widget_again] in
  update_existing self = false /\
  items w !! "ITM1" = Some Demo.an_item /\
  items (import_rows self rows w).2 !! "ITM1" = Some Demo.an_item.
Proof.
  intros self w rows.
  assert (Hi : items w !! "ITM1" = Some Demo.an_item) by apply lookup_singleton_eq.
  split; [reflexivity|]. split; [exact Hi|].
  destruct (no_update_keeps_existing self rows w eq_refl) as [[Hk _] _].
  exact (Hk "ITM1" Demo.an_item Hi).
Defined.

(** ** The price of a row *)

Section RowPrice.
Context `{HH : Host}.

(** X18. In a real run that imports prices, a row that passes validation
    touches the item prices as follows. Without a price list (the row's
    own, else the default one) or without a rate it leaves them alone.
    Otherwise it looks for a selling price of its item under that price
    list and currency (the row's own, else the resolved default): when
    there is none it adds one with the row's rate at the end, when there
    is one it gives the first such price the row's rate if
    [update_existing] is on and leaves it alone if not; the counters
    follow. *)
Theorem row_price self ctx idx row l w n :
  dry_run self = false ->
  skip_item_price self = false ->
  normalize_row row = Returned n ->
  row_failure w n = None ->
  exists l' w',
    process_row self ctx idx row l w = (Returned l', w') /\
    match row_price_key self ctx n with
    | None =>
        prices w' = prices w /\
        created_prices l' = created_prices l /\ updated_prices l' = updated_prices l
    | Some (c, pl, cur) =>
        let rate :=
          flt (_get_value n ["price_list_rate"; "standard_selling_rate";
                             "standard_rate"]) in
        match list_find (fun p => Is_true (price_matches c pl cur p)) (prices w) with
        | None =>
            prices w' =
            prices w ++ [{| ip_item_code := c; ip_price_list := pl;
                            ip_currency := cur; ip_rate := rate;
                            ip_selling := true |}] /\
            created_prices l' = created_prices l + 1 /\
            updated_prices l' = updated_prices l
        | Some (i, p) =>
            prices w' =
            (if update_existing self then <[i := with_rate rate p]> (prices w)
             else prices w) /\
            created_prices l' = created_prices l /\
            updated_prices l' =
            updated_prices l + (if update_existing self then 1 else 0)
        end
    end.
Proof.
  intros Hd Hskip Hn Hf.
  destruct (upsert_item_spec self n (item_code_of n) (item_name_of n)
              (item_group_of n) (stock_uom_of n) l w)
    as (l1 & w1 & Hrun1 & _ & Hcp1 & Hup1 & _ & Hp1 & _).
  assert (Hrow : forall l2 w2,
            price_step self ctx n (item_code_of n) l1 w1 = (Returned l2, w2) ->
            process_row self ctx idx row l w
            = (Returned (stock_step self n idx (item_code_of n) l2), w2)).
  { intros l2 w2 Hrun2. rewrite process_row_unfold, Hn, Hf.
    unfold bind at 1. rewrite Hrun1. unfold bind. by rewrite Hrun2. }
  assert (Hstock : forall l2,
            created_prices (stock_step self n idx (item_code_of n) l2)
            = created_prices l2 /\
            updated_prices (stock_step self n idx (item_code_of n) l2)
            = updated_prices l2).
  { intros l2. by destruct (stock_step_tally self n idx l2) as (_ & _ & _ & ? & ? & _). }
  unfold row_price_key. unfold price_step in Hrow.
  rewrite Hskip, Hd in Hrow. cbn [negb] in Hrow.
  set (pl := Py.or_else (Some (_get_value n ["price_list"])) (default_price_list self))
    in *.
  set (cur := Py.or_else (Some (_get_value n ["currency"])) (r_currency ctx)) in *.
  set (rt := _get_value n ["price_list_rate"; "standard_selling_rate"; "standard_rate"])
    in *.
  destruct (Py.truthy pl && Py.nonempty rt).
  2:{ eexists _, w1. split; [by apply Hrow|].
      destruct (Hstock l1) as [-> ->]. by split_and!. }
  cbv zeta. unfold bind in Hrow. rewrite upsert_item_price_cases in Hrow.
  rewrite Hp1 in Hrow.
  destruct (list_find _ (prices w)) as [[i p]|].
  - destruct (update_existing self).
    + eexists _, _. split; [by apply Hrow|].
      cbn [fst snd]. destruct (Hstock (count_prices 0 1 l1)) as [-> ->].
      cbn [count_prices created_prices updated_prices prices record set_prices fst snd].
      rewrite Hp1. split_and!; [done|lia|lia].
    + eexists _, _. split; [by apply Hrow|].
      cbn [fst snd]. destruct (Hstock (count_prices 0 0 l1)) as [-> ->].
      cbn [count_prices created_prices updated_prices fst snd].
      split_and!; [done|lia|lia].
  - eexists _, _. split; [by apply Hrow|].
    cbn [fst snd]. destruct (Hstock (count_prices 1 0 l1)) as [-> ->].
    cbn [count_prices created_prices updated_prices prices record set_prices fst snd].
    rewrite Hp1. split_and!; [done|lia|lia].
Qed.

End RowPrice.

(** A new item with a standard rate of 12 and no price list of its own:
    one selling price under the default price list and currency. *)
Lemma row_price_witness :
  let self := Demo.the_settings None None Demo.account_a false false false false in
  let w := Demo.the_world (Some "Acme") "" ∅ in
  let n := Demo.normalized Demo.priced_row in
  dry_run self = false /\
  skip_item_price self = false /\
  normalize_row Demo.priced_row = Returned n /\
  row_failure w n = None /\
  row_price_key self Demo.the_ctx n
  = Some ("ITM2", Some "Standard Selling", Some "USD") /\
  exists l' w',
    process_row self Demo.the_ctx 2 Demo.priced_row init_locals w = (Returned l', w') /\
    prices w' = [{| ip_item_code := "ITM2"; ip_price_list := Some "Standard Selling";
                    ip_currency := Some "USD"; ip_rate := 12%Z;
                    ip_selling := true |}] /\
    created_prices l' = 1 /\ updated_prices l' = 0.
Proof.
  intros self w n.
  assert (Hn : normalize_row Demo.priced_row = Returned n) by reflexivity.
  assert (Hf : row_failure w n = None) by reflexivity.
  assert (Hk : row_price_key self Demo.the_ctx n
               = Some ("ITM2", Some "Standard Selling", Some "USD")) by reflexivity.
  split; [reflexivity|]. split; [reflexivity|]. split; [exact Hn|].
  split; [exact Hf|]. split; [exact Hk|].
  destruct (row_price self Demo.the_ctx 2 Demo.priced_row init_locals w n
              eq_refl eq_refl Hn Hf) as (l' & w' & Hrun & Hprice).
  rewrite Hk in Hprice. exists l', w'. split; [exact Hrun|exact Hprice].
Defined.
